(** * Organization Management Service: the tenant lifecycle, embedded and verified

    A shallow embedding of [app/services/org_service.py], [app/db.py],
    [app/models.py], [app/routes/admin.py] and [app/auth.py].

    - Python [str] values are modelled by [string]; a character is read as a
      code point below 256, which is closed under [str.strip] and [str.lower].
    - The Mongo database is a record: the [organizations] and [admins]
      collections are lists of documents in insertion order ([find_one],
      [update_one] and [delete_one] act on the first match), the tenant data
      collections are a finite map from collection name to its documents.
    - Every coroutine of the source is awaited as soon as it is created, so
      the code is sequential: a coroutine is a function from the database to
      an outcome (a returned value or a raised exception), the database left
      behind, and the log of driver calls issued, in order.
    - The driver is modelled where it serves the call: every call
      completes, and [create_collection] raises only on an existing name. A
      name the driver or the server refuses ([driver_accepts] gives
      pymongo's rule) and a lost connection are outside the model, so what
      is proved of a call that writes is proved of the completed call; the
      HTTP errors of the service are all raised before its first write.
    - [hash_password] and [verify_password] come from [app/utils.py], which
      is not among the sources: they are parameters, and [hash_password] is
      a function of the password alone. *)

From Stdlib Require Import String Ascii NArith List Lia.
From stdpp Require Import base gmap strings list fin_maps.

Open Scope string_scope.
Open Scope list_scope.

(** ** Strings: [str.strip], [str.lower] and the f-string [f"org_{name}"] *)

Definition isspace (c : ascii) : bool :=
  let n := N_of_ascii c in
  ((9 <=? n) && (n <=? 13) || (28 <=? n) && (n <=? 32) || (n =? 133) || (n =? 160))%N.

Definition lower_char (c : ascii) : ascii :=
  let n := N_of_ascii c in
  if ((65 <=? n) && (n <=? 90) || (192 <=? n) && (n <=? 222) && negb (n =? 215))%N
  then ascii_of_N (n + 32)
  else c.

Fixpoint lower (s : string) : string :=
  match s with
  | EmptyString => EmptyString
  | String c s' => String (lower_char c) (lower s')
  end.

Fixpoint lstrip (s : string) : string :=
  match s with
  | EmptyString => EmptyString
  | String c s' => if isspace c then lstrip s' else s
  end.

Fixpoint rstrip (s : string) : string :=
  match s with
  | EmptyString => EmptyString
  | String c s' =>
      match rstrip s' with
      | EmptyString => if isspace c then EmptyString else String c EmptyString
      | r => String c r
      end
  end.

Definition strip (s : string) : string := rstrip (lstrip s).

(** [name.strip().lower()], the key every operation computes from a name. *)
Definition normalize (s : string) : string := lower (strip s).

(** [f"org_{org_name}"] *)
Definition org_collection_name (org_name : string) : string := "org_" +:+ org_name.

(** Python truthiness of a [str] and of an [Optional[str]]. *)
Definition truthy (s : string) : bool :=
  match s with EmptyString => false | _ => true end.

Definition truthy_opt (o : option string) : bool :=
  match o with Some s => truthy s | None => false end.

(** ** Documents and request models *)

(** A [bson.ObjectId]. The registry stores [str(inserted_id)] and reads it
    back with [ObjectId(...)]; the two are inverse, so both forms are the
    same value here. *)
Definition ObjectId := nat.

(** A document of a tenant data collection: opaque to this code. *)
Definition Document := string.

Module OrgDoc.
Record t := mk {
  _id : ObjectId;
  organization_name : string;
  collection_name : string;
  admin_id : ObjectId;
  created_at : nat
}.
End OrgDoc.

Module AdminDoc.
Record t := mk {
  _id : ObjectId;
  email : string;
  password : string;
  role : string;
  organization : string
}.
End AdminDoc.

(** [app/models.py] *)
Module OrgCreate.
Record t := mk {
  organization_name : string;
  email : string;
  password : string
}.
(** [Field(..., min_length=3)] on the name, [min_length=6] on the password;
    both count the characters of the string as sent. The [EmailStr] syntax
    check is left out. *)
Definition valid (p : t) : bool :=
  (3 <=? String.length (organization_name p))%nat
  && (6 <=? String.length (password p))%nat.
End OrgCreate.

Module OrgUpdate.
Record t := mk {
  organization_name : string;
  email : option string;
  password : option string
}.
End OrgUpdate.

Module AdminLogin.
Record t := mk { email : string; password : string }.
End AdminLogin.

(** [OrgOut], the dict [create_organization] returns. *)
Module OrgOut.
Record t := mk {
  organization_name : string;
  collection_name : string;
  admin_id : ObjectId
}.
End OrgOut.

(** The dict [get_current_admin] returns from a verified token:
    [{"admin_id": ..., "org_id": ...}]. Tokens are minted by [admin_login]
    only, so [admin_id] is the string form of an [ObjectId]. *)
Record Claim := { claim_admin_id : ObjectId; claim_org_id : string }.

(** ** The database *)

Record Database := {
  organizations : list OrgDoc.t;
  admins : list AdminDoc.t;
  collections : gmap string (list Document);
  next_oid : ObjectId
}.

Definition empty_db : Database :=
  {| organizations := []; admins := []; collections := ∅; next_oid := 0 |}.

(** Query and update documents, as the source writes them. *)
Inductive OrgQuery :=
| org_by_name (organization_name : string)   (* {"organization_name": n} *)
| org_by_id (i : ObjectId)                   (* {"_id": i} *)
| org_by_admin_id (i : ObjectId).            (* {"admin_id": str(i)} *)

Inductive AdminQuery :=
| admin_by_id (i : ObjectId)                 (* {"_id": ObjectId(i)} *)
| admin_by_email (e : string).               (* {"email": e} *)

(** [{"$set": {"organization_name": n, "collection_name": c}}] *)
Record OrgSet := { set_organization_name : string; set_collection_name : string }.

(** [{"$set": fields}] on an admin: each key is present or not. *)
Record AdminSet := {
  set_email : option string;
  set_password : option string;
  set_organization : option string
}.

Definition org_matches (q : OrgQuery) (d : OrgDoc.t) : bool :=
  match q with
  | org_by_name n => bool_decide (OrgDoc.organization_name d = n)
  | org_by_id i => bool_decide (OrgDoc._id d = i)
  | org_by_admin_id i => bool_decide (OrgDoc.admin_id d = i)
  end.

Definition admin_matches (q : AdminQuery) (d : AdminDoc.t) : bool :=
  match q with
  | admin_by_id i => bool_decide (AdminDoc._id d = i)
  | admin_by_email e => bool_decide (AdminDoc.email d = e)
  end.

Definition apply_org_set (u : OrgSet) (d : OrgDoc.t) : OrgDoc.t :=
  OrgDoc.mk (OrgDoc._id d) (set_organization_name u) (set_collection_name u)
            (OrgDoc.admin_id d) (OrgDoc.created_at d).

Definition apply_admin_set (u : AdminSet) (d : AdminDoc.t) : AdminDoc.t :=
  AdminDoc.mk (AdminDoc._id d)
              (default (AdminDoc.email d) (set_email u))
              (default (AdminDoc.password d) (set_password u))
              (AdminDoc.role d)
              (default (AdminDoc.organization d) (set_organization u)).

(** First match, in natural order. *)
Fixpoint find_first {A} (f : A -> bool) (l : list A) : option A :=
  match l with
  | [] => None
  | x :: l' => if f x then Some x else find_first f l'
  end.

Fixpoint update_first {A} (f : A -> bool) (g : A -> A) (l : list A) : list A :=
  match l with
  | [] => []
  | x :: l' => if f x then g x :: l' else x :: update_first f g l'
  end.

Fixpoint delete_first {A} (f : A -> bool) (l : list A) : list A :=
  match l with
  | [] => []
  | x :: l' => if f x then l' else x :: delete_first f l'
  end.

(** ** Coroutines: state, exceptions and the log of driver calls *)

Inductive Exn :=
| HTTPException (status_code : nat) (detail : string)
| CollectionInvalid                  (* pymongo: the collection already exists *)
| TypeError                          (* subscripting [None] *)
| OverflowError.                     (* a [datetime] or [timedelta] out of range *)

Inductive Outcome (A : Type) :=
| Returned (a : A)
| Raised (e : Exn).
Arguments Returned {A} a.
Arguments Raised {A} e.

(** The calls that reach the Mongo driver. *)
Inductive DbCall :=
| Call_organizations_find_one (q : OrgQuery)
| Call_organizations_insert_one (d : OrgDoc.t)
| Call_organizations_update_one (q : OrgQuery) (u : OrgSet)
| Call_organizations_delete_one (q : OrgQuery)
| Call_admins_find_one (q : AdminQuery)
| Call_admins_insert_one (d : AdminDoc.t)
| Call_admins_update_one (q : AdminQuery) (u : AdminSet)
| Call_admins_delete_one (q : AdminQuery)
| Call_list_collection_names
| Call_create_collection (name : string)
| Call_drop_collection (name : string)
| Call_aggregate_out (source target : string).

Record Run (A : Type) := MkRun {
  outcome : Outcome A;
  store : Database;
  calls : list DbCall
}.
Arguments MkRun {A} _ _ _.
Arguments outcome {A} _.
Arguments store {A} _.
Arguments calls {A} _.

Definition Async (A : Type) : Type := Database -> Run A.

Definition async_ret {A} (a : A) : Async A :=
  fun db => MkRun (Returned a) db [].

Definition raise {A} (e : Exn) : Async A :=
  fun db => MkRun (Raised e) db [].

(** The calls [cs] were issued before the run [r]. *)
Definition log_before {A} (cs : list DbCall) (r : Run A) : Run A :=
  match r with
  | MkRun o db' cs' => MkRun o db' (cs ++ cs')
  end.

(** [await m] followed by the rest of the body. *)
Definition async_bind {A B} (k : A -> Async B) (m : Async A) : Async B :=
  fun db =>
    match m db with
    | MkRun (Returned a) db' cs => log_before cs (k a db')
    | MkRun (Raised e) db' cs => MkRun (Raised e) db' cs
    end.

#[global] Instance Async_ret : MRet Async := @async_ret.
#[global] Instance Async_bind : MBind Async := @async_bind.

(** One driver call: it returns [a], leaves [db'] and is logged as [c]. *)
Definition driver {A} (c : DbCall) (a : A) (db' : Database) : Run A :=
  MkRun (Returned a) db' [c].

Definition with_organizations (l : list OrgDoc.t) (db : Database) : Database :=
  {| organizations := l; admins := admins db;
     collections := collections db; next_oid := next_oid db |}.

Definition with_admins (l : list AdminDoc.t) (db : Database) : Database :=
  {| organizations := organizations db; admins := l;
     collections := collections db; next_oid := next_oid db |}.

Definition with_collections (m : gmap string (list Document)) (db : Database) : Database :=
  {| organizations := organizations db; admins := admins db;
     collections := m; next_oid := next_oid db |}.

(** [insert_one] lets the driver generate the [_id]: a fresh one. *)
Definition fresh_oid (db : Database) : Database :=
  {| organizations := organizations db; admins := admins db;
     collections := collections db; next_oid := S (next_oid db) |}.

Definition organizations_find_one (q : OrgQuery) : Async (option OrgDoc.t) :=
  fun db => driver (Call_organizations_find_one q)
                   (find_first (org_matches q) (organizations db)) db.

Definition organizations_insert_one (doc : ObjectId -> OrgDoc.t) : Async ObjectId :=
  fun db =>
    let d := doc (next_oid db) in
    driver (Call_organizations_insert_one d) (next_oid db)
           (fresh_oid (with_organizations (organizations db ++ [d]) db)).

Definition organizations_update_one (q : OrgQuery) (u : OrgSet) : Async unit :=
  fun db => driver (Call_organizations_update_one q u) tt
                   (with_organizations
                      (update_first (org_matches q) (apply_org_set u) (organizations db)) db).

Definition organizations_delete_one (q : OrgQuery) : Async unit :=
  fun db => driver (Call_organizations_delete_one q) tt
                   (with_organizations (delete_first (org_matches q) (organizations db)) db).

Definition admins_find_one (q : AdminQuery) : Async (option AdminDoc.t) :=
  fun db => driver (Call_admins_find_one q)
                   (find_first (admin_matches q) (admins db)) db.

Definition admins_insert_one (doc : ObjectId -> AdminDoc.t) : Async ObjectId :=
  fun db =>
    let d := doc (next_oid db) in
    driver (Call_admins_insert_one d) (next_oid db)
           (fresh_oid (with_admins (admins db ++ [d]) db)).

Definition admins_update_one (q : AdminQuery) (u : AdminSet) : Async unit :=
  fun db => driver (Call_admins_update_one q u) tt
                   (with_admins
                      (update_first (admin_matches q) (apply_admin_set u) (admins db)) db).

Definition admins_delete_one (q : AdminQuery) : Async unit :=
  fun db => driver (Call_admins_delete_one q) tt
                   (with_admins (delete_first (admin_matches q) (admins db)) db).

(** The names of the tenant data collections. The master collections
    [organizations] and [admins] live in the same database, but the source
    only ever tests names of the form [org_...], which neither of them has
    (see [org_collection_name_not_master]). *)
Definition list_collection_names : Async (gset string) :=
  fun db => driver Call_list_collection_names (dom (collections db)) db.

(** [db.create_collection(name)] on a name the driver accepts: pymongo
    raises [CollectionInvalid] when the collection exists. On a name it
    refuses ([driver_accepts] below is false) pymongo raises [InvalidName]
    instead of creating; that case is not modelled. *)
Definition create_collection (name : string) : Async unit :=
  fun db =>
    match collections db !! name with
    | Some _ => MkRun (Raised CollectionInvalid) db [Call_create_collection name]
    | None => driver (Call_create_collection name) tt
                     (with_collections (<[name := []]> (collections db)) db)
    end.

Definition drop_collection (name : string) : Async unit :=
  fun db => driver (Call_drop_collection name) tt
                   (with_collections (delete name (collections db)) db).

(** [db[source].aggregate([{"$match": {}}, {"$out": target}]).to_list(None)],
    completed: [$out] creates the target if it does not exist and replaces
    it if it does; the cursor itself yields nothing. A target the server
    refuses makes the call raise instead; that case is not modelled. *)
Definition aggregate_out (source target : string) : Async (list Document) :=
  fun db => driver (Call_aggregate_out source target) []
                   (with_collections
                      (<[target := default [] (collections db !! source)]> (collections db)) db).

(** ** [app/db.py] *)

Definition create_org_collection (org_name : string) : Async string :=
  let coll_name := org_collection_name org_name in
  collections ← list_collection_names;
  _ ← (if bool_decide (coll_name ∉ collections)
       then create_collection coll_name
       else mret tt);
  mret coll_name.

Definition drop_org_collection (org_name : string) : Async bool :=
  let coll_name := org_collection_name org_name in
  collections ← list_collection_names;
  _ ← (if bool_decide (coll_name ∈ collections)
       then drop_collection coll_name
       else mret tt);
  mret true.

Definition rename_and_sync_collection (old_org_name new_org_name : string) : Async bool :=
  let old_coll_name := org_collection_name old_org_name in
  let new_coll_name := org_collection_name new_org_name in
  collections ← list_collection_names;
  if bool_decide (old_coll_name ∉ collections) then mret true
  else
    _ ← aggregate_out old_coll_name new_coll_name;
    _ ← drop_collection old_coll_name;
    mret true.


(** ** [app/services/org_service.py] and [app/routes/admin.py] *)

Section Service.

(** [app.utils.hash_password] and [app.utils.verify_password]: the module is
    not among the sources (the Credential Store adapter), so both are taken
    as parameters. *)
Variable hash_password : string -> string.
Variable verify_password : string -> string -> bool.

Definition create_organization (payload : OrgCreate.t) (utcnow : nat) : Async OrgOut.t :=
  let org_name := normalize (OrgCreate.organization_name payload) in
  existing ← organizations_find_one (org_by_name org_name);
  match existing with
  | Some _ => raise (HTTPException 400 "Organization already exists")
  | None =>
    let collection_name := org_collection_name org_name in
    _ ← create_org_collection org_name;
    res ← admins_insert_one
            (fun i => AdminDoc.mk i (OrgCreate.email payload)
                        (hash_password (OrgCreate.password payload)) "admin" org_name);
    _ ← organizations_insert_one
          (fun i => OrgDoc.mk i org_name collection_name res utcnow);
    mret (OrgOut.mk org_name collection_name res)
  end.

Definition get_organization (organization_name : string) : Async OrgDoc.t :=
  org ← organizations_find_one (org_by_name (normalize organization_name));
  match org with
  | None => raise (HTTPException 404 "Organization not found")
  | Some org => mret org
  end.

(** The [$set] document built in step 3 of [update_organization]. *)
Definition update_fields (payload : OrgUpdate.t) : AdminSet :=
  {| set_email :=
       if truthy_opt (OrgUpdate.email payload) then OrgUpdate.email payload else None;
     set_password :=
       if truthy_opt (OrgUpdate.password payload)
       then hash_password <$> OrgUpdate.password payload else None;
     set_organization := None |}.

(** Truthiness of the dict [update_fields]: it has a key. *)
Definition has_fields (u : AdminSet) : bool :=
  bool_decide (is_Some (set_email u)) || bool_decide (is_Some (set_password u))
  || bool_decide (is_Some (set_organization u)).

Definition update_organization (current_admin : Claim) (payload : OrgUpdate.t)
  : Async OrgDoc.t :=
  let target_org_name := claim_org_id current_admin in
  org ← organizations_find_one (org_by_name target_org_name);
  match org with
  | None => raise (HTTPException 404 "Organization not found")
  | Some org =>
      let new_org_name := normalize (OrgUpdate.organization_name payload) in
      target_org_name ←
        (if bool_decide (new_org_name ≠ target_org_name) then
           existing ← organizations_find_one (org_by_name new_org_name);
           match existing with
           | Some _ => raise (HTTPException 400 "New organization name already exists")
           | None =>
             let new_collection_name := org_collection_name new_org_name in
             _ ← organizations_update_one
                   (org_by_id (OrgDoc._id org))
                   {| set_organization_name := new_org_name;
                      set_collection_name := new_collection_name |};
             _ ← admins_update_one
                   (admin_by_id (claim_admin_id current_admin))
                   {| set_email := None; set_password := None;
                      set_organization := Some new_org_name |};
             _ ← rename_and_sync_collection target_org_name new_org_name;
             mret new_org_name
           end
         else mret target_org_name);
      _ ← (if truthy_opt (OrgUpdate.email payload) || truthy_opt (OrgUpdate.password payload)
           then
             if has_fields (update_fields payload)
             then admins_update_one (admin_by_id (claim_admin_id current_admin))
                                    (update_fields payload)
             else mret tt
           else mret tt);
      updated_org ← organizations_find_one (org_by_name target_org_name);
      match updated_org with
      | None => raise TypeError
      | Some updated_org => mret updated_org
      end
  end.

(** Returns the ["organization"] entry of [{"status": "deleted", ...}]. *)
Definition delete_organization (organization_name : string) (current_admin : Claim)
  : Async string :=
  if bool_decide (claim_org_id current_admin ≠ normalize organization_name)
  then raise (HTTPException 403 "You are not authorized to delete this organization")
  else
    let org_name := normalize organization_name in
    org ← organizations_find_one (org_by_name org_name);
    match org with
    | None => raise (HTTPException 404 "Organization not found")
    | Some org =>
        _ ← drop_org_collection org_name;
        _ ← admins_delete_one (admin_by_id (OrgDoc.admin_id org));
        _ ← organizations_delete_one (org_by_name org_name);
        mret org_name
    end.

(** [admin_login] returns a token that carries [{"admin_id", "org_id"}];
    [get_current_admin] reads the same two entries back from it. The token
    codec is external: the login is modelled as returning the claim. *)
Definition admin_login (payload : AdminLogin.t) : Async Claim :=
  admin ← admins_find_one (admin_by_email (AdminLogin.email payload));
  match admin with
  | None => raise (HTTPException 401 "Invalid credentials")
  | Some admin =>
      if negb (verify_password (AdminLogin.password payload) (AdminDoc.password admin))
      then raise (HTTPException 401 "Invalid credentials")
      else
        org ← organizations_find_one (org_by_admin_id (AdminDoc._id admin));
        match org with
        | None => raise (HTTPException 401 "Organization linkage error")
        | Some org =>
            mret {| claim_admin_id := AdminDoc._id admin;
                    claim_org_id := OrgDoc.organization_name org |}
        end
  end.

End Service.

(** The spec's names for the HTTP errors. *)
Definition AlreadyExists (e : Exn) : Prop :=
  match e with HTTPException 400 _ => True | _ => False end.
Definition Forbidden (e : Exn) : Prop :=
  match e with HTTPException 403 _ => True | _ => False end.
Definition NotFound (e : Exn) : Prop :=
  match e with HTTPException 404 _ => True | _ => False end.

(** ** The registry *)

(** What [db.organizations.find_one({"organization_name": n})] returns. *)
Definition lookup_org (n : string) (db : Database) : option OrgDoc.t :=
  find_first (org_matches (org_by_name n)) (organizations db).

(** What [db.admins.find_one({"_id": i})] would return. *)
Definition lookup_admin (i : ObjectId) (db : Database) : option AdminDoc.t :=
  find_first (admin_matches (admin_by_id i)) (admins db).

Definition registered (n : string) (db : Database) : Prop :=
  ∃ d, d ∈ organizations db ∧ OrgDoc.organization_name d = n.

(** The driver calls of the migration, given whether the source exists. *)
Definition migration_calls (old_coll_name new_coll_name : string) (present : bool)
  : list DbCall :=
  Call_list_collection_names ::
  (if present
   then [Call_aggregate_out old_coll_name new_coll_name;
         Call_drop_collection old_coll_name]
   else []).

(** ** Invariants of the database *)

(** The registry invariant: every record's name is in normal form, its
    collection name is derived from it, and no two records share a name. *)
Definition tenant_inv (db : Database) : Prop :=
  (∀ d, d ∈ organizations db ->
        OrgDoc.collection_name d = org_collection_name (OrgDoc.organization_name d)
        ∧ normalize (OrgDoc.organization_name d) = OrgDoc.organization_name d)
  ∧ NoDup (OrgDoc.organization_name <$> organizations db).

(** Mongo's own invariant: [_id] is unique within a collection; generated
    identifiers are fresh. *)
Definition ids_inv (db : Database) : Prop :=
  NoDup (OrgDoc._id <$> organizations db)
  ∧ NoDup (AdminDoc._id <$> admins db)
  ∧ (∀ i, i ∈ OrgDoc._id <$> organizations db -> i < next_oid db)
  ∧ (∀ i, i ∈ AdminDoc._id <$> admins db -> i < next_oid db).

(** A string that does not start with whitespace. *)
Definition starts_clean (s : string) : Prop :=
  match s with
  | EmptyString => True
  | String c _ => isspace c = false
  end.

(** ** Reachable databases *)

(** One step of the service: a request served to completion, with any
    payload and any claim; or a write to the tenant data collections, which
    this code never looks into. *)
Inductive step (hash_password : string -> string)
    (verify_password : string -> string -> bool) : Database -> Database -> Prop :=
| step_create p utcnow db :
    step hash_password verify_password db
         (store (create_organization hash_password p utcnow db))
| step_get name db :
    step hash_password verify_password db (store (get_organization name db))
| step_update c p db :
    step hash_password verify_password db
         (store (update_organization hash_password c p db))
| step_delete name c db :
    step hash_password verify_password db (store (delete_organization name c db))
| step_login p db :
    step hash_password verify_password db (store (admin_login verify_password p db))
| step_tenant_write m db :
    step hash_password verify_password db (with_collections m db).

Inductive reachable (hash_password : string -> string)
    (verify_password : string -> string -> bool) : Database -> Prop :=
| reachable_empty : reachable hash_password verify_password empty_db
| reachable_step db db' :
    reachable hash_password verify_password db ->
    step hash_password verify_password db db' ->
    reachable hash_password verify_password db'.

(** The number of registry records under a name. *)
Definition count_org (n : string) (db : Database) : nat :=
  length (filter (λ d, OrgDoc.organization_name d = n) (organizations db)).

(** ** A concrete scenario *)

(** A stand-in credential store for the scenario. *)
Definition demo_hash (s : string) : string := "hash:" +:+ s.
Definition demo_verify (pw h : string) : bool := bool_decide (demo_hash pw = h).

Definition acme_payload : OrgCreate.t := OrgCreate.mk "Acme" "a@x.com" "secret1".
Definition acme_lower_payload : OrgCreate.t := OrgCreate.mk "acme" "b@x.com" "secret2".
Definition other_payload : OrgCreate.t := OrgCreate.mk "Other" "o@x.com" "secret3".

(** [create("Acme", ...)] on the empty database. *)
Definition acme_db : Database :=
  store (create_organization demo_hash acme_payload 0 empty_db).

Definition acme_org : OrgDoc.t := OrgDoc.mk 1 "acme" "org_acme" 0 0.
Definition acme_admin : AdminDoc.t := AdminDoc.mk 0 "a@x.com" "hash:secret1" "admin" "acme".

(** The claim a login of Acme's admin is given. *)
Definition acme_claim : Claim := {| claim_admin_id := 0; claim_org_id := "acme" |}.

(** Acme's collection filled with two documents by the tenant. *)
Definition acme_docs_db : Database :=
  with_collections (<["org_acme" := ["doc1"; "doc2"]]> (collections acme_db)) acme_db.

(** A second tenant next to Acme. *)
Definition two_tenants_db : Database :=
  store (create_organization demo_hash other_payload 1 acme_docs_db).

(** Acme renamed to Beta: [acme_claim] is now a stale claim. *)
Definition renamed_db : Database :=
  store (update_organization demo_hash acme_claim (OrgUpdate.mk " Beta " None None)
           acme_docs_db).

(** ** Further notions used by the properties of the service *)

(** The registry record [d] and its admin record point at each other. *)
Definition linked (d : OrgDoc.t) (db : Database) : Prop :=
  ∃ a, lookup_admin (OrgDoc.admin_id d) db = Some a
       ∧ AdminDoc.organization a = OrgDoc.organization_name d.

(** Referential integrity of the registry: no two records share an admin,
    every record's admin exists, and no record refers to an identifier that
    is still to be generated. *)
Definition refs_inv (db : Database) : Prop :=
  NoDup (OrgDoc.admin_id <$> organizations db)
  ∧ (∀ i, i ∈ OrgDoc.admin_id <$> organizations db -> i ∈ AdminDoc._id <$> admins db)
  ∧ (∀ i, i ∈ OrgDoc.admin_id <$> organizations db -> i < next_oid db).

(** What the service keeps true of every admin record. *)
Definition admin_inv (db : Database) : Prop :=
  ∀ a, a ∈ admins db ->
       AdminDoc.role a = "admin"
       ∧ normalize (AdminDoc.organization a) = AdminDoc.organization a.

(** The admins after step 3 of [update_organization]. *)
Definition credentials_written (hash_password : string -> string) (c : Claim)
    (p : OrgUpdate.t) (l : list AdminDoc.t) : list AdminDoc.t :=
  if truthy_opt (OrgUpdate.email p) || truthy_opt (OrgUpdate.password p)
  then update_first (admin_matches (admin_by_id (claim_admin_id c)))
         (apply_admin_set (update_fields hash_password p)) l
  else l.

(** The [$set] of the tenant link in step 2 of [update_organization]. *)
Definition link_set (new_org_name : string) : AdminSet :=
  {| set_email := None; set_password := None; set_organization := Some new_org_name |}.

(** The [$set] of the registry record in step 2 of [update_organization]. *)
Definition rename_set (new_org_name : string) : OrgSet :=
  {| set_organization_name := new_org_name;
     set_collection_name := org_collection_name new_org_name |}.

(** Every admin record is the admin of some registry record. *)
Definition admins_owned (db : Database) : Prop :=
  ∀ i, i ∈ AdminDoc._id <$> admins db -> i ∈ OrgDoc.admin_id <$> organizations db.

(** A string made of whitespace only. *)
Fixpoint all_space (s : string) : bool :=
  match s with
  | EmptyString => true
  | String c s' => isspace c && all_space s'
  end.

(** The last character of a string, if any. *)
Fixpoint last_char (s : string) : option ascii :=
  match s with
  | EmptyString => None
  | String c EmptyString => Some c
  | String _ s' => last_char s'
  end.

(** [c in s] for a character [c]. *)
Fixpoint contains_char (c : ascii) (s : string) : bool :=
  match s with
  | EmptyString => false
  | String c' s' => Ascii.eqb c c' || contains_char c s'
  end.

(** [".." in s]. *)
Fixpoint contains_dotdot (s : string) : bool :=
  match s with
  | EmptyString => false
  | String c s' =>
      match s' with
      | String c' _ => Ascii.eqb c "." && Ascii.eqb c' "." || contains_dotdot s'
      | EmptyString => false
      end
  end.

(** The names pymongo accepts for a collection: not empty, without [".."],
    ["$"] or NUL, and neither starting nor ending with ["."]. (The two
    exempted prefixes of ["$"] names cannot occur after ["org_"].) *)
Definition driver_accepts (name : string) : bool :=
  negb (String.eqb name "")
  && negb (contains_dotdot name)
  && negb (contains_char "$" name)
  && negb (contains_char "000" name)
  && negb (bool_decide (String.get 0 name = Some "."%char))
  && negb (bool_decide (last_char name = Some "."%char)).

(** The length in bytes of the UTF-8 encoding of a string of code points
    below 256. *)
Fixpoint utf8_length (s : string) : nat :=
  match s with
  | EmptyString => 0
  | String c s' => (if (N_of_ascii c <? 128)%N then 1 else 2) + utf8_length s'
  end.

(** The default of [DB_NAME] in [app/db.py]. *)
Definition DB_NAME : string := "master_org_db".

(** The server bounds the namespace [<database>.<collection>]: 120 bytes
    before MongoDB 4.4, 255 since. The stricter bound is taken. *)
Definition server_accepts (name : string) : bool :=
  (utf8_length (DB_NAME +:+ "." +:+ name) <=? 120)%nat.

(** A valid tenant name: the request model's [min_length=3] on the name as
    sent, and a derived collection name that the driver and the server
    accept. *)
Definition valid_name (raw : string) : bool :=
  (3 <=? String.length raw)%nat
  && driver_accepts (org_collection_name (normalize raw))
  && server_accepts (org_collection_name (normalize raw)).

(** ** The effect of the logged calls *)

(** What one driver call does to the database once it has completed. *)
Definition apply_call (c : DbCall) (db : Database) : Database :=
  match c with
  | Call_organizations_find_one _ => db
  | Call_organizations_insert_one d =>
      fresh_oid (with_organizations (organizations db ++ [d]) db)
  | Call_organizations_update_one q u =>
      with_organizations
        (update_first (org_matches q) (apply_org_set u) (organizations db)) db
  | Call_organizations_delete_one q =>
      with_organizations (delete_first (org_matches q) (organizations db)) db
  | Call_admins_find_one _ => db
  | Call_admins_insert_one d => fresh_oid (with_admins (admins db ++ [d]) db)
  | Call_admins_update_one q u =>
      with_admins (update_first (admin_matches q) (apply_admin_set u) (admins db)) db
  | Call_admins_delete_one q =>
      with_admins (delete_first (admin_matches q) (admins db)) db
  | Call_list_collection_names => db
  | Call_create_collection name =>
      match collections db !! name with
      | Some _ => db
      | None => with_collections (<[name := []]> (collections db)) db
      end
  | Call_drop_collection name => with_collections (delete name (collections db)) db
  | Call_aggregate_out source target =>
      with_collections
        (<[target := default [] (collections db !! source)]> (collections db)) db
  end.

(** The database after the calls [cs], issued in order from [db]. *)
Definition replay (cs : list DbCall) (db : Database) : Database :=
  foldl (fun db c => apply_call c db) db cs.

(** A coroutine changes the database through its logged calls only. *)
Definition logged {A} (m : Async A) : Prop :=
  ∀ db, store (m db) = replay (calls (m db)) db.

(** ** [app/auth.py] *)

(** A value in a token payload. JSON [null] is Python's [None]. *)
Inductive JsonValue :=
| JNull
| JStr (s : string)
| JInt (z : Z).

(** The dict [get_current_admin] returns. *)
Record CurrentAdmin := { current_admin_id : JsonValue; current_org_id : JsonValue }.

Definition ACCESS_TOKEN_EXPIRE_MINUTES : Z := 60 * 24.

(** [datetime.min] and [datetime.max] in seconds from the epoch; times are
    whole seconds here. *)
Definition DATETIME_MIN : Z := -62135596800.
Definition DATETIME_MAX : Z := 253402300799.

(** [timedelta(minutes=m)], in seconds. A [timedelta] holds at most
    999999999 days either way; beyond that the constructor raises
    [OverflowError], here [None]. *)
Definition timedelta_minutes (m : Z) : option Z :=
  let seconds := (60 * m)%Z in
  if ((-86399999913600 <=? seconds) && (seconds <=? 86399999999999))%Z
  then Some seconds else None.

(** [t + d] for a [datetime] and a [timedelta]: [OverflowError], here
    [None], when the result leaves the years 1 to 9999. *)
Definition datetime_add (t d : Z) : option Z :=
  let r := (t + d)%Z in
  if ((DATETIME_MIN <=? r) && (r <=? DATETIME_MAX))%Z then Some r else None.

(** Truthiness of an [int | None]. *)
Definition truthy_int (o : option Z) : bool :=
  match o with
  | Some z => negb (z =? 0)%Z
  | None => false
  end.

(** [payload.get(key)]: [None] when the key is missing or maps to [null]. *)
Definition payload_get (payload : gmap string JsonValue) (key : string) : option JsonValue :=
  match payload !! key with
  | Some JNull => None
  | o => o
  end.

Section Auth.

(** [jose.jwt.encode] and [jose.jwt.decode] under the module's [SECRET] and
    [ALGORITHM]: the library is external, both are parameters. Decoding
    depends on the time of the call (expiry); [None] stands for a raised
    [JWTError]. Times are seconds; an [exp] entry is a [JInt]. *)
Variable jwt_encode : gmap string JsonValue -> string.
Variable jwt_decode : Z -> string -> option (gmap string JsonValue).

Definition create_access_token (data : gmap string JsonValue) (expires_delta : option Z)
    (utcnow : Z) : Outcome string :=
  let to_encode := data in
  match (if truthy_int expires_delta
         then timedelta_minutes (default 0%Z expires_delta)
         else timedelta_minutes ACCESS_TOKEN_EXPIRE_MINUTES) with
  | None => Raised OverflowError
  | Some delta =>
      match datetime_add utcnow delta with
      | None => Raised OverflowError
      | Some expire =>
          let to_encode := <["exp" := JInt expire]> to_encode in
          Returned (jwt_encode to_encode)
      end
  end.

Definition get_current_admin (token : string) (utcnow : Z) : Outcome CurrentAdmin :=
  match jwt_decode utcnow token with
  | Some payload =>
      match payload_get payload "admin_id", payload_get payload "org_id" with
      | Some admin_id, Some org_id =>
          Returned {| current_admin_id := admin_id; current_org_id := org_id |}
      | _, _ => Raised (HTTPException 401 "Invalid token")
      end
  | None => Raised (HTTPException 401 "Could not validate credentials")
  end.

End Auth.

(** A stand-in token codec for the scenario. It only knows Acme's claim:
    the token is the [exp] entry in unary, and it decodes while the time is
    before [exp]. *)
Definition acme_token_data : gmap string JsonValue :=
  <["admin_id" := JStr "0"]> {["org_id" := JStr "acme"]}.

Definition demo_payload (exp : Z) : gmap string JsonValue :=
  <["exp" := JInt exp]> acme_token_data.

Fixpoint unary (n : nat) : string :=
  match n with
  | O => EmptyString
  | S n' => String "x" (unary n')
  end.

Definition demo_jwt_encode (payload : gmap string JsonValue) : string :=
  match payload !! "exp" with
  | Some (JInt z) => unary (Z.to_nat z)
  | _ => EmptyString
  end.

Definition demo_jwt_decode (utcnow : Z) (token : string)
  : option (gmap string JsonValue) :=
  let exp := Z.of_nat (String.length token) in
  if (utcnow <? exp)%Z then Some (demo_payload exp) else None.

(** The name Acme taken again after the rename to Beta, by a new admin:
    [acme_claim], minted for the first Acme, still names a registered
    tenant, but not its own. *)
Definition acme_again_payload : OrgCreate.t := OrgCreate.mk "ACME" "n@x.com" "secret5".
Definition acme_again_db : Database :=
  store (create_organization demo_hash acme_again_payload 2 renamed_db).
Definition acme_again_org : OrgDoc.t := OrgDoc.mk 3 "acme" "org_acme" 2 2.
Definition acme_again_admin : AdminDoc.t :=
  AdminDoc.mk 2 "n@x.com" "hash:secret5" "admin" "acme".
Definition other_org : OrgDoc.t := OrgDoc.mk 3 "other" "org_other" 2 1.

Section Properties.

Variable hash_password : string -> string.
Variable verify_password : string -> string -> bool.

(** ** Normalization *)

Lemma isspace_lower_char c : isspace (lower_char c) = isspace c.
Proof. destruct c as [[] [] [] [] [] [] [] []]; reflexivity. Qed.

Lemma lower_char_idem c : lower_char (lower_char c) = lower_char c.
Proof. destruct c as [[] [] [] [] [] [] [] []]; reflexivity. Qed.

Lemma lower_idem s : lower (lower s) = lower s.
Proof. induction s as [|c s IH]; simpl; [done|]. by rewrite lower_char_idem, IH. Qed.

Lemma lstrip_lower s : lstrip (lower s) = lower (lstrip s).
Proof.
  induction s as [|c s IH]; simpl; [done|].
  rewrite isspace_lower_char. by destruct (isspace c).
Qed.

Lemma rstrip_lower s : rstrip (lower s) = lower (rstrip s).
Proof.
  induction s as [|c s IH]; simpl; [done|].
  rewrite IH, isspace_lower_char.
  destruct (rstrip s); simpl; [by destruct (isspace c)|done].
Qed.

Lemma strip_lower s : strip (lower s) = lower (strip s).
Proof. unfold strip. by rewrite lstrip_lower, rstrip_lower. Qed.

Lemma lstrip_starts_clean s : starts_clean (lstrip s).
Proof.
  induction s as [|c s IH]; simpl; [done|].
  destruct (isspace c) eqn:E; [done|]. exact E.
Qed.

Lemma lstrip_clean s : starts_clean s -> lstrip s = s.
Proof. destruct s as [|c s]; simpl; [done|]. by intros ->. Qed.

Lemma rstrip_starts_clean s : starts_clean s -> starts_clean (rstrip s).
Proof.
  destruct s as [|c s]; simpl; [done|]. intros Hc.
  destruct (rstrip s); simpl; [by rewrite Hc|done].
Qed.

Lemma rstrip_idem s : rstrip (rstrip s) = rstrip s.
Proof.
  induction s as [|c s IH]; simpl; [done|].
  destruct (rstrip s) as [|c' r] eqn:E.
  - destruct (isspace c) eqn:Ec; simpl; [done|]. by rewrite Ec.
  - change (rstrip (String c (String c' r))) with
      (match rstrip (String c' r) with
       | EmptyString => if isspace c then EmptyString else String c EmptyString
       | r0 => String c r0
       end).
    by rewrite IH.
Qed.

Lemma strip_idem s : strip (strip s) = strip s.
Proof.
  unfold strip.
  rewrite (lstrip_clean (rstrip (lstrip s))).
  - apply rstrip_idem.
  - apply rstrip_starts_clean, lstrip_starts_clean.
Qed.

Lemma normalize_idem s : normalize (normalize s) = normalize s.
Proof. unfold normalize. by rewrite strip_lower, lower_idem, strip_idem. Qed.

Lemma org_collection_name_inj a b :
  org_collection_name a = org_collection_name b -> a = b.
Proof. unfold org_collection_name. simpl. intros H. by simplify_eq. Qed.

Lemma org_collection_name_ne a b :
  a ≠ b -> org_collection_name a ≠ org_collection_name b.
Proof. intros Hne Heq. by apply Hne, org_collection_name_inj. Qed.

(** No tenant collection is named like a master collection. *)
Lemma org_collection_name_not_master n :
  org_collection_name n ≠ "organizations" ∧ org_collection_name n ≠ "admins".
Proof. unfold org_collection_name. simpl. split; intros H; discriminate H. Qed.

(** ** First-match search, update and deletion *)

Section FirstMatch.
Context {A : Type}.
Implicit Types (f h : A -> bool) (g : A -> A) (l : list A).

Lemma find_first_Some f l x : find_first f l = Some x -> x ∈ l ∧ f x = true.
Proof.
  induction l as [|y l IH]; simpl; [done|].
  destruct (f y) eqn:E.
  - intros [= ->]. split; [left|done].
  - intros H. destruct (IH H). split; [by right|done].
Qed.

Lemma find_first_None f l : find_first f l = None <-> ∀ x, x ∈ l -> f x = false.
Proof.
  induction l as [|y l IH]; simpl.
  - split; [|done]. intros _ x Hx. by apply elem_of_nil in Hx.
  - destruct (f y) eqn:E.
    + split; [done|]. intros H. specialize (H y (list_elem_of_here _ _)). congruence.
    + rewrite IH. split.
      * intros H x [->|Hx]%elem_of_cons; auto.
      * intros H x Hx. apply H. by right.
Qed.

Lemma find_first_is_Some f l x : x ∈ l -> f x = true -> is_Some (find_first f l).
Proof.
  intros Hx Hf. destruct (find_first f l) eqn:E; [by eexists|].
  rewrite find_first_None in E. rewrite (E x Hx) in Hf. done.
Qed.

Lemma elem_of_update_first f g l y :
  y ∈ update_first f g l -> y ∈ l ∨ ∃ x, x ∈ l ∧ f x = true ∧ y = g x.
Proof.
  induction l as [|x l IH]; simpl; [by left|].
  destruct (f x) eqn:E.
  - intros [->|Hy]%elem_of_cons.
    + right. exists x. split; [left|done].
    + left. by right.
  - intros [->|Hy]%elem_of_cons; [left; left|].
    destruct (IH Hy) as [?|(x' & ? & ? & ?)]; [left; by right|].
    right. exists x'. split; [by right|done].
Qed.

Lemma update_first_frame f g l x : x ∈ l -> f x = false -> x ∈ update_first f g l.
Proof.
  induction l as [|y l IH]; simpl; [done|].
  intros [->|Hx]%elem_of_cons Hf.
  - rewrite Hf. left.
  - destruct (f y); right; auto.
Qed.

(** The first match of [f] is replaced by its image. *)
Lemma find_first_update_first f g l x :
  find_first f l = Some x -> (∀ y, f y = true -> f (g y) = true) ->
  find_first f (update_first f g l) = Some (g x).
Proof.
  intros Hx Hg. induction l as [|y l IH]; simpl in *; [done|].
  destruct (f y) eqn:E.
  - injection Hx as ->. simpl. by rewrite (Hg _ E).
  - simpl. rewrite E. auto.
Qed.

Lemma find_first_update_first_image f h g l x :
  x ∈ l -> f x = true -> (∀ y, h (g y) = true) ->
  is_Some (find_first h (update_first f g l)).
Proof.
  intros Hx Hf Hh. induction l as [|y l IH]; simpl; [by apply elem_of_nil in Hx|].
  destruct (f y) eqn:E; simpl.
  - rewrite Hh. by eexists.
  - destruct (h y); [by eexists|]. apply IH.
    apply elem_of_cons in Hx as [->|?]; [congruence|done].
Qed.

Lemma elem_of_delete_first f l y : y ∈ delete_first f l -> y ∈ l.
Proof.
  induction l as [|x l IH]; simpl; [done|].
  destruct (f x); [by right|].
  intros [->|Hy]%elem_of_cons; [left|right; auto].
Qed.

End FirstMatch.

(** With unique keys, deleting the first document that carries a key
    leaves no document with that key. *)
Lemma delete_first_key {A K} `{EqDecision K} (key : A -> K) (k : K) (l : list A) :
  NoDup (key <$> l) ->
  ∀ y, y ∈ delete_first (λ x, bool_decide (key x = k)) l -> key y ≠ k.
Proof.
  induction l as [|x l IH]; simpl; [intros _ y Hy; by apply elem_of_nil in Hy|].
  intros [Hx Hl]%NoDup_cons y.
  case_bool_decide as E.
  - intros Hy Hk. apply Hx. rewrite E, <- Hk. by apply list_elem_of_fmap_2.
  - intros [->|Hy]%elem_of_cons; [done|]. by apply IH.
Qed.

Lemma NoDup_delete_first {A K} (key : A -> K) (f : A -> bool) (l : list A) :
  NoDup (key <$> l) -> NoDup (key <$> delete_first f l).
Proof.
  induction l as [|x l IH]; simpl; [done|].
  intros [Hx Hl]%NoDup_cons. destruct (f x); [done|].
  simpl. apply NoDup_cons. split; [|auto].
  intros (y & Hk & Hy)%list_elem_of_fmap. apply Hx. rewrite Hk.
  apply list_elem_of_fmap_2. by eapply elem_of_delete_first.
Qed.

Lemma lookup_org_None n db : lookup_org n db = None <-> ¬ registered n db.
Proof.
  unfold lookup_org, registered. rewrite find_first_None. split.
  - intros H (d & Hd & Hn). specialize (H d Hd). simpl in H.
    by apply bool_decide_eq_false in H.
  - intros H d Hd. simpl. apply bool_decide_eq_false. intros Hn. apply H. eauto.
Qed.

Lemma lookup_org_Some n db d :
  lookup_org n db = Some d -> d ∈ organizations db ∧ OrgDoc.organization_name d = n.
Proof.
  intros [Hd Hn]%find_first_Some. split; [done|].
  simpl in Hn. by apply bool_decide_eq_true in Hn.
Qed.

Lemma registered_lookup n db : registered n db -> is_Some (lookup_org n db).
Proof.
  intros (d & Hd & Hn). eapply find_first_is_Some; [exact Hd|].
  simpl. by apply bool_decide_eq_true.
Qed.

(** Unfolding one coroutine into its effect on the database. *)
Ltac unfold_async :=
  unfold mbind, mret, Async_bind, Async_ret, async_bind, async_ret, raise, log_before,
    organizations_find_one, organizations_insert_one, organizations_update_one,
    organizations_delete_one, admins_find_one, admins_insert_one,
    admins_update_one, admins_delete_one, list_collection_names,
    create_collection, drop_collection, aggregate_out, driver.


(** ** [app/db.py]: what each helper does to the collections *)

Lemma create_org_collection_run (org_name : string) (db : Database) :
  create_org_collection org_name db =
  match collections db !! org_collection_name org_name with
  | Some _ => MkRun (Returned (org_collection_name org_name)) db [Call_list_collection_names]
  | None =>
      MkRun (Returned (org_collection_name org_name))
            (with_collections (<[org_collection_name org_name := []]> (collections db)) db)
            [Call_list_collection_names; Call_create_collection (org_collection_name org_name)]
  end.
Proof.
  unfold create_org_collection. unfold_async. cbn beta iota.
  destruct (collections db !! org_collection_name org_name) eqn:E.
  - rewrite bool_decide_false; [done|].
    intros H. apply H, elem_of_dom. by eexists.
  - rewrite bool_decide_true; [by rewrite E|].
    by apply not_elem_of_dom.
Qed.

Lemma drop_org_collection_run (org_name : string) (db : Database) :
  drop_org_collection org_name db =
  match collections db !! org_collection_name org_name with
  | Some _ =>
      MkRun (Returned true)
            (with_collections (delete (org_collection_name org_name) (collections db)) db)
            [Call_list_collection_names; Call_drop_collection (org_collection_name org_name)]
  | None => MkRun (Returned true) db [Call_list_collection_names]
  end.
Proof.
  unfold drop_org_collection. unfold_async. cbn beta iota.
  destruct (collections db !! org_collection_name org_name) eqn:E.
  - rewrite bool_decide_true; [done|]. apply elem_of_dom. by eexists.
  - rewrite bool_decide_false; [done|]. by apply not_elem_of_dom.
Qed.

Lemma rename_and_sync_collection_run (old_org_name new_org_name : string) (db : Database) :
  rename_and_sync_collection old_org_name new_org_name db =
  match collections db !! org_collection_name old_org_name with
  | Some D =>
      MkRun (Returned true)
            (with_collections
               (delete (org_collection_name old_org_name)
                  (<[org_collection_name new_org_name := D]> (collections db))) db)
            [Call_list_collection_names;
             Call_aggregate_out (org_collection_name old_org_name)
                                (org_collection_name new_org_name);
             Call_drop_collection (org_collection_name old_org_name)]
  | None => MkRun (Returned true) db [Call_list_collection_names]
  end.
Proof.
  unfold rename_and_sync_collection. unfold_async. cbn beta iota.
  destruct (collections db !! org_collection_name old_org_name) eqn:E.
  - rewrite bool_decide_false; [by rewrite E|].
    intros H. apply H, elem_of_dom. by eexists.
  - rewrite bool_decide_true; [done|]. by apply not_elem_of_dom.
Qed.

#[local] Arguments create_org_collection : simpl never.
#[local] Arguments drop_org_collection : simpl never.
#[local] Arguments rename_and_sync_collection : simpl never.

Ltac run_db :=
  unfold_async; simpl;
  rewrite ?create_org_collection_run, ?drop_org_collection_run,
    ?rename_and_sync_collection_run; simpl.

(** C9. When the registry has no record under the claim's tenant name (a
    claim minted before a rename still carries the old name),
    [update_organization] raises 404 Not Found after its single lookup and
    leaves the whole database as it was. *)
Theorem update_unknown_tenant_not_found (db : Database) (c : Claim) (p : OrgUpdate.t) :
  ¬ registered (claim_org_id c) db ->
  let r := update_organization hash_password c p db in
  outcome r = Raised (HTTPException 404 "Organization not found")
  ∧ NotFound (HTTPException 404 "Organization not found")
  ∧ store r = db
  ∧ calls r = [Call_organizations_find_one (org_by_name (claim_org_id c))].
Proof.
  intros H%lookup_org_None. unfold lookup_org in H.
  unfold update_organization. unfold_async. simpl.
  rewrite H. simpl. done.
Qed.

(** Case analysis on the tests of the credentials step. *)
Ltac branch_credentials :=
  match goal with
  | |- context [truthy_opt ?e] => destruct (truthy_opt e) eqn:?; simpl
  | |- context [has_fields ?u] => destruct (has_fields u) eqn:?; simpl
  end.

Lemma has_fields_update_fields (p : OrgUpdate.t) :
  truthy_opt (OrgUpdate.email p) || truthy_opt (OrgUpdate.password p) = true ->
  has_fields (update_fields hash_password p) = true.
Proof.
  unfold has_fields, update_fields. simpl.
  destruct (OrgUpdate.email p) as [[|]|], (OrgUpdate.password p) as [[|]|]; simpl; done.
Qed.

(** The credentials step either issues one update or does nothing. *)
Ltac credentials_cases p :=
  let Hf := fresh "Hf" in
  let Hc := fresh "Hc" in
  pose proof (has_fields_update_fields p) as Hf;
  destruct (truthy_opt (OrgUpdate.email p) || truthy_opt (OrgUpdate.password p)) eqn:Hc;
  simpl; rewrite ?Hf by done; simpl; clear Hf.

(** Case analysis on what the lookup that the goal mentions returns. *)
Ltac final_lookup :=
  match goal with
  | |- context [find_first ?f ?l] => destruct (find_first f l) eqn:?; simpl
  end.

(** Case analysis on the next test the coroutine performs. *)
Ltac branch :=
  match goal with
  | |- context [rename_and_sync_collection ?a ?b ?d] =>
      rewrite (rename_and_sync_collection_run a b d); simpl
  | |- context [create_org_collection ?a ?d] =>
      rewrite (create_org_collection_run a d); simpl
  | |- context [drop_org_collection ?a ?d] =>
      rewrite (drop_org_collection_run a d); simpl
  | |- context [find_first ?f ?l] => destruct (find_first f l) eqn:?; simpl
  | |- context [bool_decide ?P] => destruct (bool_decide P) eqn:?; simpl
  | |- context [collections ?d !! ?k] => destruct (collections d !! k) eqn:?; simpl
  | _ => branch_credentials
  end.

Lemma password_update_first (q : AdminQuery) (u : AdminSet) (l : list AdminDoc.t) :
  set_password u = None ->
  AdminDoc.password <$> update_first (admin_matches q) (apply_admin_set u) l
  = AdminDoc.password <$> l.
Proof.
  intros Hu. induction l as [|a l IH]; simpl; [done|].
  destruct (admin_matches q a); simpl; [by rewrite Hu|].
  f_equal. exact IH.
Qed.

(** C10. A password that is present but empty is ignored: the run is the
    run of the same request without a password (so every other requested
    update applies as it would there), and no admin's password hash
    changes. *)
Theorem update_empty_password_ignored (db : Database) (c : Claim) (p : OrgUpdate.t) :
  OrgUpdate.password p = Some "" ->
  let r := update_organization hash_password c p db in
  r = update_organization hash_password c
        (OrgUpdate.mk (OrgUpdate.organization_name p) (OrgUpdate.email p) None) db
  ∧ AdminDoc.password <$> admins (store r) = AdminDoc.password <$> admins db.
Proof.
  destruct p as [n e pw]. simpl. intros ->. split; [done|].
  unfold update_organization, update_fields. run_db.
  repeat branch; by rewrite ?password_update_first by done.
Qed.

Lemma lookup_org_unfold n db :
  find_first (org_matches (org_by_name n)) (organizations db) = lookup_org n db.
Proof. done. Qed.

(** After the registry update of a rename, the lookup under the new name
    finds a record, and it carries the new name and its derived collection
    name. *)
Lemma lookup_org_renamed (db : Database) (org : OrgDoc.t) (t t' : string) :
  lookup_org t db = Some org ->
  ¬ registered t' db ->
  ∃ view,
    find_first (org_matches (org_by_name t'))
      (update_first (org_matches (org_by_id (OrgDoc._id org)))
         (apply_org_set {| set_organization_name := t';
                           set_collection_name := org_collection_name t' |})
         (organizations db)) = Some view
    ∧ OrgDoc.organization_name view = t'
    ∧ OrgDoc.collection_name view = org_collection_name t'.
Proof.
  intros [Hin _]%lookup_org_Some Hfresh.
  edestruct (find_first_update_first_image
               (org_matches (org_by_id (OrgDoc._id org)))
               (org_matches (org_by_name t'))
               (apply_org_set {| set_organization_name := t';
                                 set_collection_name := org_collection_name t' |})
               (organizations db) org) as [view Hview]; [done| | |].
  - simpl. by apply bool_decide_eq_true.
  - intros y. simpl. by apply bool_decide_eq_true.
  - exists view. split; [done|].
    apply find_first_Some in Hview as [Hv Hn].
    simpl in Hn. apply bool_decide_eq_true in Hn. split; [done|].
    apply elem_of_update_first in Hv as [Hv|(x & _ & _ & ->)]; [|done].
    exfalso. apply Hfresh. by exists view.
Qed.

(** C1. A rename to a fresh name succeeds; when the old tenant collection
    holds the documents [D], the collection derived from the new name then
    holds exactly [D] and the one derived from the old name is gone; when
    the old collection does not exist, the migration step returns [True]
    and changes nothing, and the rename leaves every collection as it was. *)
Theorem rename_migrates_collection (db : Database) (c : Claim) (p : OrgUpdate.t)
    (org : OrgDoc.t) :
  let t := claim_org_id c in
  let t' := normalize (OrgUpdate.organization_name p) in
  lookup_org t db = Some org ->
  t' ≠ t ->
  ¬ registered t' db ->
  let r := update_organization hash_password c p db in
  (∃ view, outcome r = Returned view
           ∧ OrgDoc.organization_name view = t'
           ∧ OrgDoc.collection_name view = org_collection_name t')
  ∧ (∀ D, collections db !! org_collection_name t = Some D ->
          collections (store r) !! org_collection_name t' = Some D
          ∧ collections (store r) !! org_collection_name t = None)
  ∧ (collections db !! org_collection_name t = None ->
       collections (store r) = collections db)
  ∧ (∀ db0, collections db0 !! org_collection_name t = None ->
       outcome (rename_and_sync_collection t t' db0) = Returned true
       ∧ store (rename_and_sync_collection t t' db0) = db0).
Proof.
  intros t t' Horg Hne Hfresh r.
  destruct (lookup_org_renamed db org t t' Horg Hfresh) as (view & Hview & Hn & Hc).
  assert (Hmig : ∀ db0, collections db0 !! org_collection_name t = None ->
       outcome (rename_and_sync_collection t t' db0) = Returned true
       ∧ store (rename_and_sync_collection t t' db0) = db0).
  { intros db0 H0. by rewrite rename_and_sync_collection_run, H0. }
  assert (Hcn : org_collection_name t' ≠ org_collection_name t)
    by by apply org_collection_name_ne.
  apply lookup_org_None in Hfresh.
  subst r. unfold update_organization. unfold_async. simpl.
  rewrite !lookup_org_unfold. fold t t'. rewrite Horg. simpl.
  rewrite (bool_decide_true _ Hne). rewrite lookup_org_unfold, Hfresh. simpl.
  rewrite rename_and_sync_collection_run. simpl.
  destruct (collections db !! org_collection_name t) as [D|] eqn:HD; simpl.
  - repeat branch_credentials; rewrite Hview; simpl.
    all: split; [by exists view|].
    all: split; [|done].
    all: intros ? [= <-].
    all: by rewrite lookup_delete_ne, lookup_insert_eq, lookup_delete_eq by done.
  - repeat branch_credentials; rewrite Hview; simpl.
    all: split; [by exists view|done].
Qed.


(** The driver calls of a rename, in the order they are issued. *)
Lemma update_organization_rename_calls (db : Database) (c : Claim) (p : OrgUpdate.t)
    (org : OrgDoc.t) :
  let t := claim_org_id c in
  let t' := normalize (OrgUpdate.organization_name p) in
  lookup_org t db = Some org ->
  t' ≠ t ->
  ¬ registered t' db ->
  calls (update_organization hash_password c p db) =
   ([Call_organizations_find_one (org_by_name t);
     Call_organizations_find_one (org_by_name t');
     Call_organizations_update_one (org_by_id (OrgDoc._id org))
       {| set_organization_name := t';
          set_collection_name := org_collection_name t' |};
     Call_admins_update_one (admin_by_id (claim_admin_id c))
       {| set_email := None; set_password := None; set_organization := Some t' |}]
    ++ migration_calls (org_collection_name t) (org_collection_name t')
         (bool_decide (is_Some (collections db !! org_collection_name t)))
    ++ (if truthy_opt (OrgUpdate.email p) || truthy_opt (OrgUpdate.password p)
        then [Call_admins_update_one (admin_by_id (claim_admin_id c)) (update_fields hash_password p)]
        else [])
    ++ [Call_organizations_find_one (org_by_name t')])%list
  ∧ ∀ db0, calls (rename_and_sync_collection t t' db0) =
           migration_calls (org_collection_name t) (org_collection_name t')
             (bool_decide (is_Some (collections db0 !! org_collection_name t))).
Proof.
  intros t t' Horg Hne Hfresh.
  destruct (lookup_org_renamed db org t t' Horg Hfresh) as (view & Hview & _).
  split.
  - apply lookup_org_None in Hfresh.
    unfold update_organization. unfold_async. simpl.
    rewrite !lookup_org_unfold. fold t t'. rewrite Horg. simpl.
    rewrite (bool_decide_true _ Hne). rewrite lookup_org_unfold, Hfresh. simpl.
    rewrite rename_and_sync_collection_run. simpl.
    pose proof (has_fields_update_fields p) as Hf.
    destruct (collections db !! org_collection_name t) as [D|] eqn:HD; simpl.
    all: destruct (truthy_opt (OrgUpdate.email p) || truthy_opt (OrgUpdate.password p));
      simpl; rewrite ?Hf by done; simpl; rewrite Hview; done.
  - intros db0. rewrite rename_and_sync_collection_run.
    by destruct (collections db0 !! org_collection_name t).
Qed.


Lemma lookup_admin_update_first (i : ObjectId) (u : AdminSet) (l : list AdminDoc.t)
    (a : AdminDoc.t) :
  find_first (admin_matches (admin_by_id i)) l = Some a ->
  find_first (admin_matches (admin_by_id i))
    (update_first (admin_matches (admin_by_id i)) (apply_admin_set u) l)
  = Some (apply_admin_set u a).
Proof. intros H. by apply find_first_update_first. Qed.


Lemma NoDup_key_inj {A K} (key : A -> K) (l : list A) (x y : A) :
  NoDup (key <$> l) -> x ∈ l -> y ∈ l -> key x = key y -> x = y.
Proof.
  induction l as [|z l IH]; simpl; [by intros _ ?%elem_of_nil|].
  intros [Hz Hl]%NoDup_cons [->|Hx]%elem_of_cons [->|Hy]%elem_of_cons Hk; auto.
  - exfalso. apply Hz. rewrite Hk. by apply list_elem_of_fmap_2.
  - exfalso. apply Hz. rewrite <- Hk. by apply list_elem_of_fmap_2.
Qed.

(** C3. On a database that satisfies the invariants, a delete by the
    tenant's own claim returns, and afterwards the registry has no record
    under the name, no admin record carries the tenant's stored admin
    identity, the derived data collection does not exist, and
    [get_organization] on any spelling of the name raises 404 Not Found. *)
Theorem delete_removes_all_artifacts (db : Database) (c : Claim) (name : string)
    (org : OrgDoc.t) :
  tenant_inv db ->
  ids_inv db ->
  claim_org_id c = normalize name ->
  lookup_org (normalize name) db = Some org ->
  let r := delete_organization name c db in
  outcome r = Returned (normalize name)
  ∧ ¬ registered (normalize name) (store r)
  ∧ (∀ a, a ∈ admins (store r) -> AdminDoc._id a ≠ OrgDoc.admin_id org)
  ∧ collections (store r) !! org_collection_name (normalize name) = None
  ∧ ∀ name', normalize name' = normalize name ->
      outcome (get_organization name' (store r))
      = Raised (HTTPException 404 "Organization not found")
      ∧ NotFound (HTTPException 404 "Organization not found").
Proof.
  intros [_ Hnames] (_ & Hadmins & _) Hclaim Horg r.
  assert (Hgone : ¬ registered (normalize name)
            (with_organizations
               (delete_first (org_matches (org_by_name (normalize name)))
                  (organizations db)) db)).
  { intros (d & Hd & Hn). simpl in Hd.
    by apply (delete_first_key OrgDoc.organization_name (normalize name)
                (organizations db) Hnames d Hd). }
  assert (Hadm : ∀ a,
            a ∈ delete_first (admin_matches (admin_by_id (OrgDoc.admin_id org))) (admins db)
            -> AdminDoc._id a ≠ OrgDoc.admin_id org).
  { intros a Ha.
    by apply (delete_first_key AdminDoc._id (OrgDoc.admin_id org) (admins db) Hadmins a Ha). }
  assert (Hget : ∀ db', organizations db'
                   = delete_first (org_matches (org_by_name (normalize name)))
                       (organizations db) ->
            ∀ name', normalize name' = normalize name ->
              outcome (get_organization name' db')
              = Raised (HTTPException 404 "Organization not found")
              ∧ NotFound (HTTPException 404 "Organization not found")).
  { intros db' Hdb' name' Hn'. unfold get_organization. unfold_async. simpl.
    rewrite lookup_org_unfold, Hn'.
    assert (lookup_org (normalize name) db' = None) as ->; [|done].
    apply lookup_org_None. intros (d & Hd & Hn). apply Hgone.
    exists d. simpl. by rewrite <- Hdb'. }
  subst r. unfold delete_organization.
  rewrite bool_decide_false by (by intros H; apply H).
  unfold_async. simpl. rewrite lookup_org_unfold, Horg. simpl.
  rewrite drop_org_collection_run.
  destruct (collections db !! org_collection_name (normalize name)) eqn:HD; simpl.
  - split; [done|]. split; [exact Hgone|]. split; [exact Hadm|].
    split; [apply lookup_delete_eq|]. by apply Hget.
  - split; [done|]. split; [exact Hgone|]. split; [exact Hadm|].
    split; [done|]. by apply Hget.
Qed.

(** ** [create_organization], run to completion *)

Lemma create_organization_run (p : OrgCreate.t) (utcnow : nat) (db : Database) :
  let n := normalize (OrgCreate.organization_name p) in
  create_organization hash_password p utcnow db =
  match lookup_org n db with
  | Some _ =>
      MkRun (Raised (HTTPException 400 "Organization already exists")) db
            [Call_organizations_find_one (org_by_name n)]
  | None =>
      let a := AdminDoc.mk (next_oid db) (OrgCreate.email p)
                 (hash_password (OrgCreate.password p)) "admin" n in
      let d := OrgDoc.mk (S (next_oid db)) n (org_collection_name n) (next_oid db) utcnow in
      MkRun (Returned (OrgOut.mk n (org_collection_name n) (next_oid db)))
            {| organizations := organizations db ++ [d];
               admins := admins db ++ [a];
               collections :=
                 match collections db !! org_collection_name n with
                 | Some _ => collections db
                 | None => <[org_collection_name n := []]> (collections db)
                 end;
               next_oid := S (S (next_oid db)) |}
            (Call_organizations_find_one (org_by_name n)
             :: Call_list_collection_names
             :: match collections db !! org_collection_name n with
                | Some _ => []
                | None => [Call_create_collection (org_collection_name n)]
                end
             ++ [Call_admins_insert_one a; Call_organizations_insert_one d])
  end.
Proof.
  intros n. unfold create_organization. fold n. unfold_async. simpl.
  rewrite lookup_org_unfold.
  destruct (lookup_org n db); simpl; [done|].
  rewrite create_org_collection_run.
  by destruct (collections db !! org_collection_name n).
Qed.

Lemma count_org_unregistered n db : ¬ registered n db -> count_org n db = 0.
Proof.
  unfold count_org, registered. intros H.
  induction (organizations db) as [|d l IH]; [done|].
  rewrite filter_cons. case_decide as E.
  - exfalso. apply H. exists d. split; [left|done].
  - apply IH. intros (d' & Hd' & Hn). apply H. exists d'. split; [by right|done].
Qed.

(** C2. From a database where neither name is registered, creating two
    tenants whose names are valid and differ (as tenant names, that is,
    normalized) succeeds both times; a further create under any spelling of
    the first name raises 400 (AlreadyExists) after its single lookup,
    changes nothing, and the registry holds exactly one record under that
    name. *)
Theorem create_distinct_then_duplicate (db : Database) (p1 p2 p3 : OrgCreate.t)
    (now1 now2 now3 : nat) :
  let n1 := normalize (OrgCreate.organization_name p1) in
  let n2 := normalize (OrgCreate.organization_name p2) in
  valid_name (OrgCreate.organization_name p1) = true ->
  valid_name (OrgCreate.organization_name p2) = true ->
  ¬ registered n1 db ->
  ¬ registered n2 db ->
  n1 ≠ n2 ->
  normalize (OrgCreate.organization_name p3) = n1 ->
  let r1 := create_organization hash_password p1 now1 db in
  let r2 := create_organization hash_password p2 now2 (store r1) in
  let r3 := create_organization hash_password p3 now3 (store r1) in
  (∃ o1, outcome r1 = Returned o1 ∧ OrgOut.organization_name o1 = n1)
  ∧ (∃ o2, outcome r2 = Returned o2 ∧ OrgOut.organization_name o2 = n2)
  ∧ outcome r3 = Raised (HTTPException 400 "Organization already exists")
  ∧ AlreadyExists (HTTPException 400 "Organization already exists")
  ∧ store r3 = store r1
  ∧ calls r3 = [Call_organizations_find_one (org_by_name n1)]
  ∧ count_org n1 (store r3) = 1.
Proof.
  intros n1 n2 _ _ H1 H2 Hne H3 r1 r2 r3.
  pose proof (count_org_unregistered n1 db H1) as Hcount.
  apply lookup_org_None in H1. apply lookup_org_None in H2.
  assert (Hr1 : ∃ d, organizations (store r1) = organizations db ++ [d]
                     ∧ OrgDoc.organization_name d = n1
                     ∧ ∃ o1, outcome r1 = Returned o1 ∧ OrgOut.organization_name o1 = n1).
  { subst r1. rewrite create_organization_run. fold n1. rewrite H1. simpl.
    eexists. split; [done|]. split; [done|]. by eexists. }
  destruct Hr1 as (d & Horgs & Hd & Ho1).
  assert (Hl1 : is_Some (lookup_org n1 (store r1))).
  { apply registered_lookup. exists d. rewrite Horgs. split; [|done].
    apply elem_of_app. right. left. }
  assert (Hl2 : lookup_org n2 (store r1) = None).
  { apply lookup_org_None. intros (d' & Hd' & Hn'). rewrite Horgs in Hd'.
    apply elem_of_app in Hd' as [Hd'|Hd'%list_elem_of_singleton].
    - apply lookup_org_None in H2. apply H2. by exists d'.
    - subst d'. congruence. }
  assert (Hr3 : r3 = MkRun (Raised (HTTPException 400 "Organization already exists"))
                       (store r1) [Call_organizations_find_one (org_by_name n1)]).
  { subst r3. rewrite create_organization_run. simpl. rewrite H3.
    by destruct Hl1 as [? ->]. }
  split; [done|]. split.
  { subst r2. rewrite create_organization_run. fold n2. rewrite Hl2. simpl. by eexists. }
  rewrite Hr3. simpl. repeat split; try done.
  unfold count_org in *. rewrite Horgs, filter_app, length_app, Hcount.
  rewrite filter_cons, decide_True by done. done.
Qed.

(** ** What each operation does to the registry *)

Lemma update_organization_organizations (c : Claim) (p : OrgUpdate.t) (db : Database) :
  let t := claim_org_id c in
  let t' := normalize (OrgUpdate.organization_name p) in
  organizations (store (update_organization hash_password c p db)) =
  match lookup_org t db with
  | Some org =>
      if bool_decide (t' ≠ t) then
        match lookup_org t' db with
        | Some _ => organizations db
        | None =>
            update_first (org_matches (org_by_id (OrgDoc._id org)))
              (apply_org_set {| set_organization_name := t';
                                set_collection_name := org_collection_name t' |})
              (organizations db)
        end
      else organizations db
  | None => organizations db
  end.
Proof.
  intros t t'. unfold update_organization. fold t t'. unfold_async. simpl.
  rewrite !lookup_org_unfold.
  destruct (lookup_org t db) as [org|]; simpl; [|done].
  case_bool_decide; simpl.
  - rewrite lookup_org_unfold. destruct (lookup_org t' db); simpl; [done|].
    rewrite rename_and_sync_collection_run. simpl.
    destruct (collections db !! org_collection_name t); simpl.
    all: credentials_cases p; final_lookup; done.
  - credentials_cases p; final_lookup; done.
Qed.

Lemma delete_organization_organizations (name : string) (c : Claim) (db : Database) :
  organizations (store (delete_organization name c db)) =
  if bool_decide (claim_org_id c ≠ normalize name) then organizations db
  else match lookup_org (normalize name) db with
       | Some _ => delete_first (org_matches (org_by_name (normalize name)))
                     (organizations db)
       | None => organizations db
       end.
Proof.
  unfold delete_organization. case_bool_decide; [done|].
  unfold_async. simpl. rewrite lookup_org_unfold.
  destruct (lookup_org (normalize name) db); simpl; [|done].
  rewrite drop_org_collection_run.
  by destruct (collections db !! org_collection_name (normalize name)).
Qed.

Lemma admin_login_store (p : AdminLogin.t) (db : Database) :
  store (admin_login verify_password p db) = db.
Proof.
  unfold admin_login. unfold_async. simpl.
  destruct (find_first _ (admins db)); simpl; [|done].
  destruct (verify_password _ _); simpl; [|done].
  by destruct (find_first _ (organizations db)).
Qed.

Lemma get_organization_store (name : string) (db : Database) :
  store (get_organization name db) = db.
Proof.
  unfold get_organization. unfold_async. simpl.
  by destruct (find_first _ (organizations db)).
Qed.

Lemma NoDup_update_first_fresh {A K} (key : A -> K) (f : A -> bool) (g : A -> A)
    (l : list A) (k : K) :
  NoDup (key <$> l) ->
  (∀ x, key (g x) = k) ->
  (∀ y, y ∈ l -> key y ≠ k) ->
  NoDup (key <$> update_first f g l).
Proof.
  intros Hnd Hg. induction l as [|x l IH]; simpl; [done|].
  apply NoDup_cons in Hnd as [Hx Hl]. intros Hfresh.
  destruct (f x); simpl; apply NoDup_cons.
  - split; [|done]. rewrite Hg.
    intros (y & Hk & Hy)%list_elem_of_fmap. apply (Hfresh y); [by right|done].
  - split.
    + intros (y & Hk & Hy)%list_elem_of_fmap.
      apply elem_of_update_first in Hy as [Hy|(z & _ & _ & ->)].
      * apply Hx. rewrite Hk. by apply list_elem_of_fmap_2.
      * rewrite Hg in Hk. apply (Hfresh x); [left|done].
    + apply IH; [done|]. intros y Hy. apply Hfresh. by right.
Qed.

Lemma tenant_inv_step (db db' : Database) :
  tenant_inv db -> step hash_password verify_password db db' -> tenant_inv db'.
Proof.
  intros [Hrec Hnames] Hstep. destruct Hstep as [p now db|n db|c p db|n c db|p db|m db].
  - rewrite create_organization_run.
    destruct (lookup_org _ db) eqn:Hl; simpl; [done|].
    apply lookup_org_None in Hl. split; simpl.
    + intros d [Hd| ->%list_elem_of_singleton]%elem_of_app; [auto|].
      simpl. split; [done|apply normalize_idem].
    + rewrite fmap_app. apply NoDup_app. split; [done|]. split; [|apply NoDup_singleton].
      intros x (d & -> & Hd)%list_elem_of_fmap Hx%list_elem_of_singleton.
      apply Hl. by exists d.
  - by rewrite get_organization_store.
  - unfold tenant_inv. rewrite update_organization_organizations.
    destruct (lookup_org (claim_org_id c) db) as [org|]; [|done].
    case_bool_decide; [|done].
    destruct (lookup_org _ db) eqn:Hl; [done|].
    apply lookup_org_None in Hl. split.
    + intros d [Hd|(x & _ & _ & ->)]%elem_of_update_first; [auto|].
      simpl. split; [done|apply normalize_idem].
    + apply (NoDup_update_first_fresh _ _ _ _
               (normalize (OrgUpdate.organization_name p))); [done|done|].
      intros y Hy Hn. apply Hl. by exists y.
  - unfold tenant_inv. rewrite delete_organization_organizations.
    case_bool_decide; [done|].
    destruct (lookup_org _ db); [|done]. split.
    + intros d Hd%elem_of_delete_first. auto.
    + by apply NoDup_delete_first.
  - by rewrite admin_login_store.
  - done.
Qed.

Lemma tenant_inv_empty : tenant_inv empty_db.
Proof.
  split; simpl; [|apply NoDup_nil_2].
  intros d Hd. by apply elem_of_nil in Hd.
Qed.

Lemma reachable_tenant_inv (db : Database) :
  reachable hash_password verify_password db -> tenant_inv db.
Proof.
  induction 1 as [|db db' _ IH Hstep]; [apply tenant_inv_empty|].
  by eapply tenant_inv_step.
Qed.

(** C5. In every database reachable from the empty one by the lifecycle
    operations (and writes to tenant data), every registry record has its
    name in normal form and its collection name equal to ["org_"] followed
    by that name, and no two records share a name; every operation, run on
    any database satisfying this, leaves a database satisfying it. *)
Theorem registry_invariant (db db' : Database) :
  (reachable hash_password verify_password db -> tenant_inv db)
  ∧ (tenant_inv db -> step hash_password verify_password db db' -> tenant_inv db').
Proof. split; [apply reachable_tenant_inv|apply tenant_inv_step]. Qed.

(** ** Identifiers stay unique *)

Lemma fmap_update_first {A K} (key : A -> K) (f : A -> bool) (g : A -> A) (l : list A) :
  (∀ x, key (g x) = key x) -> key <$> update_first f g l = key <$> l.
Proof.
  intros Hg. induction l as [|x l IH]; simpl; [done|].
  destruct (f x); simpl; [by rewrite Hg|]. f_equal. exact IH.
Qed.

Lemma elem_of_fmap_delete_first {A K} (key : A -> K) (f : A -> bool) (l : list A) (k : K) :
  k ∈ key <$> delete_first f l -> k ∈ key <$> l.
Proof.
  intros (x & -> & Hx)%list_elem_of_fmap.
  apply list_elem_of_fmap_2. by eapply elem_of_delete_first.
Qed.

Lemma update_organization_ids (c : Claim) (p : OrgUpdate.t) (db : Database) :
  let r := update_organization hash_password c p db in
  OrgDoc._id <$> organizations (store r) = OrgDoc._id <$> organizations db
  ∧ AdminDoc._id <$> admins (store r) = AdminDoc._id <$> admins db
  ∧ next_oid (store r) = next_oid db.
Proof.
  unfold update_organization. unfold_async. simpl.
  destruct (find_first _ (organizations db)) as [org|]; simpl; [|done].
  case_bool_decide; simpl.
  - destruct (find_first _ (organizations db)); simpl; [done|].
    rewrite rename_and_sync_collection_run. simpl.
    destruct (collections db !! _); simpl.
    all: credentials_cases p; final_lookup.
    all: by rewrite !(fmap_update_first AdminDoc._id), (fmap_update_first OrgDoc._id).
  - credentials_cases p; final_lookup.
    all: by rewrite ?(fmap_update_first AdminDoc._id).
Qed.

Lemma delete_organization_admins (name : string) (c : Claim) (db : Database) :
  let r := delete_organization name c db in
  (admins (store r) = admins db
   ∨ ∃ i, admins (store r) = delete_first (admin_matches (admin_by_id i)) (admins db))
  ∧ next_oid (store r) = next_oid db.
Proof.
  unfold delete_organization. case_bool_decide; [by split; [left|]|].
  unfold_async. simpl.
  destruct (find_first _ (organizations db)) as [org|]; simpl; [|by split; [left|]].
  rewrite drop_org_collection_run.
  destruct (collections db !! _); simpl; (split; [right; by eexists|done]).
Qed.

Lemma ids_inv_step (db db' : Database) :
  ids_inv db -> step hash_password verify_password db db' -> ids_inv db'.
Proof.
  intros (Horgs & Hadmins & Hlto & Hlta) Hstep.
  destruct Hstep as [p now db|n db|c p db|n c db|p db|m db].
  - rewrite create_organization_run.
    destruct (lookup_org _ db); simpl; [done|].
    unfold ids_inv. simpl. rewrite !fmap_app. simpl.
    split; [|split; [|split]].
    + apply NoDup_app. split; [done|]. split; [|apply NoDup_singleton].
      intros i Hi ->%list_elem_of_singleton. apply Hlto in Hi. lia.
    + apply NoDup_app. split; [done|]. split; [|apply NoDup_singleton].
      intros i Hi ->%list_elem_of_singleton. apply Hlta in Hi. lia.
    + intros i [Hi%Hlto| ->%list_elem_of_singleton]%elem_of_app; lia.
    + intros i [Hi%Hlta| ->%list_elem_of_singleton]%elem_of_app; lia.
  - by rewrite get_organization_store.
  - destruct (update_organization_ids c p db) as (Ho & Ha & Hn).
    unfold ids_inv. by rewrite Ho, Ha, Hn.
  - destruct (delete_organization_admins n c db) as (Ha & Hn).
    unfold ids_inv. rewrite Hn, delete_organization_organizations.
    assert (NoDup (OrgDoc._id <$>
              (if bool_decide (claim_org_id c ≠ normalize n) then organizations db
               else match lookup_org (normalize n) db with
                    | Some _ => delete_first (org_matches (org_by_name (normalize n)))
                                  (organizations db)
                    | None => organizations db
                    end))
            ∧ ∀ i, i ∈ OrgDoc._id <$>
              (if bool_decide (claim_org_id c ≠ normalize n) then organizations db
               else match lookup_org (normalize n) db with
                    | Some _ => delete_first (org_matches (org_by_name (normalize n)))
                                  (organizations db)
                    | None => organizations db
                    end) -> i < next_oid db) as [? ?].
    { case_bool_decide; [done|]. destruct (lookup_org _ db); [|done].
      split; [by apply NoDup_delete_first|].
      intros i Hi%elem_of_fmap_delete_first. auto. }
    destruct Ha as [->|[i ->]]; [done|].
    repeat split; try done; [by apply NoDup_delete_first|].
    intros j Hj%elem_of_fmap_delete_first. auto.
  - by rewrite admin_login_store.
  - done.
Qed.

Lemma ids_inv_empty : ids_inv empty_db.
Proof.
  repeat split; simpl; try apply NoDup_nil_2; by intros i Hi%elem_of_nil.
Qed.

Lemma reachable_ids_inv (db : Database) :
  reachable hash_password verify_password db -> ids_inv db.
Proof.
  induction 1 as [|db db' _ IH Hstep]; [apply ids_inv_empty|].
  by eapply ids_inv_step.
Qed.

(** C8. Every operation that takes a name computes with its normal form
    only: running it on a name and on the trimmed, lower-cased name is the
    same run. Hence, once a create has succeeded, [get_organization] on any
    spelling with the same normal form returns one and the same record, and
    a create under any such spelling raises 400 (AlreadyExists). *)
Theorem operations_use_normalized_name :
  (∀ p utcnow db,
     create_organization hash_password p utcnow db
     = create_organization hash_password
         (OrgCreate.mk (normalize (OrgCreate.organization_name p))
                       (OrgCreate.email p) (OrgCreate.password p)) utcnow db)
  ∧ (∀ name db, get_organization name db = get_organization (normalize name) db)
  ∧ (∀ c p db,
       update_organization hash_password c p db
       = update_organization hash_password c
           (OrgUpdate.mk (normalize (OrgUpdate.organization_name p))
                         (OrgUpdate.email p) (OrgUpdate.password p)) db)
  ∧ (∀ name c db,
       delete_organization name c db = delete_organization (normalize name) c db)
  ∧ (∀ p utcnow db out,
       outcome (create_organization hash_password p utcnow db) = Returned out ->
       let db1 := store (create_organization hash_password p utcnow db) in
       ∃ tenant,
         OrgDoc.organization_name tenant = normalize (OrgCreate.organization_name p)
         ∧ (∀ name, normalize name = normalize (OrgCreate.organization_name p) ->
              outcome (get_organization name db1) = Returned tenant)
         ∧ (∀ p' utcnow',
              normalize (OrgCreate.organization_name p')
              = normalize (OrgCreate.organization_name p) ->
              outcome (create_organization hash_password p' utcnow' db1)
              = Raised (HTTPException 400 "Organization already exists")
              ∧ AlreadyExists (HTTPException 400 "Organization already exists"))).
Proof.
  split; [|split; [|split; [|split]]].
  - intros p utcnow db. unfold create_organization. simpl.
    by rewrite normalize_idem.
  - intros name db. unfold get_organization. by rewrite normalize_idem.
  - intros c p db. unfold update_organization, update_fields. simpl.
    by rewrite normalize_idem.
  - intros name c db. unfold delete_organization. by rewrite normalize_idem.
  - intros p utcnow db out Hout db1.
    assert (Hreg : registered (normalize (OrgCreate.organization_name p)) db1).
    { subst db1. revert Hout. rewrite create_organization_run.
      destruct (lookup_org _ db) as [d|] eqn:Hl; simpl; [intros [=]|intros _].
      eexists. split; [apply elem_of_app; right; left|done]. }
    apply registered_lookup in Hreg as [tenant Ht].
    exists tenant. split; [by destruct (lookup_org_Some _ _ _ Ht)|]. split.
    + intros name Hn. unfold get_organization. unfold_async. simpl.
      by rewrite lookup_org_unfold, Hn, Ht.
    + intros p' utcnow' Hn. rewrite create_organization_run. simpl.
      by rewrite Hn, Ht.
Qed.

(** ** Further properties of [app/db.py] *)

Lemma with_collections_id (db : Database) : with_collections (collections db) db = db.
Proof. by destruct db. Qed.

(** X1. Whenever [create_org_collection] returns, it returns the derived
    name, the collection exists with the documents it already had (or
    none), nothing else has changed, and a second run returns the same name
    after the listing alone, without a create call, and changes nothing. *)
Theorem create_org_collection_idempotent (org_name : string) (db : Database)
    (coll_name : string) :
  let r := create_org_collection org_name db in
  outcome r = Returned coll_name ->
  coll_name = org_collection_name org_name
  ∧ collections (store r) !! org_collection_name org_name
    = Some (default [] (collections db !! org_collection_name org_name))
  ∧ delete (org_collection_name org_name) (collections (store r))
    = delete (org_collection_name org_name) (collections db)
  ∧ organizations (store r) = organizations db
  ∧ admins (store r) = admins db
  ∧ create_org_collection org_name (store r)
    = MkRun (Returned (org_collection_name org_name)) (store r)
        [Call_list_collection_names].
Proof.
  simpl. rewrite (create_org_collection_run org_name db).
  destruct (collections db !! org_collection_name org_name) eqn:E; simpl.
  - intros [= <-]. by rewrite create_org_collection_run, E.
  - intros [= <-]. rewrite create_org_collection_run. simpl.
    rewrite !lookup_insert_eq. by rewrite delete_insert_eq.
Qed.

(** X2. [drop_org_collection] never raises and returns [True]; afterwards
    the derived collection does not exist and every other collection, the
    registry and the admins are as before; dropping again, or dropping a
    collection that was never there, changes nothing; a drop undoes a
    create up to the collection itself. *)
Theorem drop_org_collection_idempotent (org_name : string) (db : Database) :
  let r := drop_org_collection org_name db in
  outcome r = Returned true
  ∧ collections (store r) = delete (org_collection_name org_name) (collections db)
  ∧ organizations (store r) = organizations db
  ∧ admins (store r) = admins db
  ∧ store (drop_org_collection org_name (store r)) = store r
  ∧ collections (store (drop_org_collection org_name
                          (store (create_org_collection org_name db))))
    = delete (org_collection_name org_name) (collections db).
Proof.
  simpl. rewrite (drop_org_collection_run org_name db), create_org_collection_run.
  destruct (collections db !! org_collection_name org_name) eqn:E; simpl.
  - rewrite !drop_org_collection_run. simpl. rewrite lookup_delete_eq, E. done.
  - rewrite !drop_org_collection_run. simpl. rewrite E, lookup_insert_eq. simpl.
    rewrite delete_insert_eq, (delete_id _ _ E). done.
Qed.

(** X3. The migration never leaves its source behind: after
    [rename_and_sync_collection old new] no collection is derived from
    [old], whether or not one existed, and even when [new] is [old], in
    which case the documents are gone. Collections other than the two are
    untouched, and so are the registry and the admins. *)
Theorem rename_and_sync_collection_source_gone (old_org_name new_org_name : string)
    (db : Database) :
  let r := rename_and_sync_collection old_org_name new_org_name db in
  outcome r = Returned true
  ∧ collections (store r) !! org_collection_name old_org_name = None
  ∧ delete (org_collection_name old_org_name)
      (delete (org_collection_name new_org_name) (collections (store r)))
    = delete (org_collection_name old_org_name)
        (delete (org_collection_name new_org_name) (collections db))
  ∧ organizations (store r) = organizations db
  ∧ admins (store r) = admins db.
Proof.
  simpl. rewrite rename_and_sync_collection_run.
  destruct (collections db !! org_collection_name old_org_name) eqn:E; simpl; [|done].
  rewrite lookup_delete_eq. repeat split; try done.
  apply map_eq. intros k.
  destruct (decide (k = org_collection_name old_org_name)) as [->|Ho];
    [by rewrite !lookup_delete_eq|].
  rewrite !(lookup_delete_ne _ (org_collection_name old_org_name)) by done.
  destruct (decide (k = org_collection_name new_org_name)) as [->|Hn];
    [by rewrite !lookup_delete_eq|].
  rewrite !(lookup_delete_ne _ (org_collection_name new_org_name)) by done.
  by rewrite lookup_delete_ne, lookup_insert_ne by done.
Qed.

(** X4. Migrating there and back is the identity: when the source
    collection exists and the target does not, [old -> new] followed by
    [new -> old] restores the database. *)
Theorem rename_and_sync_collection_round_trip (old_org_name new_org_name : string)
    (db : Database) (D : list Document) :
  old_org_name ≠ new_org_name ->
  collections db !! org_collection_name old_org_name = Some D ->
  collections db !! org_collection_name new_org_name = None ->
  store (rename_and_sync_collection new_org_name old_org_name
           (store (rename_and_sync_collection old_org_name new_org_name db))) = db.
Proof.
  intros Hne%org_collection_name_ne Hold Hnew.
  rewrite (rename_and_sync_collection_run old_org_name), Hold. simpl.
  rewrite rename_and_sync_collection_run. simpl.
  rewrite lookup_delete_ne, lookup_insert_eq by done. simpl.
  unfold with_collections. simpl.
  rewrite <- (with_collections_id db) at 5. unfold with_collections. f_equal.
  apply map_eq. intros k.
  destruct (decide (k = org_collection_name new_org_name)) as [->|Hn].
  { by rewrite lookup_delete_eq, Hnew. }
  rewrite lookup_delete_ne by done.
  destruct (decide (k = org_collection_name old_org_name)) as [->|Ho].
  { by rewrite lookup_insert_eq, Hold. }
  by rewrite lookup_insert_ne, lookup_delete_ne, lookup_insert_ne by done.
Qed.

(** ** [update_organization] and [delete_organization], projected *)

Lemma update_organization_outcome (c : Claim) (p : OrgUpdate.t) (db : Database) :
  let t := claim_org_id c in
  let t' := normalize (OrgUpdate.organization_name p) in
  outcome (update_organization hash_password c p db) =
  match lookup_org t db with
  | Some org =>
      if bool_decide (t' ≠ t) then
        match lookup_org t' db with
        | Some _ => Raised (HTTPException 400 "New organization name already exists")
        | None =>
            match find_first (org_matches (org_by_name t'))
                    (update_first (org_matches (org_by_id (OrgDoc._id org)))
                       (apply_org_set (rename_set t')) (organizations db)) with
            | Some view => Returned view
            | None => Raised TypeError
            end
        end
      else Returned org
  | None => Raised (HTTPException 404 "Organization not found")
  end.
Proof.
  intros t t'. unfold update_organization, rename_set. fold t t'. unfold_async. simpl.
  rewrite !lookup_org_unfold.
  destruct (lookup_org t db) as [org|] eqn:Horg; simpl; [|done].
  case_bool_decide; simpl.
  - rewrite lookup_org_unfold. destruct (lookup_org t' db); simpl; [done|].
    rewrite rename_and_sync_collection_run. simpl.
    destruct (collections db !! org_collection_name t); simpl.
    all: credentials_cases p; final_lookup; done.
  - credentials_cases p; rewrite lookup_org_unfold;
      change (lookup_org t (with_admins ?l db)) with (lookup_org t db);
      by rewrite ?Horg.
Qed.

Lemma update_organization_admins (c : Claim) (p : OrgUpdate.t) (db : Database) :
  let t := claim_org_id c in
  let t' := normalize (OrgUpdate.organization_name p) in
  admins (store (update_organization hash_password c p db)) =
  match lookup_org t db with
  | Some org =>
      if bool_decide (t' ≠ t) then
        match lookup_org t' db with
        | Some _ => admins db
        | None =>
            credentials_written hash_password c p
              (update_first (admin_matches (admin_by_id (claim_admin_id c)))
                 (apply_admin_set (link_set t')) (admins db))
        end
      else credentials_written hash_password c p (admins db)
  | None => admins db
  end.
Proof.
  intros t t'. unfold update_organization, credentials_written, link_set.
  fold t t'. unfold_async. simpl.
  rewrite !lookup_org_unfold.
  destruct (lookup_org t db) as [org|]; simpl; [|done].
  case_bool_decide; simpl.
  - rewrite lookup_org_unfold. destruct (lookup_org t' db); simpl; [done|].
    rewrite rename_and_sync_collection_run. simpl.
    destruct (collections db !! org_collection_name t); simpl.
    all: credentials_cases p; final_lookup; done.
  - credentials_cases p; final_lookup; done.
Qed.

Lemma update_organization_collections (c : Claim) (p : OrgUpdate.t) (db : Database) :
  let t := claim_org_id c in
  let t' := normalize (OrgUpdate.organization_name p) in
  collections (store (update_organization hash_password c p db)) =
  match lookup_org t db with
  | Some org =>
      if bool_decide (t' ≠ t) then
        match lookup_org t' db with
        | Some _ => collections db
        | None =>
            match collections db !! org_collection_name t with
            | Some D => delete (org_collection_name t)
                          (<[org_collection_name t' := D]> (collections db))
            | None => collections db
            end
        end
      else collections db
  | None => collections db
  end.
Proof.
  intros t t'. unfold update_organization. fold t t'. unfold_async. simpl.
  rewrite !lookup_org_unfold.
  destruct (lookup_org t db) as [org|]; simpl; [|done].
  case_bool_decide; simpl.
  - rewrite lookup_org_unfold. destruct (lookup_org t' db); simpl; [done|].
    rewrite rename_and_sync_collection_run. simpl.
    destruct (collections db !! org_collection_name t); simpl.
    all: credentials_cases p; final_lookup; done.
  - credentials_cases p; final_lookup; done.
Qed.

Lemma delete_organization_run (name : string) (c : Claim) (db : Database) :
  let n := normalize name in
  let r := delete_organization name c db in
  if bool_decide (claim_org_id c ≠ n)
  then r = MkRun (Raised (HTTPException 403
                            "You are not authorized to delete this organization")) db []
  else match lookup_org n db with
       | Some org =>
           outcome r = Returned n
           ∧ store r =
               with_organizations
                 (delete_first (org_matches (org_by_name n)) (organizations db))
                 (with_admins
                    (delete_first (admin_matches (admin_by_id (OrgDoc.admin_id org)))
                       (admins db))
                    (with_collections (delete (org_collection_name n) (collections db))
                       db))
       | None =>
           r = MkRun (Raised (HTTPException 404 "Organization not found")) db
                 [Call_organizations_find_one (org_by_name n)]
       end.
Proof.
  intros n r. subst r. unfold delete_organization. fold n.
  case_bool_decide; [done|].
  unfold_async. simpl. rewrite lookup_org_unfold.
  destruct (lookup_org n db) as [org|]; simpl; [|done].
  rewrite drop_org_collection_run.
  destruct (collections db !! org_collection_name n) eqn:E; simpl; [done|].
  split; [done|]. by rewrite (delete_id _ _ E), with_collections_id.
Qed.

(** ** Error behaviour of the service *)

Lemma renamed_record_found (db : Database) (org : OrgDoc.t) (t' : string) :
  org ∈ organizations db ->
  is_Some (find_first (org_matches (org_by_name t'))
             (update_first (org_matches (org_by_id (OrgDoc._id org)))
                (apply_org_set (rename_set t')) (organizations db))).
Proof.
  intros Hin. eapply find_first_update_first_image; [exact Hin| |].
  - simpl. by apply bool_decide_eq_true.
  - intros y. simpl. by apply bool_decide_eq_true.
Qed.

Lemma update_organization_store_unchanged (c : Claim) (p : OrgUpdate.t) (db : Database) :
  (lookup_org (claim_org_id c) db = None
   ∨ (normalize (OrgUpdate.organization_name p) ≠ claim_org_id c
      ∧ is_Some (lookup_org (normalize (OrgUpdate.organization_name p)) db))) ->
  store (update_organization hash_password c p db) = db.
Proof.
  unfold update_organization. unfold_async. simpl. rewrite !lookup_org_unfold.
  intros [->|[Hne [d Hd]]]; [done|].
  destruct (lookup_org (claim_org_id c) db); simpl; [|done].
  rewrite bool_decide_true by done. simpl.
  by rewrite lookup_org_unfold, Hd.
Qed.

(** X5. An HTTP error never leaves a half-done change behind: whenever
    [create_organization], [get_organization], [update_organization],
    [delete_organization] or [admin_login] raises an [HTTPException], it is
    one of the function's own (400; 404; 404 or 400; 403 or 404; 401), and
    the database is exactly as it was, because each of them is raised by a
    check that comes before the function's first write. *)
Theorem operations_fail_cleanly (db : Database) (status_code : nat) (detail : string) :
  let e := HTTPException status_code detail in
  (∀ p utcnow,
     outcome (create_organization hash_password p utcnow db) = Raised e ->
     store (create_organization hash_password p utcnow db) = db
     ∧ e = HTTPException 400 "Organization already exists")
  ∧ (∀ name,
       outcome (get_organization name db) = Raised e ->
       store (get_organization name db) = db
       ∧ e = HTTPException 404 "Organization not found")
  ∧ (∀ c p,
       outcome (update_organization hash_password c p db) = Raised e ->
       store (update_organization hash_password c p db) = db
       ∧ (e = HTTPException 404 "Organization not found"
          ∨ e = HTTPException 400 "New organization name already exists"))
  ∧ (∀ name c,
       outcome (delete_organization name c db) = Raised e ->
       store (delete_organization name c db) = db
       ∧ (e = HTTPException 403 "You are not authorized to delete this organization"
          ∨ e = HTTPException 404 "Organization not found"))
  ∧ (∀ p,
       outcome (admin_login verify_password p db) = Raised e ->
       store (admin_login verify_password p db) = db
       ∧ (e = HTTPException 401 "Invalid credentials"
          ∨ e = HTTPException 401 "Organization linkage error")).
Proof.
  intros e. subst e.
  split; [|split; [|split; [|split]]].
  - intros p utcnow. rewrite create_organization_run.
    destruct (lookup_org _ db); simpl; [|done]. by intros [= <- <-].
  - intros name. rewrite get_organization_store.
    unfold get_organization. unfold_async. simpl.
    destruct (find_first _ (organizations db)); simpl; [done|]. by intros [= <- <-].
  - intros c p. rewrite update_organization_outcome.
    destruct (lookup_org (claim_org_id c) db) as [org|] eqn:Horg.
    + case_bool_decide as Hne; [|done].
      destruct (lookup_org (normalize _) db) as [d|] eqn:Hd.
      * intros [= <- <-]. split; [|by right].
        apply update_organization_store_unchanged. right. split; [done|].
        rewrite Hd. by eexists.
      * apply lookup_org_Some in Horg as [Hin _].
        destruct (renamed_record_found db org
                    (normalize (OrgUpdate.organization_name p)) Hin) as [v ->].
        done.
    + intros [= <- <-]. split; [|by left].
      apply update_organization_store_unchanged. by left.
  - intros name c. pose proof (delete_organization_run name c db) as H.
    simpl in H. case_bool_decide.
    + rewrite H. simpl. intros [= <- <-]. split; [done|by left].
    + destruct (lookup_org (normalize name) db).
      * destruct H as [-> _]. done.
      * rewrite H. simpl. intros [= <- <-]. split; [done|by right].
  - intros p. rewrite admin_login_store.
    unfold admin_login. unfold_async. simpl.
    destruct (find_first _ (admins db)); simpl; [|by intros [= <- <-]; split; [|left]].
    destruct (verify_password _ _); simpl; [|by intros [= <- <-]; split; [|left]].
    destruct (find_first _ (organizations db)); simpl; [done|].
    by intros [= <- <-]; split; [|right].
Qed.

(** X6. A rename onto a name that another tenant holds is refused: the
    update raises 400 after its two lookups and before any write, so the
    database is unchanged; the email and password of the same request are
    not applied either. *)
Theorem rename_onto_taken_name_refused (db : Database) (c : Claim) (p : OrgUpdate.t) :
  let t := claim_org_id c in
  let t' := normalize (OrgUpdate.organization_name p) in
  registered t db ->
  t' ≠ t ->
  registered t' db ->
  let r := update_organization hash_password c p db in
  outcome r = Raised (HTTPException 400 "New organization name already exists")
  ∧ AlreadyExists (HTTPException 400 "New organization name already exists")
  ∧ store r = db
  ∧ calls r = [Call_organizations_find_one (org_by_name t);
               Call_organizations_find_one (org_by_name t')].
Proof.
  intros t t' [org Horg]%registered_lookup Hne [d Hd]%registered_lookup r. subst r.
  unfold update_organization. fold t t'. unfold_async. simpl.
  rewrite !lookup_org_unfold, Horg. simpl.
  rewrite (bool_decide_true _ Hne). simpl.
  by rewrite lookup_org_unfold, Hd.
Qed.

(** ** Renames: identity of the record and the admin's tenant link *)

Lemma update_first_unique {A K} `{EqDecision K} (key : A -> K) (k : K) (g : A -> A)
    (l : list A) (y : A) :
  NoDup (key <$> l) ->
  y ∈ update_first (λ x, bool_decide (key x = k)) g l ->
  (∃ x, x ∈ l ∧ key x = k ∧ y = g x) ∨ (y ∈ l ∧ key y ≠ k).
Proof.
  induction l as [|x l IH]; simpl; [by intros _ ?%elem_of_nil|].
  intros [Hx Hl]%NoDup_cons. case_bool_decide as E.
  - intros [->|Hy]%elem_of_cons.
    + left. exists x. split; [left|done].
    + right. split; [by right|]. intros Hk. apply Hx. rewrite E, <- Hk.
      by apply list_elem_of_fmap_2.
  - intros [->|Hy]%elem_of_cons; [right; split; [left|done]|].
    destruct (IH Hl Hy) as [(x' & ? & ? & ?)|[? ?]].
    + left. exists x'. split; [by right|done].
    + right. split; [by right|done].
Qed.

Lemma find_first_update_first_other {A} (f h : A -> bool) (g : A -> A) (l : list A) :
  (∀ x, f x = true -> h x = false ∧ h (g x) = false) ->
  find_first h (update_first f g l) = find_first h l.
Proof.
  intros Hfh. induction l as [|x l IH]; simpl; [done|].
  destruct (f x) eqn:E; simpl.
  - destruct (Hfh x E) as [-> ->]. done.
  - by rewrite IH.
Qed.

(** With unique [_id]s the record found under the new name is the old
    record with its two name fields replaced. *)
Lemma renamed_view (db : Database) (org : OrgDoc.t) (t' : string) :
  NoDup (OrgDoc._id <$> organizations db) ->
  org ∈ organizations db ->
  ¬ registered t' db ->
  find_first (org_matches (org_by_name t'))
    (update_first (org_matches (org_by_id (OrgDoc._id org)))
       (apply_org_set (rename_set t')) (organizations db))
  = Some (apply_org_set (rename_set t') org).
Proof.
  intros Hnd Hin Hfresh.
  destruct (renamed_record_found db org t' Hin) as [view Hview]. rewrite Hview.
  apply find_first_Some in Hview as [Hv Hn]. simpl in Hn.
  apply bool_decide_eq_true in Hn.
  apply (update_first_unique OrgDoc._id) in Hv as [(x & Hx & Hid & ->)|[Hv _]]; [| |done].
  - by rewrite (NoDup_key_inj OrgDoc._id _ x org Hnd Hx Hin Hid).
  - exfalso. apply Hfresh. by exists view.
Qed.

(** X7. A rename that returns keeps the identity of the tenant: on a
    database that satisfies the invariants, whenever [update_organization]
    to a different, unregistered name returns, the record returned is the
    old record with only its name and collection name replaced (same
    [_id], same admin, same creation time), the old name is no longer
    registered, so [get_organization] on it raises 404,
    [get_organization] on the new name returns that same record, and the
    registry has as many records as before. *)
Theorem rename_preserves_identity (db : Database) (c : Claim) (p : OrgUpdate.t)
    (org v : OrgDoc.t) :
  let t := claim_org_id c in
  let t' := normalize (OrgUpdate.organization_name p) in
  tenant_inv db ->
  ids_inv db ->
  lookup_org t db = Some org ->
  t' ≠ t ->
  ¬ registered t' db ->
  let r := update_organization hash_password c p db in
  let view := OrgDoc.mk (OrgDoc._id org) t' (org_collection_name t')
                (OrgDoc.admin_id org) (OrgDoc.created_at org) in
  outcome r = Returned v ->
  v = view
  ∧ ¬ registered t (store r)
  ∧ outcome (get_organization t (store r))
    = Raised (HTTPException 404 "Organization not found")
  ∧ outcome (get_organization (OrgUpdate.organization_name p) (store r)) = Returned view
  ∧ length (organizations (store r)) = length (organizations db).
Proof.
  intros t t' [Hrec Hnames] (Hids & _) Horg Hne Hfresh r view Hret.
  pose proof (lookup_org_Some _ _ _ Horg) as [Hin Ht].
  pose proof (renamed_view db org t' Hids Hin Hfresh) as Hview.
  assert (Horgs : organizations (store r)
                  = update_first (org_matches (org_by_id (OrgDoc._id org)))
                      (apply_org_set (rename_set t')) (organizations db)).
  { subst r. rewrite update_organization_organizations. fold t t'. rewrite Horg.
    rewrite (bool_decide_true _ Hne).
    by apply lookup_org_None in Hfresh as ->. }
  assert (Hgone : ¬ registered t (store r)).
  { intros (d & Hd & Hn). rewrite Horgs in Hd.
    apply (update_first_unique OrgDoc._id) in Hd as [(x & _ & _ & ->)|[Hd Hid]];
      [by apply Hne| |done].
    apply Hid. f_equal.
    apply (NoDup_key_inj OrgDoc.organization_name _ d org Hnames Hd Hin). congruence. }
  split.
  { subst r. rewrite update_organization_outcome in Hret. fold t t' in Hret.
    rewrite Horg, (bool_decide_true _ Hne) in Hret.
    apply lookup_org_None in Hfresh. rewrite Hfresh, Hview in Hret.
    by injection Hret as <-. }
  split; [exact Hgone|]. split; [|split].
  - unfold get_organization. unfold_async. simpl. rewrite lookup_org_unfold.
    destruct (Hrec org Hin) as [_ Hnorm]. rewrite Ht in Hnorm. rewrite Hnorm.
    by apply lookup_org_None in Hgone as ->.
  - unfold get_organization. unfold_async. simpl. fold t'.
    unfold lookup_org in *. by rewrite Horgs, Hview.
  - rewrite Horgs. clear. induction (organizations db) as [|x l IH]; simpl; [done|].
    case_bool_decide; simpl; [done|]. f_equal. exact IH.
Qed.

(** X8. A rename moves the tenant link of the claim's admin: the admin
    record with the claim's admin identity then has the new name as its
    [organization], the same [_id] and role, and its email and password are
    the supplied non-empty ones (the password hashed), or else unchanged. *)
Theorem rename_updates_admin_link (db : Database) (c : Claim) (p : OrgUpdate.t)
    (org : OrgDoc.t) (a : AdminDoc.t) :
  let t := claim_org_id c in
  let t' := normalize (OrgUpdate.organization_name p) in
  lookup_org t db = Some org ->
  t' ≠ t ->
  ¬ registered t' db ->
  lookup_admin (claim_admin_id c) db = Some a ->
  lookup_admin (claim_admin_id c) (store (update_organization hash_password c p db))
  = Some (AdminDoc.mk (AdminDoc._id a)
            (if truthy_opt (OrgUpdate.email p)
             then default (AdminDoc.email a) (OrgUpdate.email p)
             else AdminDoc.email a)
            (if truthy_opt (OrgUpdate.password p)
             then default (AdminDoc.password a) (hash_password <$> OrgUpdate.password p)
             else AdminDoc.password a)
            (AdminDoc.role a) t').
Proof.
  intros t t' Horg Hne Hfresh Ha. unfold lookup_admin in *.
  rewrite update_organization_admins. fold t t'. rewrite Horg.
  rewrite (bool_decide_true _ Hne). apply lookup_org_None in Hfresh as ->.
  pose proof (lookup_admin_update_first _ (link_set t') _ _ Ha) as Hlink.
  unfold credentials_written.
  destruct (truthy_opt (OrgUpdate.email p) || truthy_opt (OrgUpdate.password p)) eqn:Hc.
  - rewrite (lookup_admin_update_first _ _ _ _ Hlink). f_equal.
    unfold apply_admin_set, update_fields. simpl.
    by destruct (truthy_opt (OrgUpdate.email p)), (truthy_opt (OrgUpdate.password p)).
  - rewrite Hlink. apply orb_false_iff in Hc as [-> ->]. done.
Qed.

Lemma credentials_written_lookup (c : Claim) (p : OrgUpdate.t) (l : list AdminDoc.t)
    (a : AdminDoc.t) :
  find_first (admin_matches (admin_by_id (claim_admin_id c))) l = Some a ->
  ∃ a', find_first (admin_matches (admin_by_id (claim_admin_id c)))
          (credentials_written hash_password c p l) = Some a'
        ∧ AdminDoc.organization a' = AdminDoc.organization a.
Proof.
  intros Ha. unfold credentials_written.
  destruct (truthy_opt (OrgUpdate.email p) || truthy_opt (OrgUpdate.password p)).
  - rewrite (lookup_admin_update_first _ _ _ _ Ha). by eexists.
  - by exists a.
Qed.

Lemma credentials_written_other (c : Claim) (p : OrgUpdate.t) (l : list AdminDoc.t)
    (i : ObjectId) :
  claim_admin_id c ≠ i ->
  find_first (admin_matches (admin_by_id i)) (credentials_written hash_password c p l)
  = find_first (admin_matches (admin_by_id i)) l.
Proof.
  intros Hne. unfold credentials_written.
  destruct (truthy_opt (OrgUpdate.email p) || truthy_opt (OrgUpdate.password p)); [|done].
  apply find_first_update_first_other. intros x Hx. simpl in *.
  apply bool_decide_eq_true in Hx.
  split; apply bool_decide_eq_false; simpl; congruence.
Qed.

(** X9. An update with a claim that carries the tenant's own admin keeps
    the record and its admin pointing at each other: if the registry record
    of the claim's tenant and its admin were linked before, the record the
    update returns has the same [_id] and admin, and it is linked to that
    admin afterwards, whether the request renames or not. *)
Theorem update_keeps_link (db : Database) (c : Claim) (p : OrgUpdate.t)
    (org view : OrgDoc.t) :
  ids_inv db ->
  lookup_org (claim_org_id c) db = Some org ->
  claim_admin_id c = OrgDoc.admin_id org ->
  linked org db ->
  outcome (update_organization hash_password c p db) = Returned view ->
  linked view (store (update_organization hash_password c p db))
  ∧ OrgDoc._id view = OrgDoc._id org
  ∧ OrgDoc.admin_id view = OrgDoc.admin_id org.
Proof.
  intros (Hids & _) Horg Hclaim (a & Ha & Hlink) Hout.
  pose proof (lookup_org_Some _ _ _ Horg) as [Hin Ht].
  unfold linked, lookup_admin in *.
  rewrite update_organization_outcome in Hout.
  rewrite update_organization_admins. rewrite Horg in *. rewrite <- Hclaim in *.
  case_bool_decide as Hne.
  - destruct (lookup_org (normalize _) db) eqn:Hfresh; [done|].
    apply lookup_org_None in Hfresh.
    rewrite (renamed_view db org _ Hids Hin Hfresh) in Hout.
    injection Hout as <-. simpl. split; [|done].
    pose proof (lookup_admin_update_first _
                  (link_set (normalize (OrgUpdate.organization_name p))) _ _ Ha) as Hl.
    destruct (credentials_written_lookup c p _ _ Hl) as (a' & Ha' & Ho).
    exists a'. split; [by rewrite Hclaim in *|]. by rewrite Ho.
  - injection Hout as <-. split; [|done].
    destruct (credentials_written_lookup c p _ _ Ha) as (a' & Ha' & Ho).
    exists a'. split; [by rewrite Hclaim in *|]. by rewrite Ho.
Qed.

(** X10. [update_organization] never compares the claim's admin with the
    record's admin. With a claim whose admin identity is not the tenant's
    admin (a claim kept across a rename and a re-creation of the name is
    one), a rename still renames the record, while the tenant's own admin
    record is left exactly as it was: if it carried the old name, the
    renamed record and its admin no longer point at each other. *)
Theorem rename_with_foreign_admin_unlinks (db : Database) (c : Claim) (p : OrgUpdate.t)
    (org : OrgDoc.t) (a0 : AdminDoc.t) :
  let t := claim_org_id c in
  let t' := normalize (OrgUpdate.organization_name p) in
  ids_inv db ->
  lookup_org t db = Some org ->
  t' ≠ t ->
  ¬ registered t' db ->
  claim_admin_id c ≠ OrgDoc.admin_id org ->
  lookup_admin (OrgDoc.admin_id org) db = Some a0 ->
  let r := update_organization hash_password c p db in
  let view := OrgDoc.mk (OrgDoc._id org) t' (org_collection_name t')
                (OrgDoc.admin_id org) (OrgDoc.created_at org) in
  outcome r = Returned view
  ∧ lookup_admin (OrgDoc.admin_id view) (store r) = Some a0
  ∧ (AdminDoc.organization a0 = t -> ¬ linked view (store r)).
Proof.
  intros t t' (Hids & _) Horg Hne Hfresh Hclaim Ha0 r view.
  pose proof (lookup_org_Some _ _ _ Horg) as [Hin Ht].
  assert (Hadm : lookup_admin (OrgDoc.admin_id view) (store r) = Some a0).
  { subst r. unfold lookup_admin in *. rewrite update_organization_admins.
    fold t t'. rewrite Horg, (bool_decide_true _ Hne).
    apply lookup_org_None in Hfresh as ->. simpl.
    rewrite credentials_written_other by done.
    rewrite find_first_update_first_other; [done|].
    intros x Hx. simpl in *. apply bool_decide_eq_true in Hx.
    split; apply bool_decide_eq_false; simpl; congruence. }
  split; [|split; [exact Hadm|]].
  - subst r. rewrite update_organization_outcome. fold t t'.
    rewrite Horg, (bool_decide_true _ Hne).
    pose proof (renamed_view db org t' Hids Hin Hfresh) as Hview.
    apply lookup_org_None in Hfresh as ->. by rewrite Hview.
  - intros Hold (a & Ha & Hlink). rewrite Hadm in Ha. injection Ha as <-.
    simpl in Hlink. congruence.
Qed.

(** ** Deletes *)

Lemma delete_first_frame {A} (f : A -> bool) (l : list A) (x : A) :
  x ∈ l -> f x = false -> x ∈ delete_first f l.
Proof.
  induction l as [|y l IH]; simpl; [done|].
  intros [->|Hx]%elem_of_cons Hf.
  - rewrite Hf. left.
  - destruct (f y); [done|]. right. auto.
Qed.

(** X11. A delete touches nothing but the tenant's own artifacts: every
    registry record under another name and every admin record other than
    the tenant's stored admin is still there, the collections are the old
    ones without the tenant's, and no identifier is consumed. *)
Theorem delete_leaves_other_tenants (db : Database) (c : Claim) (name : string)
    (org : OrgDoc.t) :
  let n := normalize name in
  claim_org_id c = n ->
  lookup_org n db = Some org ->
  let r := delete_organization name c db in
  (∀ d, d ∈ organizations db -> OrgDoc.organization_name d ≠ n ->
        d ∈ organizations (store r))
  ∧ (∀ a, a ∈ admins db -> AdminDoc._id a ≠ OrgDoc.admin_id org -> a ∈ admins (store r))
  ∧ collections (store r) = delete (org_collection_name n) (collections db)
  ∧ next_oid (store r) = next_oid db.
Proof.
  intros n Hclaim Horg r. pose proof (delete_organization_run name c db) as H.
  simpl in H. fold n r in H.
  rewrite bool_decide_false in H by (by intros Hn; apply Hn).
  rewrite Horg in H. destruct H as [_ ->]. simpl.
  repeat split; try done.
  - intros d Hd Hn. apply delete_first_frame; [done|].
    simpl. by apply bool_decide_eq_false.
  - intros a Ha Hid. apply delete_first_frame; [done|].
    simpl. by apply bool_decide_eq_false.
Qed.

(** X12. A deleted name can be taken again: on a database with unique
    names, after a tenant has deleted itself (the delete returned), a
    create under any spelling of the same name is not refused as a
    duplicate, and whenever that create returns, it returns the name, the
    derived collection name and the new admin's identifier, the registry
    then holds exactly one record under the name, and the new tenant starts
    with an empty collection. *)
Theorem delete_then_create (db : Database) (c : Claim) (name msg : string)
    (org : OrgDoc.t) (p : OrgCreate.t) (utcnow : nat) :
  let n := normalize name in
  tenant_inv db ->
  claim_org_id c = n ->
  lookup_org n db = Some org ->
  normalize (OrgCreate.organization_name p) = n ->
  outcome (delete_organization name c db) = Returned msg ->
  let db1 := store (delete_organization name c db) in
  let r := create_organization hash_password p utcnow db1 in
  outcome r ≠ Raised (HTTPException 400 "Organization already exists")
  ∧ ∀ out, outcome r = Returned out ->
      out = OrgOut.mk n (org_collection_name n) (next_oid db)
      ∧ collections (store r) !! org_collection_name n = Some []
      ∧ count_org n (store r) = 1.
Proof.
  intros n [_ Hnames] Hclaim Horg Hp _ db1 r.
  pose proof (delete_organization_run name c db) as H.
  simpl in H. fold n db1 in H.
  rewrite bool_decide_false in H by (by intros Hn; apply Hn).
  rewrite Horg in H. destruct H as [_ Hdb1].
  assert (Hgone : ¬ registered n db1).
  { intros (d & Hd & Hn). rewrite Hdb1 in Hd. simpl in Hd.
    by apply (delete_first_key OrgDoc.organization_name n
                (organizations db) Hnames d Hd). }
  pose proof (count_org_unregistered n db1 Hgone) as Hcount.
  apply lookup_org_None in Hgone.
  subst r. rewrite create_organization_run. rewrite Hp, Hgone. simpl.
  split; [done|]. intros out [= <-].
  assert (Hcoll : collections db1 !! org_collection_name n = None)
    by (rewrite Hdb1; simpl; apply lookup_delete_eq).
  rewrite Hcoll, lookup_insert_eq.
  assert (Hnext : next_oid db1 = next_oid db) by by rewrite Hdb1.
  rewrite Hnext. repeat split; try done.
  unfold count_org in *. simpl. rewrite filter_app, length_app, Hcount.
  rewrite filter_cons, decide_True by done. done.
Qed.

(** ** Creation and login *)

Lemma find_first_app_fresh {A} (f : A -> bool) (l : list A) (x : A) :
  find_first f l = None -> find_first f (l ++ [x]) = if f x then Some x else None.
Proof.
  induction l as [|y l IH]; simpl; [done|].
  destruct (f y); [done|]. exact IH.
Qed.

Lemma lookup_admin_fresh (db : Database) :
  ids_inv db -> find_first (admin_matches (admin_by_id (next_oid db))) (admins db) = None.
Proof.
  intros (_ & _ & _ & Hlt). apply find_first_None. intros a Ha. simpl.
  apply bool_decide_eq_false. intros Hid.
  specialize (Hlt (AdminDoc._id a) (list_elem_of_fmap_2 _ _ _ Ha)). lia.
Qed.

(** X13. What a successful create establishes: on a database with fresh
    identifiers and the name not registered, whenever the create returns,
    it returns the normalized name, the derived collection name and the new
    admin's identifier; [get_organization] on the name as sent then returns
    the new record; the admin record holds the email, the hashed password,
    the role ["admin"] and the name, and is linked with the record; the
    collection exists, with the documents a collection of that name already
    held if there was one (it is not cleared); every earlier registry and
    admin record is still there. *)
Theorem create_organization_establishes (db : Database) (p : OrgCreate.t) (utcnow : nat)
    (out : OrgOut.t) :
  let n := normalize (OrgCreate.organization_name p) in
  ids_inv db ->
  ¬ registered n db ->
  let r := create_organization hash_password p utcnow db in
  let d := OrgDoc.mk (S (next_oid db)) n (org_collection_name n) (next_oid db) utcnow in
  let a := AdminDoc.mk (next_oid db) (OrgCreate.email p)
             (hash_password (OrgCreate.password p)) "admin" n in
  outcome r = Returned out ->
  out = OrgOut.mk n (org_collection_name n) (next_oid db)
  ∧ outcome (get_organization (OrgCreate.organization_name p) (store r)) = Returned d
  ∧ lookup_admin (next_oid db) (store r) = Some a
  ∧ linked d (store r)
  ∧ collections (store r) !! org_collection_name n
    = Some (default [] (collections db !! org_collection_name n))
  ∧ (∀ d', d' ∈ organizations db -> d' ∈ organizations (store r))
  ∧ (∀ a', a' ∈ admins db -> a' ∈ admins (store r)).
Proof.
  intros n Hids Hfresh r d a Hret.
  apply lookup_org_None in Hfresh.
  assert (Hr : r = MkRun (Returned (OrgOut.mk n (org_collection_name n) (next_oid db)))
                 {| organizations := organizations db ++ [d];
                    admins := admins db ++ [a];
                    collections :=
                      match collections db !! org_collection_name n with
                      | Some _ => collections db
                      | None => <[org_collection_name n := []]> (collections db)
                      end;
                    next_oid := S (S (next_oid db)) |}
                 (calls r)).
  { subst r. rewrite create_organization_run. fold n. by rewrite Hfresh. }
  assert (Hadm : lookup_admin (next_oid db) (store r) = Some a).
  { rewrite Hr. unfold lookup_admin. simpl.
    rewrite (find_first_app_fresh _ _ _ (lookup_admin_fresh db Hids)). simpl.
    by rewrite bool_decide_true. }
  rewrite Hr in *. simpl in *. split; [by injection Hret as <-|].
  split; [|split; [exact Hadm|split; [|split]]].
  - unfold get_organization. unfold_async. simpl. fold n.
    unfold lookup_org in Hfresh. rewrite (find_first_app_fresh _ _ _ Hfresh). simpl.
    by rewrite bool_decide_true.
  - exists a. split; [exact Hadm|done].
  - destruct (collections db !! org_collection_name n) eqn:E; simpl; [done|].
    apply lookup_insert_eq.
  - split; intros x Hx; apply elem_of_app; by left.
Qed.

(** X14. The admin of a new tenant can log in at once: when no earlier
    admin has the same email and the credential store verifies a password
    against its own hash, a login with the email and password of the create
    returns the claim that carries the identifier the create returned and
    the normalized name. *)
Theorem create_then_login (db : Database) (p : OrgCreate.t) (utcnow : nat) :
  let n := normalize (OrgCreate.organization_name p) in
  ids_inv db ->
  refs_inv db ->
  ¬ registered n db ->
  find_first (admin_matches (admin_by_email (OrgCreate.email p))) (admins db) = None ->
  verify_password (OrgCreate.password p) (hash_password (OrgCreate.password p)) = true ->
  outcome (admin_login verify_password
             (AdminLogin.mk (OrgCreate.email p) (OrgCreate.password p))
             (store (create_organization hash_password p utcnow db)))
  = Returned {| claim_admin_id := next_oid db; claim_org_id := n |}.
Proof.
  intros n Hids (_ & _ & Hrefs) Hfresh Hemail Hverify.
  apply lookup_org_None in Hfresh.
  rewrite create_organization_run. fold n. rewrite Hfresh. simpl.
  unfold admin_login. unfold_async. simpl.
  rewrite (find_first_app_fresh _ _ _ Hemail). simpl.
  rewrite bool_decide_true by done. simpl. rewrite Hverify. simpl.
  assert (Hnone : find_first (org_matches (org_by_admin_id (next_oid db)))
                    (organizations db) = None).
  { apply find_first_None. intros d Hd. simpl. apply bool_decide_eq_false. intros Hid.
    specialize (Hrefs (OrgDoc.admin_id d) (list_elem_of_fmap_2 _ _ _ Hd)). lia. }
  rewrite (find_first_app_fresh _ _ _ Hnone). simpl.
  by rewrite bool_decide_true.
Qed.

(** X15. What a claim vouches for at the time it is minted: when
    [admin_login] returns a claim, the database is unchanged, the claim's
    admin is the first admin record with the email (a later record with the
    same email can never log in), its stored hash verified the password,
    and the claim's tenant name is the name of the first registry record
    that stores this admin: a registered name, read from the registry and
    not from the admin's own link field. *)
Theorem admin_login_sound (db : Database) (p : AdminLogin.t) (c : Claim) :
  outcome (admin_login verify_password p db) = Returned c ->
  store (admin_login verify_password p db) = db
  ∧ ∃ a org,
      find_first (admin_matches (admin_by_email (AdminLogin.email p))) (admins db) = Some a
      ∧ verify_password (AdminLogin.password p) (AdminDoc.password a) = true
      ∧ claim_admin_id c = AdminDoc._id a
      ∧ find_first (org_matches (org_by_admin_id (AdminDoc._id a))) (organizations db)
        = Some org
      ∧ claim_org_id c = OrgDoc.organization_name org
      ∧ registered (claim_org_id c) db.
Proof.
  rewrite admin_login_store. unfold admin_login. unfold_async. simpl.
  destruct (find_first _ (admins db)) as [a|] eqn:Ha; simpl; [|done].
  destruct (verify_password _ _) eqn:Hv; simpl; [|done].
  destruct (find_first _ (organizations db)) as [org|] eqn:Horg; simpl; [|done].
  intros [= <-]. split; [done|]. exists a, org. simpl.
  repeat split; try done.
  apply find_first_Some in Horg as [Hin _]. by exists org.
Qed.

(** ** Invariants of the admins and of the references to them *)

Lemma elem_of_credentials_written (c : Claim) (p : OrgUpdate.t) (l : list AdminDoc.t)
    (a' : AdminDoc.t) :
  a' ∈ credentials_written hash_password c p l ->
  ∃ a, a ∈ l ∧ AdminDoc.role a' = AdminDoc.role a
       ∧ AdminDoc.organization a' = AdminDoc.organization a.
Proof.
  unfold credentials_written.
  destruct (truthy_opt (OrgUpdate.email p) || truthy_opt (OrgUpdate.password p));
    [|by exists a'].
  intros [Ha|(a & Ha & _ & ->)]%elem_of_update_first; [by exists a'|by exists a].
Qed.

Lemma admin_inv_step (db db' : Database) :
  admin_inv db -> step hash_password verify_password db db' -> admin_inv db'.
Proof.
  intros Hinv Hstep. destruct Hstep as [p now db|n db|c p db|n c db|p db|m db].
  - rewrite create_organization_run.
    destruct (lookup_org _ db); simpl; [done|].
    intros a [Ha| ->%list_elem_of_singleton]%elem_of_app; [auto|].
    simpl. split; [done|apply normalize_idem].
  - by rewrite get_organization_store.
  - unfold admin_inv. rewrite update_organization_admins.
    destruct (lookup_org (claim_org_id c) db); [|done].
    case_bool_decide.
    + destruct (lookup_org (normalize _) db); [done|].
      intros a' (a & Ha & Hr & Ho)%elem_of_credentials_written.
      rewrite Hr, Ho.
      apply elem_of_update_first in Ha as [Ha|(a0 & Ha0 & _ & Heq)]; [auto|].
      rewrite Heq. simpl. split; [by apply Hinv|apply normalize_idem].
    + intros a' (a & Ha & Hr & Ho)%elem_of_credentials_written.
      rewrite Hr, Ho. auto.
  - destruct (delete_organization_admins n c db) as ([Ha|[i Ha]] & _);
      unfold admin_inv; rewrite Ha; [done|].
    intros a Hin%elem_of_delete_first. auto.
  - by rewrite admin_login_store.
  - done.
Qed.

(** X16. Every admin record the service ever holds has the role ["admin"]
    and a tenant link in normal form: this holds in every database
    reachable from the empty one, and every operation (with any payload and
    any claim) preserves it. *)
Theorem admin_records_invariant (db db' : Database) :
  (reachable hash_password verify_password db -> admin_inv db)
  ∧ (admin_inv db -> step hash_password verify_password db db' -> admin_inv db').
Proof.
  split; [|apply admin_inv_step].
  induction 1 as [|db0 db1 _ IH Hstep]; [|by eapply admin_inv_step].
  intros a Ha. by apply elem_of_nil in Ha.
Qed.

Lemma update_organization_admin_ids (c : Claim) (p : OrgUpdate.t) (db : Database) :
  OrgDoc.admin_id <$> organizations (store (update_organization hash_password c p db))
  = OrgDoc.admin_id <$> organizations db.
Proof.
  rewrite update_organization_organizations.
  destruct (lookup_org (claim_org_id c) db); [|done].
  case_bool_decide; [|done].
  destruct (lookup_org (normalize _) db); [done|].
  by apply fmap_update_first.
Qed.

Lemma refs_inv_step (db db' : Database) :
  tenant_inv db -> ids_inv db -> refs_inv db ->
  step hash_password verify_password db db' -> refs_inv db'.
Proof.
  intros [_ Hnames] (_ & _ & _ & Hlta) (Hnd & Hex & Hlt) Hstep.
  destruct Hstep as [p now db|n db|c p db|n c db|p db|m db].
  - rewrite create_organization_run.
    destruct (lookup_org _ db); simpl; [done|].
    unfold refs_inv. simpl. rewrite !fmap_app. simpl. split; [|split].
    + apply NoDup_app. split; [done|]. split; [|apply NoDup_singleton].
      intros i Hi ->%list_elem_of_singleton. apply Hlt in Hi. lia.
    + intros i [Hi| ->%list_elem_of_singleton]%elem_of_app; apply elem_of_app;
        [left; auto|right; left].
    + intros i [Hi%Hlt| ->%list_elem_of_singleton]%elem_of_app; lia.
  - by rewrite get_organization_store.
  - destruct (update_organization_ids c p db) as (_ & Ha & Hn).
    unfold refs_inv. by rewrite update_organization_admin_ids, Ha, Hn.
  - pose proof (delete_organization_run n c db) as H. simpl in H.
    case_bool_decide; [by rewrite H|].
    destruct (lookup_org (normalize n) db) as [org|] eqn:Horg; [|by rewrite H].
    destruct H as [_ ->]. unfold refs_inv. simpl.
    apply lookup_org_Some in Horg as [Hin Hname].
    split; [by apply NoDup_delete_first|]. split.
    + intros i (d & -> & Hd)%list_elem_of_fmap.
      pose proof (delete_first_key OrgDoc.organization_name (normalize n)
                    (organizations db) Hnames d Hd) as Hdn.
      apply elem_of_delete_first in Hd.
      pose proof (Hex (OrgDoc.admin_id d) (list_elem_of_fmap_2 _ _ _ Hd)) as Hi.
      apply list_elem_of_fmap in Hi as (a & Ha & Hain).
      rewrite Ha. apply list_elem_of_fmap_2. apply delete_first_frame; [done|].
      simpl. apply bool_decide_eq_false. intros Hid. apply Hdn.
      rewrite (NoDup_key_inj OrgDoc.admin_id _ d org Hnd Hd Hin); [done|congruence].
    + intros i Hi%elem_of_fmap_delete_first. auto.
  - by rewrite admin_login_store.
  - done.
Qed.

Lemma refs_inv_empty : refs_inv empty_db.
Proof.
  repeat split; simpl; try apply NoDup_nil_2; by intros i Hi%elem_of_nil.
Qed.

Lemma reachable_refs_inv (db : Database) :
  reachable hash_password verify_password db -> refs_inv db.
Proof.
  induction 1 as [|db db' Hreach IH Hstep]; [apply refs_inv_empty|].
  eapply refs_inv_step; [| |exact IH|exact Hstep].
  - by apply reachable_tenant_inv.
  - by apply reachable_ids_inv.
Qed.

(** X17. Referential integrity of the registry: in every database reachable
    from the empty one by the service (any payloads, any claims), no two
    registry records store the same admin identifier, every stored admin
    identifier is the [_id] of an admin record that exists, and the [_id]s
    within the registry and within the admins are pairwise distinct. *)
Theorem registry_references_admins (db : Database) :
  reachable hash_password verify_password db ->
  refs_inv db ∧ ids_inv db.
Proof.
  intros H. split; [by apply reachable_refs_inv|by apply reachable_ids_inv].
Qed.

Lemma admins_owned_step (db db' : Database) :
  tenant_inv db -> ids_inv db -> refs_inv db -> admins_owned db ->
  step hash_password verify_password db db' -> admins_owned db'.
Proof.
  intros [_ Hnames] (_ & Hadmins & _) (Hnd & _) Howned Hstep.
  destruct Hstep as [p now db|n db|c p db|n c db|p db|m db].
  - rewrite create_organization_run.
    destruct (lookup_org _ db); simpl; [done|].
    unfold admins_owned. simpl. rewrite !fmap_app. simpl.
    intros i [Hi| ->%list_elem_of_singleton]%elem_of_app; apply elem_of_app;
      [left; auto|right; left].
  - by rewrite get_organization_store.
  - destruct (update_organization_ids c p db) as (_ & Ha & _).
    unfold admins_owned. by rewrite update_organization_admin_ids, Ha.
  - pose proof (delete_organization_run n c db) as H. simpl in H.
    case_bool_decide; [by rewrite H|].
    destruct (lookup_org (normalize n) db) as [org|] eqn:Horg; [|by rewrite H].
    destruct H as [_ ->]. unfold admins_owned. simpl.
    apply lookup_org_Some in Horg as [Hin Hname].
    intros i (a & -> & Ha)%list_elem_of_fmap.
    pose proof (delete_first_key AdminDoc._id (OrgDoc.admin_id org)
                  (admins db) Hadmins a Ha) as Hid.
    apply elem_of_delete_first in Ha.
    pose proof (Howned (AdminDoc._id a) (list_elem_of_fmap_2 _ _ _ Ha)) as Hi.
    apply list_elem_of_fmap in Hi as (d & Hd & Hdin).
    rewrite Hd. apply list_elem_of_fmap_2. apply delete_first_frame; [done|].
    simpl. apply bool_decide_eq_false. intros Hdn.
    apply Hid. rewrite Hd. f_equal.
    apply (NoDup_key_inj OrgDoc.organization_name _ d org Hnames Hdin Hin). congruence.
  - by rewrite admin_login_store.
  - done.
Qed.

Lemma reachable_admins_owned (db : Database) :
  reachable hash_password verify_password db -> admins_owned db.
Proof.
  induction 1 as [|db db' Hreach IH Hstep]; [by intros i Hi%elem_of_nil|].
  eapply admins_owned_step; [| | |exact IH|exact Hstep].
  - by apply reachable_tenant_inv.
  - by apply reachable_ids_inv.
  - by apply reachable_refs_inv.
Qed.

(** X22. The "Organization linkage error" of [admin_login] ("should not
    happen for a valid admin", as the source says) indeed never happens: in
    every database reachable from the empty one, every admin record is the
    stored admin of a registry record, so a login either fails with
    "Invalid credentials" or returns a claim. *)
Theorem admin_login_linkage_never_fails (db : Database) (p : AdminLogin.t) :
  reachable hash_password verify_password db ->
  admins_owned db
  ∧ (outcome (admin_login verify_password p db)
     = Raised (HTTPException 401 "Invalid credentials")
     ∨ ∃ c, outcome (admin_login verify_password p db) = Returned c).
Proof.
  intros Howned%reachable_admins_owned. split; [exact Howned|].
  unfold admin_login. unfold_async. simpl.
  destruct (find_first _ (admins db)) as [a|] eqn:Ha; simpl; [|by left].
  destruct (verify_password _ _); simpl; [|by left].
  apply find_first_Some in Ha as [Ha _].
  pose proof (Howned (AdminDoc._id a) (list_elem_of_fmap_2 _ _ _ Ha)) as Hi.
  apply list_elem_of_fmap in Hi as (d & Hd & Hdin).
  destruct (find_first_is_Some (org_matches (org_by_admin_id (AdminDoc._id a)))
              (organizations db) d Hdin) as [org Horg].
  { simpl. by apply bool_decide_eq_true. }
  rewrite Horg. simpl. right. by eexists.
Qed.

(** ** Further properties of the normalization *)

Lemma lstrip_split s : ∃ l, s = l +:+ lstrip s ∧ all_space l = true.
Proof.
  induction s as [|c s (l & Hs & Hl)]; simpl; [by exists ""|].
  destruct (isspace c) eqn:E.
  - exists (String c l). split.
    + exact (f_equal (String c) Hs).
    + simpl. rewrite E. exact Hl.
  - by exists "".
Qed.

Lemma rstrip_split s : ∃ r, s = rstrip s +:+ r ∧ all_space r = true.
Proof.
  induction s as [|c s (r & Hs & Hr)]; simpl; [by exists ""|].
  destruct (rstrip s) as [|c' m] eqn:E; simpl in *.
  - destruct (isspace c) eqn:Ec.
    + exists (String c r). split; [exact (f_equal (String c) Hs)|].
      simpl. rewrite Ec. exact Hr.
    + exists r. split; [exact (f_equal (String c) Hs)|exact Hr].
  - exists r. split; [exact (f_equal (String c) Hs)|exact Hr].
Qed.

Lemma rstrip_last s c : last_char (rstrip s) = Some c -> isspace c = false.
Proof.
  induction s as [|c0 s IH]; simpl; [done|].
  destruct (rstrip s) as [|c' m] eqn:E.
  - destruct (isspace c0) eqn:Ec; simpl; [done|]. by intros [= <-].
  - intros H. apply IH. exact H.
Qed.

Lemma length_append_string (a b : string) :
  String.length (a +:+ b) = String.length a + String.length b.
Proof. induction a as [|c a IH]; simpl; [done|]. by rewrite IH. Qed.

Lemma strip_all_space s : all_space s = true -> strip s = "".
Proof.
  unfold strip. induction s as [|c s IH]; simpl; [done|].
  intros [Hc Hs]%andb_true_iff. rewrite Hc. auto.
Qed.

(** X18. [strip] removes exactly the surrounding whitespace: every string
    is a run of whitespace, then its stripped form, then a run of
    whitespace, and the stripped form neither starts nor ends with
    whitespace; so the stripped form is never longer than the string. The
    normalized name is the lower-cased stripped form, and it is empty
    exactly when the name is whitespace only. *)
Theorem strip_removes_surrounding_whitespace (s : string) :
  (∃ l r, s = l +:+ strip s +:+ r ∧ all_space l = true ∧ all_space r = true)
  ∧ starts_clean (strip s)
  ∧ (∀ c, last_char (strip s) = Some c -> isspace c = false)
  ∧ String.length (strip s) <= String.length s
  ∧ normalize s = lower (strip s)
  ∧ (normalize s = "" <-> all_space s = true).
Proof.
  assert (Hsplit : ∃ l r, s = l +:+ strip s +:+ r ∧ all_space l = true
                          ∧ all_space r = true).
  { destruct (lstrip_split s) as (l & Hs & Hl).
    destruct (rstrip_split (lstrip s)) as (r & Hm & Hr).
    exists l, r. unfold strip. by rewrite <- Hm, <- Hs. }
  split; [exact Hsplit|]. split; [|split; [|split; [|split; [done|]]]].
  - apply rstrip_starts_clean, lstrip_starts_clean.
  - intros c. apply rstrip_last.
  - destruct Hsplit as (l & r & Hs & _).
    rewrite Hs at 2. rewrite !length_append_string. lia.
  - split.
    + unfold normalize. intros Hn.
      assert (Hstrip : strip s = "") by (by destruct (strip s)).
      destruct Hsplit as (l & r & Hs & Hl & Hr). rewrite Hstrip in Hs. simpl in Hs.
      rewrite Hs. clear Hs. induction l as [|c l IH]; simpl in *; [done|].
      apply andb_true_iff in Hl as [-> Hl]. auto.
    + intros Hs. unfold normalize. by rewrite (strip_all_space s Hs).
Qed.

(** X19. The length check of the request model does not bound the tenant
    name: a create whose name is whitespace only (however long) registers
    the tenant with the empty name and the collection ["org_"], when the
    empty name is free; and a rename to a whitespace-only or empty name
    likewise gives the tenant the empty name. *)
Theorem blank_name_becomes_empty_tenant (db : Database) :
  (∀ p utcnow,
     all_space (OrgCreate.organization_name p) = true ->
     ¬ registered "" db ->
     outcome (create_organization hash_password p utcnow db)
     = Returned (OrgOut.mk "" "org_" (next_oid db))
     ∧ registered "" (store (create_organization hash_password p utcnow db)))
  ∧ (∀ c p org,
       all_space (OrgUpdate.organization_name p) = true ->
       lookup_org (claim_org_id c) db = Some org ->
       claim_org_id c ≠ "" ->
       ¬ registered "" db ->
       ∃ view, outcome (update_organization hash_password c p db) = Returned view
               ∧ OrgDoc.organization_name view = ""
               ∧ OrgDoc.collection_name view = "org_").
Proof.
  split.
  - intros p utcnow Hs Hfresh.
    assert (Hn : normalize (OrgCreate.organization_name p) = "")
      by (unfold normalize; by rewrite (strip_all_space _ Hs)).
    apply lookup_org_None in Hfresh.
    rewrite create_organization_run, Hn, Hfresh. simpl. split; [done|].
    eexists. split; [apply elem_of_app; right; left|done].
  - intros c p org Hs Horg Hne Hfresh.
    assert (Hn : normalize (OrgUpdate.organization_name p) = "")
      by (unfold normalize; by rewrite (strip_all_space _ Hs)).
    destruct (lookup_org_renamed db org (claim_org_id c) "" Horg Hfresh)
      as (view & Hview & Hname & Hcoll).
    exists view. split; [|done].
    rewrite update_organization_outcome, Hn, Horg.
    rewrite bool_decide_true by done.
    apply lookup_org_None in Hfresh as ->. unfold rename_set. by rewrite Hview.
Qed.

(** ** [app/auth.py]: tokens *)

(** C4, as the code has it. With a claim bound to one tenant and a name
    that normalizes to another, [delete_organization] raises 403 Forbidden
    before any driver call (so before the existence check) and leaves the
    database as it was. [update_organization] has no target-name parameter:
    it acts on the claim's tenant and never raises Forbidden; it leaves the
    registry record and the data collection of the other tenant unchanged,
    and, with a claim that carries the admin identity stored for its own
    tenant, the admin record of the other tenant as well. *)
Theorem foreign_claim_leaves_other_tenant (db : Database) (c : Claim) (name : string) :
  let other := normalize name in
  other ≠ claim_org_id c ->
  (let r := delete_organization name c db in
   outcome r = Raised (HTTPException 403 "You are not authorized to delete this organization")
   ∧ Forbidden (HTTPException 403 "You are not authorized to delete this organization")
   ∧ store r = db
   ∧ calls r = [])
  ∧ ∀ p, let r := update_organization hash_password c p db in
      (∀ e, outcome r = Raised e -> ¬ Forbidden e)
      ∧ (NoDup (OrgDoc._id <$> organizations db) ->
         ∀ d, d ∈ organizations db -> OrgDoc.organization_name d = other ->
              d ∈ organizations (store r))
      ∧ (registered other db ->
         collections (store r) !! org_collection_name other
         = collections db !! org_collection_name other)
      ∧ (NoDup (OrgDoc.admin_id <$> organizations db) ->
         (∀ org, lookup_org (claim_org_id c) db = Some org ->
                 claim_admin_id c = OrgDoc.admin_id org) ->
         ∀ d, d ∈ organizations db -> OrgDoc.organization_name d = other ->
              lookup_admin (OrgDoc.admin_id d) (store r)
              = lookup_admin (OrgDoc.admin_id d) db).
Proof.
  intros other Hne. split.
  { unfold delete_organization. fold other.
    rewrite bool_decide_true by done. done. }
  intros p r. subst r.
  set (t := claim_org_id c) in *.
  set (t' := normalize (OrgUpdate.organization_name p)).
  split; [|split; [|split]].
  - intros e. rewrite update_organization_outcome. fold t t'.
    destruct (lookup_org t db) as [org|]; [|by intros [= <-] HF].
    case_bool_decide; [|done].
    destruct (lookup_org t' db); [by intros [= <-] HF|].
    destruct (find_first _ _); [done|]. by intros [= <-] HF.
  - intros Hnd d Hd Hdn. rewrite update_organization_organizations. fold t t'.
    destruct (lookup_org t db) as [org|] eqn:Horg; [|done].
    case_bool_decide; [|done].
    destruct (lookup_org t' db); [done|].
    apply lookup_org_Some in Horg as [Hin Ht].
    apply update_first_frame; [done|].
    simpl. apply bool_decide_eq_false. intros Hid.
    assert (d = org) by by eapply NoDup_key_inj.
    subst d. congruence.
  - intros Hreg. rewrite update_organization_collections. fold t t'.
    destruct (lookup_org t db) as [org|] eqn:Horg; [|done].
    case_bool_decide; [|done].
    destruct (lookup_org t' db) eqn:Hfresh; [done|].
    destruct (collections db !! org_collection_name t); [|done].
    rewrite lookup_delete_ne by (apply org_collection_name_ne; congruence).
    rewrite lookup_insert_ne; [done|].
    apply org_collection_name_ne. intros Heq.
    apply lookup_org_None in Hfresh. apply Hfresh. by rewrite Heq.
  - intros Hnd Hclaim d Hd Hdn. unfold lookup_admin.
    rewrite update_organization_admins. fold t t'.
    destruct (lookup_org t db) as [org|] eqn:Horg; [|done].
    pose proof (Hclaim org eq_refl) as Hc.
    apply lookup_org_Some in Horg as [Hin Ht].
    assert (Hother : claim_admin_id c ≠ OrgDoc.admin_id d).
    { rewrite Hc. intros Hid.
      assert (org = d) by by eapply NoDup_key_inj.
      subst d. congruence. }
    case_bool_decide.
    + destruct (lookup_org t' db); [done|].
      rewrite credentials_written_other by done.
      apply find_first_update_first_other.
      intros x Hx. simpl in *. apply bool_decide_eq_true in Hx.
      split; apply bool_decide_eq_false; simpl; congruence.
    + by rewrite credentials_written_other.
Qed.

(** *** The call log accounts for every change *)

Lemma replay_app (cs cs' : list DbCall) (db : Database) :
  replay (cs ++ cs') db = replay cs' (replay cs db).
Proof. apply foldl_app. Qed.

Lemma logged_ret {A} (a : A) : logged (mret a : Async A).
Proof. intros db. done. Qed.

Lemma logged_raise {A} (e : Exn) : logged (raise e : Async A).
Proof. intros db. done. Qed.

Lemma logged_bind {A B} (m : Async A) (k : A -> Async B) :
  logged m -> (∀ a, logged (k a)) -> logged (m ≫= k).
Proof.
  intros Hm Hk db. unfold mbind, Async_bind, async_bind.
  specialize (Hm db). destruct (m db) as [[a|e] db' cs]; simpl in *; [|done].
  specialize (Hk a db'). destruct (k a db') as [o db'' cs']; simpl in *.
  by rewrite replay_app, <- Hm.
Qed.

Lemma logged_create_collection (name : string) : logged (create_collection name).
Proof.
  intros db. unfold create_collection, replay.
  destruct (collections db !! name) eqn:E; simpl; by rewrite E.
Qed.

Ltac logged_step :=
  first
    [ apply logged_ret
    | apply logged_raise
    | apply logged_create_collection
    | apply logged_bind; [|intros ?]
    | match goal with
      | |- logged (match ?x with Some _ => _ | None => _ end) => destruct x
      | |- logged (if ?b then _ else _) => destruct b
      end
    | (intros ?; reflexivity) ].



Lemma rename_and_sync_collection_logged (old_org_name new_org_name : string) :
  logged (rename_and_sync_collection old_org_name new_org_name).
Proof. unfold rename_and_sync_collection. repeat logged_step. Qed.



Lemma update_organization_logged (c : Claim) (p : OrgUpdate.t) :
  logged (update_organization hash_password c p).
Proof.
  unfold update_organization.
  repeat first [apply rename_and_sync_collection_logged | logged_step].
Qed.



(** X23. The order of a rename, read on the database: with a claim that
    carries the identity of the tenant's admin, the calls logged account
    for the whole change, and the copy and the drop of the migration occur
    once, next to each other, in that order. When the copy starts, the
    registry record is already found under the new name and the admin's
    tenant link already is the new name, while no data collection has been
    touched; after the copy both collections hold the documents; only the
    drop removes the old one. *)
Theorem rename_metadata_before_migration (db : Database) (c : Claim) (p : OrgUpdate.t)
    (org : OrgDoc.t) (a : AdminDoc.t) (D : list Document) :
  let t := claim_org_id c in
  let t' := normalize (OrgUpdate.organization_name p) in
  ids_inv db ->
  lookup_org t db = Some org ->
  t' ≠ t ->
  ¬ registered t' db ->
  claim_admin_id c = OrgDoc.admin_id org ->
  lookup_admin (OrgDoc.admin_id org) db = Some a ->
  collections db !! org_collection_name t = Some D ->
  let r := update_organization hash_password c p db in
  let view := OrgDoc.mk (OrgDoc._id org) t' (org_collection_name t')
                (OrgDoc.admin_id org) (OrgDoc.created_at org) in
  let copy := Call_aggregate_out (org_collection_name t) (org_collection_name t') in
  let drop := Call_drop_collection (org_collection_name t) in
  store r = replay (calls r) db
  ∧ ∃ pre post,
      calls r = pre ++ copy :: drop :: post
      ∧ (copy ∉ pre) ∧ (drop ∉ pre) ∧ (copy ∉ post) ∧ (drop ∉ post)
      ∧ (let db1 := replay pre db in
         lookup_org t' db1 = Some view
         ∧ AdminDoc.organization <$> lookup_admin (OrgDoc.admin_id org) db1 = Some t'
         ∧ collections db1 = collections db)
      ∧ (let db2 := replay (pre ++ [copy]) db in
         collections db2 !! org_collection_name t = Some D
         ∧ collections db2 !! org_collection_name t' = Some D)
      ∧ (let db3 := replay (pre ++ [copy; drop]) db in
         collections db3 !! org_collection_name t = None
         ∧ collections db3 !! org_collection_name t' = Some D).
Proof.
  intros t t' (Hids & _) Horg Hne Hfresh Hclaim Ha HD r view copy drop.
  split; [apply update_organization_logged|].
  destruct (update_organization_rename_calls db c p org Horg Hne Hfresh) as [Hcalls _].
  fold t t' r in Hcalls. rewrite HD in Hcalls.
  rewrite bool_decide_true in Hcalls by by eexists.
  pose proof (lookup_org_Some _ _ _ Horg) as [Hin Ht].
  assert (Hnames : org_collection_name t' ≠ org_collection_name t)
    by by apply org_collection_name_ne.
  eexists [_; _; _; _; _], _. split; [exact Hcalls|].
  split; [|split; [|split; [|split; [|split; [|split]]]]].
  - intros H. repeat (apply elem_of_cons in H as [H|H]; [discriminate|]).
    by apply elem_of_nil in H.
  - intros H. repeat (apply elem_of_cons in H as [H|H]; [discriminate|]).
    by apply elem_of_nil in H.
  - destruct (truthy_opt (OrgUpdate.email p) || truthy_opt (OrgUpdate.password p)).
    all: intros H; repeat (apply elem_of_cons in H as [H|H]; [discriminate|]).
    all: by apply elem_of_nil in H.
  - destruct (truthy_opt (OrgUpdate.email p) || truthy_opt (OrgUpdate.password p)).
    all: intros H; repeat (apply elem_of_cons in H as [H|H]; [discriminate|]).
    all: by apply elem_of_nil in H.
  - simpl. split; [|split; [|done]].
    + pose proof (renamed_view db org t' Hids Hin Hfresh) as Hview.
      unfold rename_set in Hview. unfold lookup_org. simpl. by rewrite Hview.
    + unfold lookup_admin in *. simpl. rewrite Hclaim.
      by rewrite (lookup_admin_update_first _ _ _ _ Ha).
  - rewrite replay_app. simpl. rewrite HD. simpl. split.
    + by rewrite lookup_insert_ne, HD.
    + by rewrite lookup_insert_eq.
  - rewrite replay_app. simpl. rewrite HD. simpl. split.
    + by rewrite lookup_delete_eq.
    + by rewrite lookup_delete_ne, lookup_insert_eq.
Qed.


Section AuthProperties.

Variable jwt_encode : gmap string JsonValue -> string.
Variable jwt_decode : Z -> string -> option (gmap string JsonValue).

Lemma payload_get_Some (payload : gmap string JsonValue) (key : string) (v : JsonValue) :
  payload_get payload key = Some v <-> payload !! key = Some v ∧ v ≠ JNull.
Proof.
  unfold payload_get. destruct (payload !! key) as [[]|]; split;
    try (intros [= <-]; done); try (by intros [[= <-] ?]); try done.
  all: by intros [? ?].
Qed.

(** X20. A minted token reads back as the claim it was minted for. When
    the minting time and the expiry are dates ([datetime.min] to
    [datetime.max]), [create_access_token] returns the encoding of the
    caller's data with [exp] set (overwriting any [exp] of the caller) to
    the minting time plus [expires_delta] minutes, or plus one day when
    [expires_delta] is absent or zero; and whenever the codec decodes that
    token to that payload, [get_current_admin] returns exactly the data's
    [admin_id] and [org_id], provided both are present and not null. When
    the expiry is past [datetime.max], [create_access_token] raises
    [OverflowError] instead. *)
Theorem token_round_trip (data : gmap string JsonValue) (expires_delta : option Z)
    (utcnow now' : Z) (admin_id org_id : JsonValue) :
  let lifetime :=
    match expires_delta with
    | Some m => if (m =? 0)%Z then 86400%Z else (60 * m)%Z
    | None => 86400%Z
    end in
  let minted := <["exp" := JInt (utcnow + lifetime)]> data in
  (DATETIME_MIN <= utcnow <= DATETIME_MAX)%Z ->
  ((DATETIME_MIN <= utcnow + lifetime <= DATETIME_MAX)%Z ->
   data !! "admin_id" = Some admin_id -> admin_id ≠ JNull ->
   data !! "org_id" = Some org_id -> org_id ≠ JNull ->
   jwt_decode now' (jwt_encode minted) = Some minted ->
   create_access_token jwt_encode data expires_delta utcnow = Returned (jwt_encode minted)
   ∧ get_current_admin jwt_decode (jwt_encode minted) now'
     = Returned {| current_admin_id := admin_id; current_org_id := org_id |})
  ∧ ((DATETIME_MAX < utcnow + lifetime)%Z ->
     create_access_token jwt_encode data expires_delta utcnow = Raised OverflowError).
Proof.
  intros lifetime minted Hnow.
  assert (Hdelta : (if truthy_int expires_delta
                    then timedelta_minutes (default 0%Z expires_delta)
                    else timedelta_minutes ACCESS_TOKEN_EXPIRE_MINUTES)
                   = timedelta_minutes (lifetime / 60)
                   ∧ (60 * (lifetime / 60) = lifetime)%Z).
  { unfold lifetime, truthy_int, ACCESS_TOKEN_EXPIRE_MINUTES.
    destruct expires_delta as [m|]; simpl; [|done].
    destruct (m =? 0)%Z eqn:E; simpl; [done|].
    replace (60 * m / 60)%Z with m by (rewrite Z.mul_comm, Z.div_mul; lia).
    done. }
  destruct Hdelta as [Hdelta Hexact].
  unfold DATETIME_MIN, DATETIME_MAX in *.
  split.
  - intros Hexp Ha Hna Ho Hno Hcodec. split.
    + unfold create_access_token. rewrite Hdelta. unfold timedelta_minutes.
      rewrite Hexact.
      assert ((-86399999913600 <=? lifetime)%Z && (lifetime <=? 86399999999999)%Z = true)
        as -> by (apply andb_true_iff; split; apply Z.leb_le; lia).
      unfold datetime_add, DATETIME_MIN, DATETIME_MAX.
      assert ((-62135596800 <=? utcnow + lifetime)%Z
              && (utcnow + lifetime <=? 253402300799)%Z = true)
        as -> by (apply andb_true_iff; split; apply Z.leb_le; lia).
      done.
    + unfold get_current_admin. rewrite Hcodec.
      assert (payload_get minted "admin_id" = Some admin_id) as ->.
      { apply payload_get_Some. split; [|done]. unfold minted.
        by rewrite lookup_insert_ne. }
      assert (payload_get minted "org_id" = Some org_id) as ->; [|done].
      apply payload_get_Some. split; [|done]. unfold minted.
      by rewrite lookup_insert_ne.
  - intros Hover. unfold create_access_token. rewrite Hdelta. unfold timedelta_minutes.
    rewrite Hexact.
    destruct ((-86399999913600 <=? lifetime)%Z && (lifetime <=? 86399999999999)%Z);
      [|done].
    unfold datetime_add, DATETIME_MIN, DATETIME_MAX.
    assert ((utcnow + lifetime <=? 253402300799)%Z = false) as ->
      by (apply Z.leb_gt; lia).
    by rewrite andb_false_r.
Qed.

(** X21. [get_current_admin] lets nothing else through: it returns only
    when the token decodes and both [admin_id] and [org_id] are present and
    not null, and then returns exactly these two entries; a token that does
    not decode raises 401 "Could not validate credentials", and a decoded
    payload with a missing or null entry raises 401 "Invalid token" (the
    [except JWTError] clause does not swallow it). *)
Theorem get_current_admin_outcome (token : string) (utcnow : Z) :
  match get_current_admin jwt_decode token utcnow with
  | Returned ca =>
      ∃ payload, jwt_decode utcnow token = Some payload
                 ∧ payload !! "admin_id" = Some (current_admin_id ca)
                 ∧ current_admin_id ca ≠ JNull
                 ∧ payload !! "org_id" = Some (current_org_id ca)
                 ∧ current_org_id ca ≠ JNull
  | Raised e =>
      (jwt_decode utcnow token = None
       ∧ e = HTTPException 401 "Could not validate credentials")
      ∨ (∃ payload, jwt_decode utcnow token = Some payload
                    ∧ (payload_get payload "admin_id" = None
                       ∨ payload_get payload "org_id" = None)
                    ∧ e = HTTPException 401 "Invalid token")
  end.
Proof.
  unfold get_current_admin.
  destruct (jwt_decode utcnow token) as [payload|]; [|by left].
  destruct (payload_get payload "admin_id") as [a|] eqn:Ha.
  - destruct (payload_get payload "org_id") as [o|] eqn:Ho.
    + apply payload_get_Some in Ha as [? ?]. apply payload_get_Some in Ho as [? ?].
      by exists payload.
    + right. exists payload. split; [done|]. split; [by right|done].
  - right. exists payload. split; [done|]. split; [by left|done].
Qed.

End AuthProperties.

End Properties.

(** ** The scenario, run *)

Example acme_db_registry :
  organizations acme_db = [acme_org] ∧ admins acme_db = [acme_admin]
  ∧ collections acme_db !! "org_acme" = Some [].
Proof. done. Qed.

Example acme_login :
  outcome (admin_login demo_verify (AdminLogin.mk "a@x.com" "secret1") acme_db)
  = Returned acme_claim.
Proof. vm_compute. reflexivity. Qed.

Example normalize_spellings :
  normalize "Acme" = "acme" ∧ normalize " ACME " = "acme" ∧ normalize "acme" = "acme".
Proof. done. Qed.

(** ** The theorems at the scenario *)

Lemma acme_db_reachable : reachable demo_hash demo_verify acme_db.
Proof. eapply reachable_step; [apply reachable_empty|apply step_create]. Qed.

(** C1 at the scenario: Acme, holding two documents, is renamed to Beta. *)
Lemma rename_migrates_collection_witness :
  lookup_org "acme" acme_docs_db = Some acme_org
  ∧ normalize " Beta " ≠ "acme"
  ∧ ¬ registered "beta" acme_docs_db
  ∧ collections renamed_db !! "org_beta" = Some ["doc1"; "doc2"]
  ∧ collections renamed_db !! "org_acme" = None.
Proof.
  assert (H1 : lookup_org "acme" acme_docs_db = Some acme_org) by reflexivity.
  assert (H2 : normalize " Beta " ≠ "acme") by (vm_compute; discriminate).
  assert (H3 : ¬ registered "beta" acme_docs_db) by (apply lookup_org_None; reflexivity).
  destruct (rename_migrates_collection demo_hash acme_docs_db acme_claim
              (OrgUpdate.mk " Beta " None None) acme_org H1 H2 H3)
    as (_ & Hcopy & _).
  destruct (Hcopy ["doc1"; "doc2"] eq_refl) as [Hnew Hold].
  repeat split; assumption.
Defined.

(** C2 at the scenario: Acme, then Other, then Acme again in lower case. *)
Lemma create_distinct_then_duplicate_witness :
  valid_name "Acme" = true
  ∧ valid_name "Other" = true
  ∧ ¬ registered "acme" empty_db
  ∧ ¬ registered "other" empty_db
  ∧ normalize "Acme" ≠ normalize "Other"
  ∧ normalize "acme" = normalize "Acme"
  ∧ (∃ o2, outcome (create_organization demo_hash other_payload 1 acme_db) = Returned o2
           ∧ OrgOut.organization_name o2 = "other")
  ∧ outcome (create_organization demo_hash acme_lower_payload 2 acme_db)
    = Raised (HTTPException 400 "Organization already exists")
  ∧ store (create_organization demo_hash acme_lower_payload 2 acme_db) = acme_db
  ∧ count_org "acme" acme_db = 1.
Proof.
  assert (V1 : valid_name (OrgCreate.organization_name acme_payload) = true)
    by reflexivity.
  assert (V2 : valid_name (OrgCreate.organization_name other_payload) = true)
    by reflexivity.
  assert (H1 : ¬ registered "acme" empty_db) by (apply lookup_org_None; reflexivity).
  assert (H2 : ¬ registered "other" empty_db) by (apply lookup_org_None; reflexivity).
  assert (H3 : normalize "Acme" ≠ normalize "Other") by (vm_compute; discriminate).
  assert (H4 : normalize "acme" = normalize "Acme") by reflexivity.
  destruct (create_distinct_then_duplicate demo_hash empty_db
              acme_payload other_payload acme_lower_payload 0 1 2 V1 V2 H1 H2 H3 H4)
    as (_ & Hsecond & Hdup & _ & Hstore & _ & Hcount).
  rewrite Hstore in Hcount.
  split; [exact V1|]. split; [exact V2|].
  split; [exact H1|]. split; [exact H2|]. split; [exact H3|]. split; [exact H4|].
  split; [exact Hsecond|]. split; [exact Hdup|]. split; [exact Hstore|exact Hcount].
Defined.

Lemma two_tenants_db_reachable : reachable demo_hash demo_verify two_tenants_db.
Proof.
  eapply reachable_step; [|apply step_create].
  eapply reachable_step; [apply acme_db_reachable|apply step_tenant_write].
Qed.

(** C3 at the scenario: Acme deletes itself, spelled [" ACME "]. *)
Lemma delete_removes_all_artifacts_witness :
  tenant_inv two_tenants_db
  ∧ ids_inv two_tenants_db
  ∧ claim_org_id acme_claim = normalize " ACME "
  ∧ lookup_org (normalize " ACME ") two_tenants_db = Some acme_org
  ∧ outcome (delete_organization " ACME " acme_claim two_tenants_db) = Returned "acme"
  ∧ ¬ registered "acme" (store (delete_organization " ACME " acme_claim two_tenants_db))
  ∧ collections (store (delete_organization " ACME " acme_claim two_tenants_db))
      !! "org_acme" = None
  ∧ outcome (get_organization "Acme"
               (store (delete_organization " ACME " acme_claim two_tenants_db)))
    = Raised (HTTPException 404 "Organization not found").
Proof.
  assert (H1 : tenant_inv two_tenants_db)
    by exact (reachable_tenant_inv _ _ _ two_tenants_db_reachable).
  assert (H2 : ids_inv two_tenants_db)
    by exact (reachable_ids_inv _ _ _ two_tenants_db_reachable).
  assert (H3 : claim_org_id acme_claim = normalize " ACME ") by reflexivity.
  assert (H4 : lookup_org (normalize " ACME ") two_tenants_db = Some acme_org)
    by reflexivity.
  destruct (delete_removes_all_artifacts two_tenants_db acme_claim " ACME " acme_org
              H1 H2 H3 H4) as (Hout & Hreg & _ & Hcoll & Hget).
  destruct (Hget "Acme" eq_refl) as [Hnf _].
  split; [exact H1|]. split; [exact H2|]. split; [exact H3|]. split; [exact H4|].
  split; [exact Hout|]. split; [exact Hreg|]. split; [exact Hcoll|exact Hnf].
Defined.

(** C4 refuted as stated: with Acme's claim, a rename request that names
    Other raises 400, not 403; one that names a free name renames Acme. *)
Lemma rename_never_forbidden_counterexample :
  claim_org_id acme_claim = "acme"
  ∧ registered "other" two_tenants_db
  ∧ outcome (update_organization demo_hash acme_claim (OrgUpdate.mk "other" None None)
               two_tenants_db)
    = Raised (HTTPException 400 "New organization name already exists")
  ∧ ¬ Forbidden (HTTPException 400 "New organization name already exists")
  ∧ outcome (update_organization demo_hash acme_claim (OrgUpdate.mk "zeta" None None)
               two_tenants_db)
    = Returned (OrgDoc.mk 1 "zeta" "org_zeta" 0 0).
Proof.
  split; [reflexivity|]. split.
  { exists (OrgDoc.mk 3 "other" "org_other" 2 1). split; [|reflexivity].
    right. left. }
  split; [reflexivity|]. split; [intros H; exact H|reflexivity].
Qed.

(** C4 at the scenario: Acme's claim against Other. *)
Lemma foreign_claim_leaves_other_tenant_witness :
  normalize "Other" ≠ claim_org_id acme_claim
  ∧ outcome (delete_organization "Other" acme_claim two_tenants_db)
    = Raised (HTTPException 403 "You are not authorized to delete this organization")
  ∧ store (delete_organization "Other" acme_claim two_tenants_db) = two_tenants_db
  ∧ calls (delete_organization "Other" acme_claim two_tenants_db) = []
  ∧ collections
      (store (update_organization demo_hash acme_claim
                (OrgUpdate.mk "zeta" (Some "z@x.com") (Some "secret9"))
                two_tenants_db)) !! "org_other"
    = collections two_tenants_db !! "org_other"
  ∧ lookup_admin 2
      (store (update_organization demo_hash acme_claim
                (OrgUpdate.mk "zeta" (Some "z@x.com") (Some "secret9"))
                two_tenants_db))
    = lookup_admin 2 two_tenants_db.
Proof.
  assert (H1 : normalize "Other" ≠ claim_org_id acme_claim) by (vm_compute; discriminate).
  destruct (foreign_claim_leaves_other_tenant demo_hash two_tenants_db acme_claim
              "Other" H1) as [(Hout & _ & Hstore & Hcalls) Hupd].
  destruct (Hupd (OrgUpdate.mk "zeta" (Some "z@x.com") (Some "secret9")))
    as (_ & _ & Hcoll & Hadm).
  assert (H2 : registered (normalize "Other") two_tenants_db).
  { exists other_org. split; [|reflexivity]. right. left. }
  assert (H3 : NoDup (OrgDoc.admin_id <$> organizations two_tenants_db)).
  { apply NoDup_cons. split; [|apply NoDup_singleton].
    intros Hin%list_elem_of_singleton. discriminate. }
  assert (H4 : ∀ org, lookup_org (claim_org_id acme_claim) two_tenants_db = Some org ->
                      claim_admin_id acme_claim = OrgDoc.admin_id org).
  { intros org [= <-]. reflexivity. }
  assert (H5 : other_org ∈ organizations two_tenants_db) by (right; left).
  split; [exact H1|]. split; [exact Hout|]. split; [exact Hstore|].
  split; [exact Hcalls|]. split; [exact (Hcoll H2)|].
  exact (Hadm H3 H4 other_org H5 eq_refl).
Defined.

(** C5 at the scenario: the created database is reachable, and the rename
    step keeps the invariant. *)
Lemma registry_invariant_witness :
  reachable demo_hash demo_verify acme_docs_db
  ∧ step demo_hash demo_verify acme_docs_db renamed_db
  ∧ tenant_inv acme_docs_db
  ∧ tenant_inv renamed_db.
Proof.
  assert (H1 : reachable demo_hash demo_verify acme_docs_db)
    by (eapply reachable_step; [apply acme_db_reachable|apply step_tenant_write]).
  assert (H2 : step demo_hash demo_verify acme_docs_db renamed_db) by apply step_update.
  destruct (registry_invariant demo_hash demo_verify acme_docs_db renamed_db)
    as [Hreach Hstep].
  split; [exact H1|]. split; [exact H2|]. split; [exact (Hreach H1)|].
  exact (Hstep (Hreach H1) H2).
Defined.



(** C8 at the scenario: after [create("Acme")], three spellings resolve to
    the same record and a fourth cannot be created. *)
Lemma operations_use_normalized_name_witness :
  outcome (create_organization demo_hash acme_payload 0 empty_db)
  = Returned (OrgOut.mk "acme" "org_acme" 0)
  ∧ ∃ tenant,
      outcome (get_organization "acme" acme_db) = Returned tenant
      ∧ outcome (get_organization "Acme" acme_db) = Returned tenant
      ∧ outcome (get_organization " ACME " acme_db) = Returned tenant
      ∧ outcome (create_organization demo_hash
                   (OrgCreate.mk "  aCmE" "c@x.com" "secret4") 7 acme_db)
        = Raised (HTTPException 400 "Organization already exists").
Proof.
  assert (H1 : outcome (create_organization demo_hash acme_payload 0 empty_db)
               = Returned (OrgOut.mk "acme" "org_acme" 0)) by reflexivity.
  destruct (operations_use_normalized_name demo_hash) as (_ & _ & _ & _ & H).
  destruct (H acme_payload 0 empty_db _ H1) as (tenant & _ & Hget & Hdup).
  split; [exact H1|]. exists tenant.
  split; [exact (Hget "acme" eq_refl)|]. split; [exact (Hget "Acme" eq_refl)|].
  split; [exact (Hget " ACME " eq_refl)|].
  exact (proj1 (Hdup (OrgCreate.mk "  aCmE" "c@x.com" "secret4") 7 eq_refl)).
Defined.

(** C9 at the scenario: Acme's claim, minted before the rename to Beta, is
    presented afterwards. *)
Lemma update_unknown_tenant_not_found_witness :
  outcome (admin_login demo_verify (AdminLogin.mk "a@x.com" "secret1") acme_docs_db)
  = Returned acme_claim
  ∧ ¬ registered (claim_org_id acme_claim) renamed_db
  ∧ outcome (update_organization demo_hash acme_claim
               (OrgUpdate.mk "gamma" None (Some "secret9")) renamed_db)
    = Raised (HTTPException 404 "Organization not found")
  ∧ store (update_organization demo_hash acme_claim
             (OrgUpdate.mk "gamma" None (Some "secret9")) renamed_db) = renamed_db.
Proof.
  assert (H1 : ¬ registered (claim_org_id acme_claim) renamed_db)
    by (apply lookup_org_None; reflexivity).
  destruct (update_unknown_tenant_not_found demo_hash renamed_db acme_claim
              (OrgUpdate.mk "gamma" None (Some "secret9")) H1) as (Hout & _ & Hstore & _).
  split; [reflexivity|]. split; [exact H1|]. split; [exact Hout|exact Hstore].
Defined.

(** C10 at the scenario: a rename to Beta with a new email and the
    password [""]. *)
Lemma update_empty_password_ignored_witness :
  OrgUpdate.password (OrgUpdate.mk "Beta" (Some "new@x.com") (Some "")) = Some ""
  ∧ update_organization demo_hash acme_claim
      (OrgUpdate.mk "Beta" (Some "new@x.com") (Some "")) acme_docs_db
    = update_organization demo_hash acme_claim
        (OrgUpdate.mk "Beta" (Some "new@x.com") None) acme_docs_db
  ∧ AdminDoc.password
      <$> admins (store (update_organization demo_hash acme_claim
                           (OrgUpdate.mk "Beta" (Some "new@x.com") (Some ""))
                           acme_docs_db))
    = ["hash:secret1"].
Proof.
  assert (H1 : OrgUpdate.password (OrgUpdate.mk "Beta" (Some "new@x.com") (Some ""))
               = Some "") by reflexivity.
  destruct (update_empty_password_ignored demo_hash acme_docs_db acme_claim
              (OrgUpdate.mk "Beta" (Some "new@x.com") (Some "")) H1) as [Hrun Hpw].
  split; [exact H1|]. split; [exact Hrun|exact Hpw].
Defined.

(** ** The further properties at the scenario *)

Lemma acme_docs_db_reachable : reachable demo_hash demo_verify acme_docs_db.
Proof. eapply reachable_step; [apply acme_db_reachable|apply step_tenant_write]. Qed.

Lemma acme_again_db_reachable : reachable demo_hash demo_verify acme_again_db.
Proof.
  eapply reachable_step; [|apply step_create].
  eapply reachable_step; [apply acme_docs_db_reachable|apply step_update].
Qed.

(** X4 at the scenario: Acme's two documents moved to Beta and back. *)
Lemma rename_and_sync_collection_round_trip_witness :
  "acme" ≠ "beta"
  ∧ collections acme_docs_db !! org_collection_name "acme" = Some ["doc1"; "doc2"]
  ∧ collections acme_docs_db !! org_collection_name "beta" = None
  ∧ store (rename_and_sync_collection "beta" "acme"
             (store (rename_and_sync_collection "acme" "beta" acme_docs_db)))
    = acme_docs_db.
Proof.
  assert (H1 : "acme" ≠ "beta") by discriminate.
  assert (H2 : collections acme_docs_db !! org_collection_name "acme"
               = Some ["doc1"; "doc2"]) by reflexivity.
  assert (H3 : collections acme_docs_db !! org_collection_name "beta" = None)
    by reflexivity.
  split; [exact H1|]. split; [exact H2|]. split; [exact H3|].
  exact (rename_and_sync_collection_round_trip "acme" "beta" acme_docs_db
           ["doc1"; "doc2"] H1 H2 H3).
Defined.

(** X5 at the scenario: a rename of Acme onto Other fails and changes
    nothing. *)
Lemma operations_fail_cleanly_witness :
  outcome (update_organization demo_hash acme_claim
             (OrgUpdate.mk "OTHER" (Some "x@x.com") (Some "secret7")) two_tenants_db)
  = Raised (HTTPException 400 "New organization name already exists")
  ∧ store (update_organization demo_hash acme_claim
             (OrgUpdate.mk "OTHER" (Some "x@x.com") (Some "secret7")) two_tenants_db)
    = two_tenants_db.
Proof.
  assert (H1 : outcome (update_organization demo_hash acme_claim
                          (OrgUpdate.mk "OTHER" (Some "x@x.com") (Some "secret7"))
                          two_tenants_db)
               = Raised (HTTPException 400 "New organization name already exists"))
    by reflexivity.
  destruct (operations_fail_cleanly demo_hash demo_verify two_tenants_db
              400 "New organization name already exists")
    as (_ & _ & Hupd & _).
  destruct (Hupd acme_claim (OrgUpdate.mk "OTHER" (Some "x@x.com") (Some "secret7")) H1)
    as [Hstore _].
  split; [exact H1|exact Hstore].
Defined.

(** X6 at the scenario: the same rename, by the theorem on taken names. *)
Lemma rename_onto_taken_name_refused_witness :
  registered "acme" two_tenants_db
  ∧ normalize "OTHER" ≠ "acme"
  ∧ registered "other" two_tenants_db
  ∧ calls (update_organization demo_hash acme_claim
             (OrgUpdate.mk "OTHER" (Some "x@x.com") (Some "secret7")) two_tenants_db)
    = [Call_organizations_find_one (org_by_name "acme");
       Call_organizations_find_one (org_by_name "other")].
Proof.
  assert (H1 : registered (claim_org_id acme_claim) two_tenants_db).
  { exists acme_org. split; [left|reflexivity]. }
  assert (H2 : normalize "OTHER" ≠ claim_org_id acme_claim) by (vm_compute; discriminate).
  assert (H3 : registered (normalize "OTHER") two_tenants_db).
  { exists other_org. split; [right; left|reflexivity]. }
  destruct (rename_onto_taken_name_refused demo_hash two_tenants_db acme_claim
              (OrgUpdate.mk "OTHER" (Some "x@x.com") (Some "secret7")) H1 H2 H3)
    as (_ & _ & _ & Hcalls).
  split; [exact H1|]. split; [exact H2|]. split; [exact H3|exact Hcalls].
Defined.

(** X7 at the scenario: Acme renamed to Beta keeps its [_id], admin and
    creation time. *)
Lemma rename_preserves_identity_witness :
  tenant_inv acme_docs_db
  ∧ ids_inv acme_docs_db
  ∧ lookup_org "acme" acme_docs_db = Some acme_org
  ∧ normalize " Beta " ≠ "acme"
  ∧ ¬ registered "beta" acme_docs_db
  ∧ outcome (update_organization demo_hash acme_claim (OrgUpdate.mk " Beta " None None)
               acme_docs_db)
    = Returned (OrgDoc.mk 1 "beta" "org_beta" 0 0)
  ∧ outcome (get_organization "acme" renamed_db)
    = Raised (HTTPException 404 "Organization not found")
  ∧ outcome (get_organization " Beta " renamed_db)
    = Returned (OrgDoc.mk 1 "beta" "org_beta" 0 0).
Proof.
  assert (H1 : tenant_inv acme_docs_db)
    by exact (reachable_tenant_inv _ _ _ acme_docs_db_reachable).
  assert (H2 : ids_inv acme_docs_db)
    by exact (reachable_ids_inv _ _ _ acme_docs_db_reachable).
  assert (H3 : lookup_org "acme" acme_docs_db = Some acme_org) by reflexivity.
  assert (H4 : normalize " Beta " ≠ "acme") by (vm_compute; discriminate).
  assert (H5 : ¬ registered "beta" acme_docs_db) by (apply lookup_org_None; reflexivity).
  assert (H6 : outcome (update_organization demo_hash acme_claim
                          (OrgUpdate.mk " Beta " None None) acme_docs_db)
               = Returned (OrgDoc.mk 1 "beta" "org_beta" 0 0)) by reflexivity.
  destruct (rename_preserves_identity demo_hash acme_docs_db acme_claim
              (OrgUpdate.mk " Beta " None None) acme_org
              (OrgDoc.mk 1 "beta" "org_beta" 0 0) H1 H2 H3 H4 H5 H6)
    as (_ & _ & Hold & Hnew & _).
  split; [exact H1|]. split; [exact H2|]. split; [exact H3|]. split; [exact H4|].
  split; [exact H5|]. split; [exact H6|]. split; [exact Hold|exact Hnew].
Defined.

(** X8 at the scenario: the rename to Beta with a new password. *)
Lemma rename_updates_admin_link_witness :
  lookup_org "acme" acme_docs_db = Some acme_org
  ∧ normalize " Beta " ≠ "acme"
  ∧ ¬ registered "beta" acme_docs_db
  ∧ lookup_admin 0 acme_docs_db = Some acme_admin
  ∧ lookup_admin 0
      (store (update_organization demo_hash acme_claim
                (OrgUpdate.mk " Beta " None (Some "secret8")) acme_docs_db))
    = Some (AdminDoc.mk 0 "a@x.com" "hash:secret8" "admin" "beta").
Proof.
  assert (H1 : lookup_org "acme" acme_docs_db = Some acme_org) by reflexivity.
  assert (H2 : normalize " Beta " ≠ "acme") by (vm_compute; discriminate).
  assert (H3 : ¬ registered "beta" acme_docs_db) by (apply lookup_org_None; reflexivity).
  assert (H4 : lookup_admin 0 acme_docs_db = Some acme_admin) by reflexivity.
  split; [exact H1|]. split; [exact H2|]. split; [exact H3|]. split; [exact H4|].
  exact (rename_updates_admin_link demo_hash acme_docs_db acme_claim
           (OrgUpdate.mk " Beta " None (Some "secret8")) acme_org acme_admin
           H1 H2 H3 H4).
Defined.

(** X9 at the scenario: after the rename to Beta the record and admin 0
    are still linked. *)
Lemma update_keeps_link_witness :
  ids_inv acme_docs_db
  ∧ lookup_org (claim_org_id acme_claim) acme_docs_db = Some acme_org
  ∧ claim_admin_id acme_claim = OrgDoc.admin_id acme_org
  ∧ linked acme_org acme_docs_db
  ∧ linked (OrgDoc.mk 1 "beta" "org_beta" 0 0) renamed_db.
Proof.
  assert (H1 : ids_inv acme_docs_db)
    by exact (reachable_ids_inv _ _ _ acme_docs_db_reachable).
  assert (H2 : lookup_org (claim_org_id acme_claim) acme_docs_db = Some acme_org)
    by reflexivity.
  assert (H3 : claim_admin_id acme_claim = OrgDoc.admin_id acme_org) by reflexivity.
  assert (H4 : linked acme_org acme_docs_db).
  { exists acme_admin. split; reflexivity. }
  destruct (update_keeps_link demo_hash acme_docs_db acme_claim
              (OrgUpdate.mk " Beta " None None) acme_org
              (OrgDoc.mk 1 "beta" "org_beta" 0 0) H1 H2 H3 H4 eq_refl) as [Hl _].
  split; [exact H1|]. split; [exact H2|]. split; [exact H3|]. split; [exact H4|exact Hl].
Defined.

(** X10 at the scenario: the claim minted for the first Acme, used after
    the rename to Beta and the re-creation of Acme, renames the new Acme to
    Gamma; the new Acme's admin keeps the link ["acme"]. *)
Lemma rename_with_foreign_admin_unlinks_witness :
  outcome (admin_login demo_verify (AdminLogin.mk "a@x.com" "secret1") acme_docs_db)
  = Returned acme_claim
  ∧ ids_inv acme_again_db
  ∧ lookup_org "acme" acme_again_db = Some acme_again_org
  ∧ normalize "Gamma" ≠ "acme"
  ∧ ¬ registered "gamma" acme_again_db
  ∧ claim_admin_id acme_claim ≠ OrgDoc.admin_id acme_again_org
  ∧ lookup_admin 2 acme_again_db = Some acme_again_admin
  ∧ outcome (update_organization demo_hash acme_claim (OrgUpdate.mk "Gamma" None None)
               acme_again_db)
    = Returned (OrgDoc.mk 3 "gamma" "org_gamma" 2 2)
  ∧ lookup_admin 2
      (store (update_organization demo_hash acme_claim (OrgUpdate.mk "Gamma" None None)
                acme_again_db))
    = Some acme_again_admin
  ∧ ¬ linked (OrgDoc.mk 3 "gamma" "org_gamma" 2 2)
        (store (update_organization demo_hash acme_claim
                  (OrgUpdate.mk "Gamma" None None) acme_again_db)).
Proof.
  assert (H1 : ids_inv acme_again_db)
    by exact (reachable_ids_inv _ _ _ acme_again_db_reachable).
  assert (H2 : lookup_org (claim_org_id acme_claim) acme_again_db = Some acme_again_org)
    by reflexivity.
  assert (H3 : normalize "Gamma" ≠ claim_org_id acme_claim) by (vm_compute; discriminate).
  assert (H4 : ¬ registered (normalize "Gamma") acme_again_db)
    by (apply lookup_org_None; reflexivity).
  assert (H5 : claim_admin_id acme_claim ≠ OrgDoc.admin_id acme_again_org)
    by (vm_compute; discriminate).
  assert (H6 : lookup_admin (OrgDoc.admin_id acme_again_org) acme_again_db
               = Some acme_again_admin) by reflexivity.
  destruct (rename_with_foreign_admin_unlinks demo_hash acme_again_db acme_claim
              (OrgUpdate.mk "Gamma" None None) acme_again_org acme_again_admin
              H1 H2 H3 H4 H5 H6) as (Hout & Hadm & Hunlinked).
  split; [reflexivity|]. split; [exact H1|]. split; [exact H2|]. split; [exact H3|].
  split; [exact H4|]. split; [exact H5|]. split; [exact H6|]. split; [exact Hout|].
  split; [exact Hadm|exact (Hunlinked eq_refl)].
Defined.

(** X11 at the scenario: Acme deletes itself next to Other. *)
Lemma delete_leaves_other_tenants_witness :
  claim_org_id acme_claim = normalize " ACME "
  ∧ lookup_org (normalize " ACME ") two_tenants_db = Some acme_org
  ∧ organizations (store (delete_organization " ACME " acme_claim two_tenants_db))
    = [other_org]
  ∧ other_org ∈ organizations (store (delete_organization " ACME " acme_claim
                                       two_tenants_db))
  ∧ collections (store (delete_organization " ACME " acme_claim two_tenants_db))
      !! "org_other" = Some [].
Proof.
  assert (H1 : claim_org_id acme_claim = normalize " ACME ") by reflexivity.
  assert (H2 : lookup_org (normalize " ACME ") two_tenants_db = Some acme_org)
    by reflexivity.
  destruct (delete_leaves_other_tenants two_tenants_db acme_claim " ACME " acme_org
              H1 H2) as (Horgs & _ & Hcoll & _).
  assert (H3 : other_org ∈ organizations two_tenants_db) by (right; left).
  assert (H4 : OrgDoc.organization_name other_org ≠ normalize " ACME ")
    by (vm_compute; discriminate).
  split; [exact H1|]. split; [exact H2|]. split; [reflexivity|].
  split; [exact (Horgs other_org H3 H4)|].
  rewrite Hcoll. reflexivity.
Defined.

(** X12 at the scenario: Acme deletes itself and is created again. *)
Lemma delete_then_create_witness :
  tenant_inv two_tenants_db
  ∧ claim_org_id acme_claim = normalize " ACME "
  ∧ lookup_org (normalize " ACME ") two_tenants_db = Some acme_org
  ∧ normalize (OrgCreate.organization_name acme_again_payload) = normalize " ACME "
  ∧ outcome (delete_organization " ACME " acme_claim two_tenants_db) = Returned "acme"
  ∧ outcome (create_organization demo_hash acme_again_payload 9
               (store (delete_organization " ACME " acme_claim two_tenants_db)))
    = Returned (OrgOut.mk "acme" "org_acme" 4)
  ∧ collections (store (create_organization demo_hash acme_again_payload 9
                          (store (delete_organization " ACME " acme_claim
                                    two_tenants_db)))) !! "org_acme" = Some [].
Proof.
  assert (H1 : tenant_inv two_tenants_db)
    by exact (reachable_tenant_inv _ _ _ two_tenants_db_reachable).
  assert (H2 : claim_org_id acme_claim = normalize " ACME ") by reflexivity.
  assert (H3 : lookup_org (normalize " ACME ") two_tenants_db = Some acme_org)
    by reflexivity.
  assert (H4 : normalize (OrgCreate.organization_name acme_again_payload)
               = normalize " ACME ") by reflexivity.
  assert (H5 : outcome (delete_organization " ACME " acme_claim two_tenants_db)
               = Returned "acme") by reflexivity.
  assert (H6 : outcome (create_organization demo_hash acme_again_payload 9
                          (store (delete_organization " ACME " acme_claim
                                    two_tenants_db)))
               = Returned (OrgOut.mk "acme" "org_acme" 4)) by reflexivity.
  destruct (delete_then_create demo_hash two_tenants_db acme_claim " ACME " "acme"
              acme_org acme_again_payload 9 H1 H2 H3 H4 H5) as [_ Hpost].
  destruct (Hpost _ H6) as (_ & Hcoll & _).
  split; [exact H1|]. split; [exact H2|]. split; [exact H3|]. split; [exact H4|].
  split; [exact H5|]. split; [exact H6|exact Hcoll].
Defined.

(** X13 at the scenario: Other is created next to Acme. *)
Lemma create_organization_establishes_witness :
  ids_inv acme_docs_db
  ∧ ¬ registered (normalize "Other") acme_docs_db
  ∧ outcome (create_organization demo_hash other_payload 1 acme_docs_db)
    = Returned (OrgOut.mk "other" "org_other" 2)
  ∧ outcome (get_organization "Other" two_tenants_db) = Returned other_org
  ∧ lookup_admin 2 two_tenants_db
    = Some (AdminDoc.mk 2 "o@x.com" "hash:secret3" "admin" "other")
  ∧ linked other_org two_tenants_db
  ∧ collections two_tenants_db !! "org_other" = Some [].
Proof.
  assert (H1 : ids_inv acme_docs_db)
    by exact (reachable_ids_inv _ _ _ acme_docs_db_reachable).
  assert (H2 : ¬ registered (normalize (OrgCreate.organization_name other_payload))
                 acme_docs_db) by (apply lookup_org_None; reflexivity).
  assert (H3 : outcome (create_organization demo_hash other_payload 1 acme_docs_db)
               = Returned (OrgOut.mk "other" "org_other" 2)) by reflexivity.
  destruct (create_organization_establishes demo_hash acme_docs_db other_payload 1
              (OrgOut.mk "other" "org_other" 2) H1 H2 H3)
    as (_ & Hget & Hadm & Hlinked & Hcoll & _).
  split; [exact H1|]. split; [exact H2|]. split; [exact H3|]. split; [exact Hget|].
  split; [exact Hadm|]. split; [exact Hlinked|exact Hcoll].
Defined.

(** X14 at the scenario: Other's admin logs in right after the create. *)
Lemma create_then_login_witness :
  ids_inv acme_docs_db
  ∧ refs_inv acme_docs_db
  ∧ ¬ registered (normalize "Other") acme_docs_db
  ∧ find_first (admin_matches (admin_by_email "o@x.com")) (admins acme_docs_db) = None
  ∧ demo_verify "secret3" (demo_hash "secret3") = true
  ∧ outcome (admin_login demo_verify (AdminLogin.mk "o@x.com" "secret3") two_tenants_db)
    = Returned {| claim_admin_id := 2; claim_org_id := "other" |}.
Proof.
  assert (H1 : ids_inv acme_docs_db)
    by exact (reachable_ids_inv _ _ _ acme_docs_db_reachable).
  assert (H2 : refs_inv acme_docs_db)
    by exact (reachable_refs_inv _ _ _ acme_docs_db_reachable).
  assert (H3 : ¬ registered (normalize (OrgCreate.organization_name other_payload))
                 acme_docs_db) by (apply lookup_org_None; reflexivity).
  assert (H4 : find_first (admin_matches (admin_by_email (OrgCreate.email other_payload)))
                 (admins acme_docs_db) = None) by reflexivity.
  assert (H5 : demo_verify (OrgCreate.password other_payload)
                 (demo_hash (OrgCreate.password other_payload)) = true) by reflexivity.
  split; [exact H1|]. split; [exact H2|]. split; [exact H3|]. split; [exact H4|].
  split; [exact H5|].
  exact (create_then_login demo_hash demo_verify acme_docs_db other_payload 1
           H1 H2 H3 H4 H5).
Defined.

(** X15 at the scenario: what Acme's claim vouches for. *)
Lemma admin_login_sound_witness :
  outcome (admin_login demo_verify (AdminLogin.mk "a@x.com" "secret1") two_tenants_db)
  = Returned acme_claim
  ∧ store (admin_login demo_verify (AdminLogin.mk "a@x.com" "secret1") two_tenants_db)
    = two_tenants_db
  ∧ registered (claim_org_id acme_claim) two_tenants_db.
Proof.
  assert (H1 : outcome (admin_login demo_verify (AdminLogin.mk "a@x.com" "secret1")
                          two_tenants_db) = Returned acme_claim) by reflexivity.
  destruct (admin_login_sound demo_verify two_tenants_db
              (AdminLogin.mk "a@x.com" "secret1") acme_claim H1)
    as (Hstore & a & org & _ & _ & _ & _ & _ & Hreg).
  split; [exact H1|]. split; [exact Hstore|exact Hreg].
Defined.

(** X16 at the scenario: the admins after the stale claim was used. *)
Lemma admin_records_invariant_witness :
  reachable demo_hash demo_verify acme_again_db
  ∧ admin_inv acme_again_db
  ∧ admin_inv (store (update_organization demo_hash acme_claim
                        (OrgUpdate.mk "Gamma" None None) acme_again_db)).
Proof.
  destruct (admin_records_invariant demo_hash demo_verify acme_again_db
              (store (update_organization demo_hash acme_claim
                        (OrgUpdate.mk "Gamma" None None) acme_again_db)))
    as [Hreach Hstep].
  split; [exact acme_again_db_reachable|].
  split; [exact (Hreach acme_again_db_reachable)|].
  exact (Hstep (Hreach acme_again_db_reachable) (step_update _ _ _ _ _)).
Defined.

(** X17 at the scenario: the references after Acme was taken again. *)
Lemma registry_references_admins_witness :
  reachable demo_hash demo_verify acme_again_db
  ∧ refs_inv acme_again_db
  ∧ ids_inv acme_again_db.
Proof.
  destruct (registry_references_admins demo_hash demo_verify acme_again_db
              acme_again_db_reachable) as [Hrefs Hids].
  split; [exact acme_again_db_reachable|]. split; [exact Hrefs|exact Hids].
Defined.

(** X18 at a name with whitespace on both sides. *)
Lemma strip_removes_surrounding_whitespace_witness :
  strip "  Acme Corp " = "Acme Corp"
  ∧ starts_clean (strip "  Acme Corp ")
  ∧ isspace "p" = false
  ∧ all_space "   " = true
  ∧ normalize "   " = "".
Proof.
  destruct (strip_removes_surrounding_whitespace "  Acme Corp ")
    as (_ & Hstart & Hlast & _).
  destruct (strip_removes_surrounding_whitespace "   ") as (_ & _ & _ & _ & _ & Hempty).
  assert (H1 : all_space "   " = true) by reflexivity.
  split; [reflexivity|]. split; [exact Hstart|]. split; [exact (Hlast "p"%char eq_refl)|].
  split; [exact H1|exact (proj2 Hempty H1)].
Defined.

(** X19 at the scenario: a valid create request whose name is three
    spaces, and a rename of Acme to a blank name. *)
Lemma blank_name_becomes_empty_tenant_witness :
  OrgCreate.valid (OrgCreate.mk "   " "e@x.com" "secret6") = true
  ∧ all_space "   " = true
  ∧ ¬ registered "" acme_docs_db
  ∧ outcome (create_organization demo_hash (OrgCreate.mk "   " "e@x.com" "secret6") 3
               acme_docs_db)
    = Returned (OrgOut.mk "" "org_" 2)
  ∧ ∃ view, outcome (update_organization demo_hash acme_claim
                       (OrgUpdate.mk " " None None) acme_docs_db) = Returned view
            ∧ OrgDoc.organization_name view = ""
            ∧ OrgDoc.collection_name view = "org_".
Proof.
  assert (H1 : all_space "   " = true) by reflexivity.
  assert (H2 : ¬ registered "" acme_docs_db) by (apply lookup_org_None; reflexivity).
  assert (H3 : lookup_org (claim_org_id acme_claim) acme_docs_db = Some acme_org)
    by reflexivity.
  assert (H4 : claim_org_id acme_claim ≠ "") by discriminate.
  destruct (blank_name_becomes_empty_tenant demo_hash acme_docs_db) as [Hcreate Hupdate].
  destruct (Hcreate (OrgCreate.mk "   " "e@x.com" "secret6") 3 H1 H2) as [Hout _].
  split; [reflexivity|]. split; [exact H1|]. split; [exact H2|]. split; [exact Hout|].
  exact (Hupdate acme_claim (OrgUpdate.mk " " None None) acme_org eq_refl H3 H4 H2).
Defined.

(** X20 at the scenario: Acme's claim minted at time 0 for one minute and
    presented at time 30. *)
Lemma token_round_trip_witness :
  (DATETIME_MIN <= 0 <= DATETIME_MAX)%Z
  ∧ (DATETIME_MIN <= 0 + 60 <= DATETIME_MAX)%Z
  ∧ acme_token_data !! "admin_id" = Some (JStr "0")
  ∧ acme_token_data !! "org_id" = Some (JStr "acme")
  ∧ demo_jwt_decode 30 (demo_jwt_encode (demo_payload 60)) = Some (demo_payload 60)
  ∧ create_access_token demo_jwt_encode acme_token_data (Some 1%Z) 0
    = Returned (demo_jwt_encode (demo_payload 60))
  ∧ get_current_admin demo_jwt_decode (demo_jwt_encode (demo_payload 60)) 30
    = Returned {| current_admin_id := JStr "0"; current_org_id := JStr "acme" |}.
Proof.
  assert (H0 : (DATETIME_MIN <= 0 <= DATETIME_MAX)%Z)
    by (unfold DATETIME_MIN, DATETIME_MAX; lia).
  assert (H0' : (DATETIME_MIN <= 0 + 60 <= DATETIME_MAX)%Z)
    by (unfold DATETIME_MIN, DATETIME_MAX; lia).
  assert (H1 : acme_token_data !! "admin_id" = Some (JStr "0")) by reflexivity.
  assert (H2 : acme_token_data !! "org_id" = Some (JStr "acme")) by reflexivity.
  assert (H3 : demo_jwt_decode 30 (demo_jwt_encode (demo_payload 60))
               = Some (demo_payload 60)) by (vm_compute; reflexivity).
  destruct (token_round_trip demo_jwt_encode demo_jwt_decode acme_token_data
              (Some 1%Z) 0 30 (JStr "0") (JStr "acme") H0) as [Hok _].
  destruct (Hok H0' H1 ltac:(discriminate) H2 ltac:(discriminate) H3) as [Hmint Hget].
  split; [exact H0|]. split; [exact H0'|]. split; [exact H1|]. split; [exact H2|].
  split; [exact H3|]. split; [exact Hmint|exact Hget].
Defined.

(** X22 at the scenario: a login with a wrong password after Acme was
    taken again. *)
Lemma admin_login_linkage_never_fails_witness :
  reachable demo_hash demo_verify acme_again_db
  ∧ admins_owned acme_again_db
  ∧ outcome (admin_login demo_verify (AdminLogin.mk "n@x.com" "wrong") acme_again_db)
    = Raised (HTTPException 401 "Invalid credentials")
  ∧ outcome (admin_login demo_verify (AdminLogin.mk "n@x.com" "secret5") acme_again_db)
    = Returned {| claim_admin_id := 2; claim_org_id := "acme" |}.
Proof.
  destruct (admin_login_linkage_never_fails demo_hash demo_verify acme_again_db
              (AdminLogin.mk "n@x.com" "wrong") acme_again_db_reachable) as [Howned _].
  split; [exact acme_again_db_reachable|]. split; [exact Howned|].
  split; reflexivity.
Defined.

(** X23 at the scenario: the rename of Acme to Beta. Before the copy the
    record and the admin carry ["beta"] and the documents are still under
    ["org_acme"] alone. *)
Lemma rename_metadata_before_migration_witness :
  ids_inv acme_docs_db
  ∧ lookup_org "acme" acme_docs_db = Some acme_org
  ∧ normalize " Beta " ≠ "acme"
  ∧ ¬ registered "beta" acme_docs_db
  ∧ claim_admin_id acme_claim = OrgDoc.admin_id acme_org
  ∧ lookup_admin 0 acme_docs_db = Some acme_admin
  ∧ collections acme_docs_db !! "org_acme" = Some ["doc1"; "doc2"]
  ∧ renamed_db
    = replay (calls (update_organization demo_hash acme_claim
                       (OrgUpdate.mk " Beta " None None) acme_docs_db)) acme_docs_db.
Proof.
  assert (H1 : ids_inv acme_docs_db)
    by exact (reachable_ids_inv _ _ _ acme_docs_db_reachable).
  assert (H2 : lookup_org (claim_org_id acme_claim) acme_docs_db = Some acme_org)
    by reflexivity.
  assert (H3 : normalize " Beta " ≠ claim_org_id acme_claim)
    by (vm_compute; discriminate).
  assert (H4 : ¬ registered (normalize " Beta ") acme_docs_db)
    by (apply lookup_org_None; reflexivity).
  assert (H5 : claim_admin_id acme_claim = OrgDoc.admin_id acme_org) by reflexivity.
  assert (H6 : lookup_admin (OrgDoc.admin_id acme_org) acme_docs_db = Some acme_admin)
    by reflexivity.
  assert (H7 : collections acme_docs_db !! org_collection_name (claim_org_id acme_claim)
               = Some ["doc1"; "doc2"]) by reflexivity.
  destruct (rename_metadata_before_migration demo_hash acme_docs_db acme_claim
              (OrgUpdate.mk " Beta " None None) acme_org acme_admin ["doc1"; "doc2"]
              H1 H2 H3 H4 H5 H6 H7) as [Hlogged _].
  split; [exact H1|]. split; [exact H2|]. split; [exact H3|]. split; [exact H4|].
  split; [exact H5|]. split; [exact H6|]. split; [exact H7|exact Hlogged].
Defined.

(** C6. A rename in which the tenant link of the tenant's admin is never
    written, before the migration or after it. The claim minted for the
    first Acme is used after Acme was renamed to Beta and the name Acme was
    registered again: the database is reachable, the call renames the new
    Acme to Gamma and migrates its collection, and after every prefix of
    its calls the new Acme's admin (identity 2) still carries ["acme"]. The
    link written is that of the claim's admin (identity 0), who administers
    Beta: Beta's record and its admin no longer point at each other. *)
Lemma rename_under_stale_claim_skips_admin_link :
  let r := update_organization demo_hash acme_claim (OrgUpdate.mk "Gamma" None None)
             acme_again_db in
  reachable demo_hash demo_verify acme_again_db
  ∧ outcome (admin_login demo_verify (AdminLogin.mk "a@x.com" "secret1") acme_docs_db)
    = Returned acme_claim
  ∧ lookup_org "acme" acme_again_db = Some acme_again_org
  ∧ lookup_admin (OrgDoc.admin_id acme_again_org) acme_again_db = Some acme_again_admin
  ∧ outcome r = Returned (OrgDoc.mk 3 "gamma" "org_gamma" 2 2)
  ∧ calls r
    = [Call_organizations_find_one (org_by_name "acme");
       Call_organizations_find_one (org_by_name "gamma");
       Call_organizations_update_one (org_by_id 3)
         {| set_organization_name := "gamma"; set_collection_name := "org_gamma" |};
       Call_admins_update_one (admin_by_id 0)
         {| set_email := None; set_password := None; set_organization := Some "gamma" |};
       Call_list_collection_names;
       Call_aggregate_out "org_acme" "org_gamma";
       Call_drop_collection "org_acme";
       Call_organizations_find_one (org_by_name "gamma")]
  ∧ store r = replay (calls r) acme_again_db
  ∧ (∀ k, AdminDoc.organization
            <$> lookup_admin 2 (replay (take k (calls r)) acme_again_db)
          = Some "acme")
  ∧ AdminDoc.organization <$> lookup_admin 0 (store r) = Some "gamma"
  ∧ lookup_org "beta" (store r) = Some (OrgDoc.mk 1 "beta" "org_beta" 0 0)
  ∧ ¬ linked (OrgDoc.mk 1 "beta" "org_beta" 0 0) (store r)
  ∧ ¬ linked (OrgDoc.mk 3 "gamma" "org_gamma" 2 2) (store r).
Proof.
  intros r.
  split; [exact acme_again_db_reachable|].
  split; [reflexivity|]. split; [reflexivity|]. split; [reflexivity|].
  split; [reflexivity|]. split; [reflexivity|]. split; [reflexivity|].
  split.
  { intros k. do 9 (destruct k as [|k]; [reflexivity|]). reflexivity. }
  split; [reflexivity|]. split; [reflexivity|].
  split.
  - intros (a & Ha & Hlink). vm_compute in Ha. injection Ha as <-. discriminate.
  - intros (a & Ha & Hlink). vm_compute in Ha. injection Ha as <-. discriminate.
Qed.

(** X1 at the scenario: the collection of Acme is created on the empty
    database; a second run lists the collections and returns. *)
Lemma create_org_collection_idempotent_witness :
  outcome (create_org_collection "acme" empty_db) = Returned "org_acme"
  ∧ collections (store (create_org_collection "acme" empty_db)) !! "org_acme" = Some []
  ∧ create_org_collection "acme" (store (create_org_collection "acme" empty_db))
    = MkRun (Returned "org_acme") (store (create_org_collection "acme" empty_db))
        [Call_list_collection_names].
Proof.
  assert (H1 : outcome (create_org_collection "acme" empty_db) = Returned "org_acme")
    by reflexivity.
  destruct (create_org_collection_idempotent "acme" empty_db "org_acme" H1)
    as (_ & Hcoll & _ & _ & _ & Hagain).
  split; [exact H1|]. split; [exact Hcoll|exact Hagain].
Defined.
